(** * GKE control-plane reconciliation: a shallow embedding

    This development embeds the cluster service of the GKE provider
    ([cloud/services/container/clusters/reconcile.go]) and the node-pool
    conversion, the name accessors and the constructor of
    [cloud/scope/managedmachinepool.go], and states the properties of the
    specification, and further properties of the code, over that embedding.

    Conventions.
    - A Go pointer [*T] is an [option T]; dereferencing [nil] panics.
    - A Go slice that distinguishes [nil] from empty is an [option (list T)].
    - Code that may panic returns in [go]; code that also mutates the status
      record or talks to a collaborator runs in [Pass].
    - Logging is not modelled. *)

From Stdlib Require Import ZArith String Ascii List Bool Lia.
From stdpp Require Import base option list strings gmap.

Open Scope string_scope.
Open Scope Z_scope.
Open Scope list_scope.

(** ** Panics *)

Inductive panic : Type :=
| NilPointerDereference
| IndexOutOfRange
| IntegerDivideByZero
| LibraryPanic.

Inductive go (A : Type) : Type :=
| Returns (a : A)
| Panics (p : panic).
Arguments Returns {A} a.
Arguments Panics {A} p.

Definition go_bind {A B} (m : go A) (k : A -> go B) : go B :=
  match m with
  | Returns a => k a
  | Panics p => Panics p
  end.

(** [*p] *)
Definition deref {A} (p : option A) : go A :=
  match p with
  | Some a => Returns a
  | None => Panics NilPointerDereference
  end.

(** [xs[i]] *)
Definition index {A} (xs : list A) (i : nat) : go A :=
  match xs !! i with
  | Some a => Returns a
  | None => Panics IndexOutOfRange
  end.

Definition fault_free {A} (m : go A) : Prop := exists a, m = Returns a.

(** ** 32-bit integers *)

Definition wrap32 (z : Z) : Z := (z + 2 ^ 31) mod 2 ^ 32 - 2 ^ 31.

(** [a / b] on [int32]: truncated quotient, panics on a zero divisor. *)
Definition int32_div (a b : Z) : go Z :=
  if b =? 0 then Panics IntegerDivideByZero else Returns (wrap32 (Z.quot a b)).

(** ** Errors *)

Module codes.
(** [google.golang.org/grpc/codes]; only [NotFound] is inspected. *)
Inductive Code : Type := OK | NotFound | Unavailable | OtherCode (n : Z).
End codes.

Module containerpb.

Inductive Cluster_Status : Type :=
| Cluster_STATUS_UNSPECIFIED
| Cluster_PROVISIONING
| Cluster_RUNNING
| Cluster_RECONCILING
| Cluster_STOPPING
| Cluster_ERROR
| Cluster_DEGRADED
| Cluster_Status_value (n : Z).   (* a wire value outside 0..6 *)

Inductive ReleaseChannel_Channel : Type :=
| ReleaseChannel_UNSPECIFIED
| ReleaseChannel_RAPID
| ReleaseChannel_REGULAR
| ReleaseChannel_STABLE.

Definition ReleaseChannel_Channel_eqb (a b : ReleaseChannel_Channel) : bool :=
  match a, b with
  | ReleaseChannel_UNSPECIFIED, ReleaseChannel_UNSPECIFIED
  | ReleaseChannel_RAPID, ReleaseChannel_RAPID
  | ReleaseChannel_REGULAR, ReleaseChannel_REGULAR
  | ReleaseChannel_STABLE, ReleaseChannel_STABLE => true
  | _, _ => false
  end.

Record ReleaseChannel : Type := { Channel : ReleaseChannel_Channel }.

Record MasterAuthorizedNetworksConfig_CidrBlock : Type := {
  DisplayName : string;
  CidrBlock : string;
}.

Record MasterAuthorizedNetworksConfig : Type := {
  Enabled : bool;
  CidrBlocks : option (list MasterAuthorizedNetworksConfig_CidrBlock);
  GcpPublicCidrsAccessEnabled : option bool;
}.

Record StatusCondition : Type := { Message : string }.

Record Autopilot : Type := { Autopilot_Enabled : bool }.
Record WorkloadIdentityConfig : Type := { WorkloadPool : string }.

Inductive DatapathProvider : Type :=
| DatapathProvider_DATAPATH_PROVIDER_UNSPECIFIED
| DatapathProvider_LEGACY_DATAPATH
| DatapathProvider_ADVANCED_DATAPATH.

Record NetworkConfig : Type := { NetworkConfig_DatapathProvider : DatapathProvider }.

Record AddonsConfig : Type := {
  GcpFilestoreCsiDriverConfig : option bool;   (* Enabled *)
  NetworkPolicyConfig : option bool;           (* Disabled *)
  HorizontalPodAutoscaling : option bool;      (* Disabled *)
  HttpLoadBalancing : option bool;             (* Disabled *)
}.

Record NodePoolAutoscaling : Type := {
  Autoscaling_Enabled : bool;
  MinNodeCount : Z;
  MaxNodeCount : Z;
}.

Record NodeManagement : Type := {
  AutoUpgrade : bool;
  AutoRepair : bool;
}.

Record NodeTaint : Type := {
  NodeTaint_Key : string;
  NodeTaint_Value : string;
  NodeTaint_Effect : Z;
}.

Record NodeConfig : Type := {
  MachineType : string;
  DiskSizeGb : Z;
  DiskType : string;
  Labels : gmap string string;
  Taints : list NodeTaint;
  Metadata : gmap string string;
  ImageType : string;
  Preemptible : bool;
  Spot : bool;
}.

Record NodePool : Type := {
  NodePool_Name : string;
  InitialNodeCount : Z;
  Autoscaling : option NodePoolAutoscaling;
  Management : option NodeManagement;
  Config : option NodeConfig;
  Version : string;
}.

Record Cluster : Type := {
  Name : string;
  Network : string;
  Cluster_Autopilot : option Autopilot;
  Cluster_ReleaseChannel : option ReleaseChannel;
  Cluster_WorkloadIdentityConfig : option WorkloadIdentityConfig;
  Cluster_NetworkConfig : option NetworkConfig;
  Cluster_AddonsConfig : option AddonsConfig;
  ResourceLabels : gmap string string;
  Cluster_MasterAuthorizedNetworksConfig : option MasterAuthorizedNetworksConfig;
  InitialClusterVersion : string;
  NodePools : option (list NodePool);
  (* output-only fields *)
  Status : Cluster_Status;
  CurrentMasterVersion : string;
  Endpoint : string;
  Conditions : list StatusCondition;
}.

Record ClusterUpdate : Type := {
  DesiredReleaseChannel : option ReleaseChannel;
  DesiredMasterVersion : string;
  DesiredMasterAuthorizedNetworksConfig : option MasterAuthorizedNetworksConfig;
}.

Record UpdateClusterRequest : Type := {
  UpdateClusterRequest_Name : string;
  Update : option ClusterUpdate;
}.

Record CreateClusterRequest : Type := {
  CreateClusterRequest_Cluster : option Cluster;
  Parent : string;
}.

End containerpb.

Inductive error : Type :=
| ErrAutopilotClusterMachinePoolsNotAllowed
| ErrUnexpectedClusterStatus (status : containerpb.Cluster_Status)
| APIError (code : codes.Code) (text : string)
| PlainError (text : string)
| Errorf_w (format : string) (cause : error).   (* fmt.Errorf("...: %w", err) *)

(** [errors.As(err, &e)] for [e : *apierror.APIError], followed by
    [e.GRPCStatus().Code()]: the code of the first API error on the
    unwrap chain. *)
Fixpoint errors_As_APIError (err : error) : option codes.Code :=
  match err with
  | APIError code _ => Some code
  | Errorf_w _ cause => errors_As_APIError cause
  | _ => None
  end.

(** ** Desired state (API types of the provider) *)

Module infrav1exp.

Inductive ReleaseChannel : Type :=
| Rapid
| Regular
| Stable
| ReleaseChannel_other (s : string).

Record MasterAuthorizedNetworksConfigCidrBlock : Type := {
  DisplayName : string;
  CidrBlock : string;
}.

Record MasterAuthorizedNetworksConfig : Type := {
  CidrBlocks : list MasterAuthorizedNetworksConfigCidrBlock;
  GcpPublicCidrsAccessEnabled : option bool;
}.

Record GCPManagedControlPlaneSpec : Type := {
  Project : string;
  EnableAutopilot : bool;
  EnableWorkloadIdentity : bool;
  ReleaseChannel_ : option ReleaseChannel;
  ControlPlaneVersion : option string;
  MasterAuthorizedNetworksConfig_ : option MasterAuthorizedNetworksConfig;
}.

Inductive DatapathProvider : Type :=
| DatapathProviderUnspecified
| DatapathProviderLegacyDatapath
| DatapathProviderAdvancedDatapath
| DatapathProvider_other (s : string).

Record AddonsConfig : Type := {
  GcpFilestoreCsiDriverEnabled : option bool;
  NetworkPolicyEnabled : option bool;
  HorizontalPodAutoscalingEnabled : option bool;
  HTTPLoadBalancingEnabled : option bool;
}.

Record GCPManagedClusterSpec : Type := {
  Network_Name : option string;
  Network_DatapathProvider : option DatapathProvider;
  AddonsConfig_ : option AddonsConfig;
}.

Record GCPManagedCluster : Type := {
  GCPManagedCluster_Labels : gmap string string;
  GCPManagedCluster_Spec : GCPManagedClusterSpec;
}.

Record NodePoolAutoScaling : Type := {
  MinCount : option Z;
  MaxCount : option Z;
}.

Record NodeManagement : Type := {
  AutoUpgrade : option bool;
  AutoRepair : option bool;
}.

Record Taint : Type := {
  Taint_Effect : string;
  Taint_Key : string;
  Taint_Value : string;
}.

Record GCPManagedMachinePoolSpec : Type := {
  NodePoolName : string;
  Scaling : option NodePoolAutoScaling;
  Management : option NodeManagement;
  MachineType : string;
  DiskSizeGb : Z;
  DiskType : string;
  KubernetesLabels : gmap string string;
  KubernetesTaints : list Taint;
  AdditionalLabels : gmap string string;
  ImageType : string;
  Preemptible : option bool;
  Spot : option bool;
}.

Record GCPManagedMachinePool : Type := {
  Name : string;
  Spec : GCPManagedMachinePoolSpec;
}.

(** Condition types and reasons of the control plane; their string values
    live outside the modelled files, only their identity matters. *)
Inductive Reason : Type :=
| GKEControlPlaneCreatingReason
| GKEControlPlaneCreatedReason
| GKEControlPlaneUpdatedReason
| GKEControlPlaneDeletingReason
| GKEControlPlaneDeletedReason
| GKEControlPlaneErrorReason
| GKEControlPlaneReconciliationFailedReason
| GKEControlPlaneRequiresAtLeastOneNodePoolReason.

End infrav1exp.

Module clusterv1exp.
Record MachinePool : Type := {
  Spec_Replicas : option Z;
  Spec_Template_Spec_Version : option string;
}.
End clusterv1exp.

Module clusterv1.

Inductive ConditionType : Type :=
| ReadyCondition
| GKEControlPlaneReadyCondition
| GKEControlPlaneCreatingCondition
| GKEControlPlaneUpdatingCondition
| GKEControlPlaneDeletingCondition.

Inductive ConditionSeverity : Type :=
| ConditionSeverityError
| ConditionSeverityWarning
| ConditionSeverityInfo
| ConditionSeverityNone.

Inductive ConditionStatus : Type := ConditionTrue | ConditionFalse.

(** The message handed to [conditions.MarkFalse]: the empty string or
    [err.Error()]. *)
Inductive ConditionMessage : Type :=
| EmptyMessage
| ErrorMessage (err : error).

Record Condition : Type := {
  Status : ConditionStatus;
  Reason : option infrav1exp.Reason;
  Severity : ConditionSeverity;
  Message : ConditionMessage;
}.

End clusterv1.

#[global] Instance ConditionType_eq_dec : EqDecision clusterv1.ConditionType.
Proof. solve_decision. Defined.

Definition ConditionType_code (t : clusterv1.ConditionType) : nat :=
  match t with
  | clusterv1.ReadyCondition => 0
  | clusterv1.GKEControlPlaneReadyCondition => 1
  | clusterv1.GKEControlPlaneCreatingCondition => 2
  | clusterv1.GKEControlPlaneUpdatingCondition => 3
  | clusterv1.GKEControlPlaneDeletingCondition => 4
  end%nat.

Definition ConditionType_of_code (n : nat) : option clusterv1.ConditionType :=
  match n with
  | 0 => Some clusterv1.ReadyCondition
  | 1 => Some clusterv1.GKEControlPlaneReadyCondition
  | 2 => Some clusterv1.GKEControlPlaneCreatingCondition
  | 3 => Some clusterv1.GKEControlPlaneUpdatingCondition
  | 4 => Some clusterv1.GKEControlPlaneDeletingCondition
  | _ => None
  end%nat.

#[global] Instance ConditionType_countable : Countable clusterv1.ConditionType.
Proof.
  refine (inj_countable ConditionType_code ConditionType_of_code _).
  by intros [].
Defined.

(** ** The scope, the status record and the collaborators *)

(** [scope.ManagedControlPlaneScope] as the service reads it.  The values
    of the scope's accessor methods, whose bodies are outside the modelled
    files, are carried as fields. *)
Record ManagedControlPlaneScope : Type := {
  GCPManagedControlPlane_Spec : infrav1exp.GCPManagedControlPlaneSpec;
  GCPManagedCluster : infrav1exp.GCPManagedCluster;
  ClusterName : string;
  ClusterFullName : string;
  ClusterLocation : string;
  Region : string;
  IsAutopilotCluster : bool;
}.

(** [GCPManagedControlPlane.Status], with the condition list kept as a map
    from condition type to the condition last written for it. *)
Record GCPManagedControlPlaneStatus : Type := {
  Initialized : bool;
  Ready : bool;
  CurrentVersion : string;
  Conditions : gmap clusterv1.ConditionType clusterv1.Condition;
}.

Definition set_Initialized (b : bool) (st : GCPManagedControlPlaneStatus) :=
  {| Initialized := b; Ready := Ready st;
     CurrentVersion := CurrentVersion st; Conditions := Conditions st |}.
Definition set_Ready (b : bool) (st : GCPManagedControlPlaneStatus) :=
  {| Initialized := Initialized st; Ready := b;
     CurrentVersion := CurrentVersion st; Conditions := Conditions st |}.
Definition set_CurrentVersion (v : string) (st : GCPManagedControlPlaneStatus) :=
  {| Initialized := Initialized st; Ready := Ready st;
     CurrentVersion := v; Conditions := Conditions st |}.
Definition set_Condition (t : clusterv1.ConditionType) (c : clusterv1.Condition)
    (st : GCPManagedControlPlaneStatus) :=
  {| Initialized := Initialized st; Ready := Ready st;
     CurrentVersion := CurrentVersion st;
     Conditions := <[t := c]> (Conditions st) |}.

(** [conditions.TrueCondition] and [conditions.FalseCondition]. *)
Definition TrueCondition : clusterv1.Condition :=
  {| clusterv1.Status := clusterv1.ConditionTrue;
     clusterv1.Reason := None;
     clusterv1.Severity := clusterv1.ConditionSeverityNone;
     clusterv1.Message := clusterv1.EmptyMessage |}.

Definition FalseCondition (reason : infrav1exp.Reason)
    (severity : clusterv1.ConditionSeverity) (message : clusterv1.ConditionMessage)
    : clusterv1.Condition :=
  {| clusterv1.Status := clusterv1.ConditionFalse;
     clusterv1.Reason := Some reason;
     clusterv1.Severity := severity;
     clusterv1.Message := message |}.

(** What one pass does to the outside, in the order it does it: provider
    RPCs, calls to the collaborators of the service, and condition writes. *)
Inductive Event : Type :=
| RPC_GetCluster (name : string)
| RPC_CreateCluster (req : containerpb.CreateClusterRequest)
| RPC_UpdateCluster (req : containerpb.UpdateClusterRequest)
| RPC_DeleteCluster (name : string)
| Call_GetAllNodePools
| Call_reconcileKubeconfig (cluster : containerpb.Cluster)
| Call_reconcileAdditionalKubeconfigs (cluster : containerpb.Cluster)
| Call_SetEndpoint (endpoint : string)
| Write_MarkTrue (t : clusterv1.ConditionType)
| Write_MarkFalse (t : clusterv1.ConditionType) (reason : infrav1exp.Reason)
    (severity : clusterv1.ConditionSeverity) (message : clusterv1.ConditionMessage).

Definition is_condition_write (e : Event) : bool :=
  match e with
  | Write_MarkTrue _ | Write_MarkFalse _ _ _ _ => true
  | _ => false
  end.

Definition is_RPC_CreateCluster (e : Event) : bool :=
  match e with RPC_CreateCluster _ => true | _ => false end.
Definition is_RPC_UpdateCluster (e : Event) : bool :=
  match e with RPC_UpdateCluster _ => true | _ => false end.
Definition is_RPC_DeleteCluster (e : Event) : bool :=
  match e with RPC_DeleteCluster _ => true | _ => false end.

(** The answers of the provider and of the other collaborators during one
    pass.  [GetAllNodePools] is called once by [Reconcile] and once more by
    [createCluster]; each call site has its own answer. *)
Record Collaborators : Type := {
  GetCluster : string -> option containerpb.Cluster * option error;
  CreateCluster : containerpb.CreateClusterRequest -> option error;
  UpdateCluster : containerpb.UpdateClusterRequest -> option error;
  DeleteCluster : string -> option error;
  GetAllNodePools_Reconcile :
    list infrav1exp.GCPManagedMachinePool * list clusterv1exp.MachinePool * option error;
  GetAllNodePools_createCluster :
    list infrav1exp.GCPManagedMachinePool * list clusterv1exp.MachinePool * option error;
  reconcileKubeconfig : containerpb.Cluster -> option error;
  reconcileAdditionalKubeconfigs : containerpb.Cluster -> option error;
}.

(** [ctrl.Result] *)
Record Result : Type := {
  Requeue : bool;
  RequeueAfter : Z;
}.

Definition Result_zero : Result := {| Requeue := false; RequeueAfter := 0 |}.
Definition Result_RequeueAfter (d : Z) : Result := {| Requeue := false; RequeueAfter := d |}.

(** ** The pass monad: status record, event trace, panics *)

Definition Pass (A : Type) : Type :=
  GCPManagedControlPlaneStatus -> go A * GCPManagedControlPlaneStatus * list Event.

Definition pass_ret {A} (a : A) : Pass A := fun st => (Returns a, st, []).

Definition pass_bind {A B} (m : Pass A) (k : A -> Pass B) : Pass B :=
  fun st =>
    match m st with
    | (Returns a, st1, tr1) =>
        match k a st1 with
        | (r, st2, tr2) => (r, st2, tr1 ++ tr2)
        end
    | (Panics p, st1, tr1) => (Panics p, st1, tr1)
    end.

Definition lift_go {A} (m : go A) : Pass A := fun st => (m, st, []).
Definition emit (e : Event) : Pass unit := fun st => (Returns tt, st, [e]).
Definition modify (f : GCPManagedControlPlaneStatus -> GCPManagedControlPlaneStatus)
    : Pass unit := fun st => (Returns tt, f st, []).

Declare Scope pass_scope.
Delimit Scope pass_scope with pass.
Notation "x <- m ;; k" := (pass_bind m (fun x => k))
  (at level 100, m at next level, right associativity) : pass_scope.
Notation "m ;; k" := (pass_bind m (fun _ => k))
  (at level 100, right associativity) : pass_scope.

Declare Scope go_scope.
Delimit Scope go_scope with go.
Notation "x <- m ;; k" := (go_bind m (fun x => k))
  (at level 100, m at next level, right associativity) : go_scope.

(** [conditions.MarkTrue(s.scope.ConditionSetter(), t)] *)
Definition MarkTrue (t : clusterv1.ConditionType) : Pass unit :=
  (emit (Write_MarkTrue t) ;;
   modify (set_Condition t TrueCondition))%pass.

(** [conditions.MarkFalse(s.scope.ConditionSetter(), t, reason, severity, message)] *)
Definition MarkFalse (t : clusterv1.ConditionType) (reason : infrav1exp.Reason)
    (severity : clusterv1.ConditionSeverity) (message : clusterv1.ConditionMessage)
    : Pass unit :=
  (emit (Write_MarkFalse t reason severity message) ;;
   modify (set_Condition t (FalseCondition reason severity message)))%pass.

(** ** Reference behaviour of helpers defined outside the modelled files

    The embedding below takes these helpers as parameters.  The definitions
    here are one admissible behaviour each, used to run the embedding on
    concrete inputs. *)

Definition CidrBlock_eqb (x y : containerpb.MasterAuthorizedNetworksConfig_CidrBlock) : bool :=
  String.eqb (containerpb.DisplayName x) (containerpb.DisplayName y)
  && String.eqb (containerpb.CidrBlock x) (containerpb.CidrBlock y).

Fixpoint CidrBlocks_eqb (xs ys : list containerpb.MasterAuthorizedNetworksConfig_CidrBlock) : bool :=
  match xs, ys with
  | [], [] => true
  | x :: xs', y :: ys' => CidrBlock_eqb x y && CidrBlocks_eqb xs' ys'
  | _, _ => false
  end.

(** Deep equality of the exported fields; a nil slice differs from a
    non-nil one. *)
Definition cmp_Equal_exported
    (xs ys : option (list containerpb.MasterAuthorizedNetworksConfig_CidrBlock)) : go bool :=
  match xs, ys with
  | None, None => Returns true
  | Some xs, Some ys => Returns (CidrBlocks_eqb xs ys)
  | _, _ => Returns false
  end.

(** [cmp.Equal] called without options on values that hold unexported
    fields: as soon as an element of one slice is compared with an element
    of the other, the library panics. *)
Definition cmp_Equal_unexported
    (xs ys : option (list containerpb.MasterAuthorizedNetworksConfig_CidrBlock)) : go bool :=
  match xs, ys with
  | Some (_ :: _), Some (_ :: _) => Panics LibraryPanic
  | _, _ => cmp_Equal_exported xs ys
  end.

Definition ref_DefaultRetryTime : Z := 5 * 1000000000.
Definition ref_DefaultNumRegionsPerZone : Z := 3.

(** Strips a leading "v". *)
Definition ref_NormalizeMachineVersion (version : option string) : option string :=
  match version with
  | Some (String c rest) => if Ascii.eqb c "v" then Some rest else version
  | other => other
  end.

Definition ref_ConvertToSdkTaint (taints : list infrav1exp.Taint) : list containerpb.NodeTaint :=
  map (fun t => {| containerpb.NodeTaint_Key := infrav1exp.Taint_Key t;
                   containerpb.NodeTaint_Value := infrav1exp.Taint_Value t;
                   containerpb.NodeTaint_Effect := 0 |}) taints.

Definition ref_ManagedMachinePoolsPreflightCheck
    (nodePools : list infrav1exp.GCPManagedMachinePool)
    (machinePools : list clusterv1exp.MachinePool) (region : string) : option error := None.

Definition ref_IsRegional (region : string) : bool := true.

(** ** Concrete inputs *)

Module Fixture.

Definition scope (autopilot : bool) (version : option string) : ManagedControlPlaneScope :=
  {| GCPManagedControlPlane_Spec :=
       {| infrav1exp.Project := "proj";
          infrav1exp.EnableAutopilot := autopilot;
          infrav1exp.EnableWorkloadIdentity := false;
          infrav1exp.ReleaseChannel_ := None;
          infrav1exp.ControlPlaneVersion := version;
          infrav1exp.MasterAuthorizedNetworksConfig_ := None |};
     GCPManagedCluster :=
       {| infrav1exp.GCPManagedCluster_Labels := ∅;
          infrav1exp.GCPManagedCluster_Spec :=
            {| infrav1exp.Network_Name := Some "default";
               infrav1exp.Network_DatapathProvider := None;
               infrav1exp.AddonsConfig_ := None |} |};
     ClusterName := "gke";
     ClusterFullName := "projects/proj/locations/us-central1/clusters/gke";
     ClusterLocation := "projects/proj/locations/us-central1";
     Region := "us-central1";
     IsAutopilotCluster := autopilot |}.

(** A cluster as the provider reports it: no release channel chosen,
    authorized networks disabled, master at 1.24.14-gke.2700. *)
Definition observed (status : containerpb.Cluster_Status) : containerpb.Cluster :=
  {| containerpb.Name := "gke";
     containerpb.Network := "default";
     containerpb.Cluster_Autopilot := Some {| containerpb.Autopilot_Enabled := false |};
     containerpb.Cluster_ReleaseChannel :=
       Some {| containerpb.Channel := containerpb.ReleaseChannel_UNSPECIFIED |};
     containerpb.Cluster_WorkloadIdentityConfig := None;
     containerpb.Cluster_NetworkConfig := None;
     containerpb.Cluster_AddonsConfig := None;
     containerpb.ResourceLabels := ∅;
     containerpb.Cluster_MasterAuthorizedNetworksConfig :=
       Some {| containerpb.Enabled := false;
               containerpb.CidrBlocks := Some [];
               containerpb.GcpPublicCidrsAccessEnabled := Some false |};
     containerpb.InitialClusterVersion := "1.24";
     containerpb.NodePools := None;
     containerpb.Status := status;
     containerpb.CurrentMasterVersion := "1.24.14-gke.2700";
     containerpb.Endpoint := "10.0.0.2";
     containerpb.Conditions := [] |}.

Definition status0 : GCPManagedControlPlaneStatus :=
  {| Initialized := false; Ready := false; CurrentVersion := ""; Conditions := ∅ |}.

Definition nodePool (name : string) : infrav1exp.GCPManagedMachinePool :=
  {| infrav1exp.Name := name;
     infrav1exp.Spec :=
       {| infrav1exp.NodePoolName := "";
          infrav1exp.Scaling := None;
          infrav1exp.Management := None;
          infrav1exp.MachineType := "e2-medium";
          infrav1exp.DiskSizeGb := 100;
          infrav1exp.DiskType := "pd-standard";
          infrav1exp.KubernetesLabels := ∅;
          infrav1exp.KubernetesTaints := [];
          infrav1exp.AdditionalLabels := ∅;
          infrav1exp.ImageType := "";
          infrav1exp.Preemptible := None;
          infrav1exp.Spot := None |} |}.

Definition machinePool (replicas : option Z) : clusterv1exp.MachinePool :=
  {| clusterv1exp.Spec_Replicas := replicas;
     clusterv1exp.Spec_Template_Spec_Version := Some "v1.24.14" |}.

(** Collaborators that answer the lookup with [get], list [nodePools]
    with one machine pool of three replicas each, and succeed at
    everything else. *)
Definition provider (get : option containerpb.Cluster * option error)
    (nodePools : list infrav1exp.GCPManagedMachinePool) : Collaborators :=
  let pools := (nodePools, map (fun _ => machinePool (Some 3)) nodePools, None) in
  {| GetCluster := fun _ => get;
     CreateCluster := fun _ => None;
     UpdateCluster := fun _ => None;
     DeleteCluster := fun _ => None;
     GetAllNodePools_Reconcile := pools;
     GetAllNodePools_createCluster := pools;
     reconcileKubeconfig := fun _ => None;
     reconcileAdditionalKubeconfigs := fun _ => None |}.

Definition found (status : containerpb.Cluster_Status) : Collaborators :=
  provider (Some (observed status), None) [nodePool "pool-a"].

Definition not_found (nodePools : list infrav1exp.GCPManagedMachinePool) : Collaborators :=
  provider (None, Some (APIError codes.NotFound "cluster not found")) nodePools.

Definition lookup_fails : Collaborators :=
  provider (None, Some (APIError codes.Unavailable "try again")) [].

(** The first scope asking for the rapid channel and for version 1.25. *)
Definition scope_rapid : ManagedControlPlaneScope :=
  {| GCPManagedControlPlane_Spec :=
       {| infrav1exp.Project := "proj";
          infrav1exp.EnableAutopilot := false;
          infrav1exp.EnableWorkloadIdentity := true;
          infrav1exp.ReleaseChannel_ := Some infrav1exp.Rapid;
          infrav1exp.ControlPlaneVersion := Some "1.25";
          infrav1exp.MasterAuthorizedNetworksConfig_ := None |};
     GCPManagedCluster := GCPManagedCluster (scope false None);
     ClusterName := "gke";
     ClusterFullName := "projects/proj/locations/us-central1/clusters/gke";
     ClusterLocation := "projects/proj/locations/us-central1";
     Region := "us-central1";
     IsAutopilotCluster := false |}.

(** Collaborators that find a RUNNING cluster and fail in the first
    kubeconfig step. *)
Definition kubeconfig_fails : Collaborators :=
  {| GetCluster := fun _ => (Some (observed containerpb.Cluster_RUNNING), None);
     CreateCluster := fun _ => None;
     UpdateCluster := fun _ => None;
     DeleteCluster := fun _ => None;
     GetAllNodePools_Reconcile := ([], [], None);
     GetAllNodePools_createCluster := ([], [], None);
     reconcileKubeconfig := fun _ => Some (PlainError "secret store unavailable");
     reconcileAdditionalKubeconfigs := fun _ => None |}.

(** The first scope asking for version 1.25 and for authorized networks
    restricted to one office range. *)
Definition scope_allowlist : ManagedControlPlaneScope :=
  {| GCPManagedControlPlane_Spec :=
       {| infrav1exp.Project := "proj";
          infrav1exp.EnableAutopilot := false;
          infrav1exp.EnableWorkloadIdentity := false;
          infrav1exp.ReleaseChannel_ := None;
          infrav1exp.ControlPlaneVersion := Some "1.25";
          infrav1exp.MasterAuthorizedNetworksConfig_ :=
            Some {| infrav1exp.CidrBlocks :=
                      [{| infrav1exp.DisplayName := "office";
                          infrav1exp.CidrBlock := "10.0.0.0/8" |}];
                    infrav1exp.GcpPublicCidrsAccessEnabled := Some false |} |};
     GCPManagedCluster := GCPManagedCluster (scope false None);
     ClusterName := "gke";
     ClusterFullName := "projects/proj/locations/us-central1/clusters/gke";
     ClusterLocation := "projects/proj/locations/us-central1";
     Region := "us-central1";
     IsAutopilotCluster := false |}.

(** A RUNNING cluster that already carries the authorized networks of
    [scope_allowlist]. *)
Definition observed_allowlist : containerpb.Cluster :=
  let cluster := observed containerpb.Cluster_RUNNING in
  {| containerpb.Name := containerpb.Name cluster;
     containerpb.Network := containerpb.Network cluster;
     containerpb.Cluster_Autopilot := containerpb.Cluster_Autopilot cluster;
     containerpb.Cluster_ReleaseChannel := containerpb.Cluster_ReleaseChannel cluster;
     containerpb.Cluster_WorkloadIdentityConfig :=
       containerpb.Cluster_WorkloadIdentityConfig cluster;
     containerpb.Cluster_NetworkConfig := containerpb.Cluster_NetworkConfig cluster;
     containerpb.Cluster_AddonsConfig := containerpb.Cluster_AddonsConfig cluster;
     containerpb.ResourceLabels := containerpb.ResourceLabels cluster;
     containerpb.Cluster_MasterAuthorizedNetworksConfig :=
       Some {| containerpb.Enabled := true;
               containerpb.CidrBlocks :=
                 Some [{| containerpb.DisplayName := "office";
                          containerpb.CidrBlock := "10.0.0.0/8" |}];
               containerpb.GcpPublicCidrsAccessEnabled := Some false |};
     containerpb.InitialClusterVersion := containerpb.InitialClusterVersion cluster;
     containerpb.NodePools := containerpb.NodePools cluster;
     containerpb.Status := containerpb.Status cluster;
     containerpb.CurrentMasterVersion := containerpb.CurrentMasterVersion cluster;
     containerpb.Endpoint := containerpb.Endpoint cluster;
     containerpb.Conditions := containerpb.Conditions cluster |}.

(** Collaborators that find a RUNNING cluster and whose update call is
    refused. *)
Definition update_fails : Collaborators :=
  {| GetCluster := fun _ => (Some (observed containerpb.Cluster_RUNNING), None);
     CreateCluster := fun _ => None;
     UpdateCluster := fun _ => Some (APIError codes.Unavailable "try again");
     DeleteCluster := fun _ => None;
     GetAllNodePools_Reconcile := ([], [], None);
     GetAllNodePools_createCluster := ([], [], None);
     reconcileKubeconfig := fun _ => None;
     reconcileAdditionalKubeconfigs := fun _ => None |}.

(** A lookup that answers with a NotFound API error wrapped once. *)
Definition wrapped_not_found : Collaborators :=
  provider (None, Some (Errorf_w "get cluster: %w"
                          (APIError codes.NotFound "cluster not found"))) [].

End Fixture.

(** [strings.HasPrefix(s, prefix)] *)
Definition HasPrefix (s prefix : string) : bool := String.prefix prefix s.

Section ClusterService.

(** *** Parameters: constants and helpers declared outside the modelled files *)

(** [reconciler.DefaultRetryTime], a [time.Duration]. *)
Variable DefaultRetryTime : Z.
(** [cloud.DefaultNumRegionsPerZone] *)
Variable DefaultNumRegionsPerZone : Z.
(** [infrav1exp.NormalizeMachineVersion] *)
Variable NormalizeMachineVersion : option string -> option string.
(** [infrav1exp.ConvertToSdkTaint] *)
Variable ConvertToSdkTaint : list infrav1exp.Taint -> list containerpb.NodeTaint.
(** [shared.ManagedMachinePoolsPreflightCheck] *)
Variable ManagedMachinePoolsPreflightCheck :
  list infrav1exp.GCPManagedMachinePool -> list clusterv1exp.MachinePool ->
  string -> option error.
(** [shared.IsRegional] *)
Variable IsRegional : string -> bool.
(** [cmp.Equal] of go-cmp at the type of the CIDR block slices. *)
Variable cmp_Equal :
  option (list containerpb.MasterAuthorizedNetworksConfig_CidrBlock) ->
  option (list containerpb.MasterAuthorizedNetworksConfig_CidrBlock) -> go bool.

(** *** cloud/scope/managedmachinepool.go *)

Definition convertToSdkNodePoolAutoscaling (scaling : option infrav1exp.NodePoolAutoScaling)
    : option containerpb.NodePoolAutoscaling :=
  match scaling with
  | None => None
  | Some scaling =>
      Some {| containerpb.Autoscaling_Enabled := true;
              containerpb.MinNodeCount :=
                match infrav1exp.MinCount scaling with Some n => n | None => 0 end;
              containerpb.MaxNodeCount :=
                match infrav1exp.MaxCount scaling with Some n => n | None => 0 end |}
  end.

Definition convertToSdkNodeManagement (management : option infrav1exp.NodeManagement)
    : option containerpb.NodeManagement :=
  match management with
  | None => None
  | Some management =>
      Some {| containerpb.AutoUpgrade :=
                match infrav1exp.AutoUpgrade management with Some b => b | None => false end;
              containerpb.AutoRepair :=
                match infrav1exp.AutoRepair management with Some b => b | None => false end |}
  end.

Definition set_Version (v : string) (p : containerpb.NodePool) : containerpb.NodePool :=
  {| containerpb.NodePool_Name := containerpb.NodePool_Name p;
     containerpb.InitialNodeCount := containerpb.InitialNodeCount p;
     containerpb.Autoscaling := containerpb.Autoscaling p;
     containerpb.Management := containerpb.Management p;
     containerpb.Config := containerpb.Config p;
     containerpb.Version := v |}.

Definition ConvertToSdkNodePool (nodePool : infrav1exp.GCPManagedMachinePool)
    (machinePool : clusterv1exp.MachinePool) (regional : bool) : go containerpb.NodePool :=
  (replicas <- deref (clusterv1exp.Spec_Replicas machinePool) ;;
   replicas <- (if regional then int32_div replicas DefaultNumRegionsPerZone
                else Returns replicas) ;;
   let spec := infrav1exp.Spec nodePool in
   let nodePoolName := infrav1exp.NodePoolName spec in
   let nodePoolName :=
     if (String.length nodePoolName =? 0)%nat then infrav1exp.Name nodePool
     else nodePoolName in
   let sdkNodePool :=
     {| containerpb.NodePool_Name := nodePoolName;
        containerpb.InitialNodeCount := replicas;
        containerpb.Autoscaling := convertToSdkNodePoolAutoscaling (infrav1exp.Scaling spec);
        containerpb.Management := convertToSdkNodeManagement (infrav1exp.Management spec);
        containerpb.Config := Some
          {| containerpb.MachineType := infrav1exp.MachineType spec;
             containerpb.DiskSizeGb := infrav1exp.DiskSizeGb spec;
             containerpb.DiskType := infrav1exp.DiskType spec;
             containerpb.Labels := infrav1exp.KubernetesLabels spec;
             containerpb.Taints := ConvertToSdkTaint (infrav1exp.KubernetesTaints spec);
             containerpb.Metadata := infrav1exp.AdditionalLabels spec;
             containerpb.ImageType := infrav1exp.ImageType spec;
             containerpb.Preemptible :=
               match infrav1exp.Preemptible spec with Some b => b | None => false end;
             containerpb.Spot :=
               match infrav1exp.Spot spec with Some b => b | None => false end |};
        containerpb.Version := "" |} in
   match clusterv1exp.Spec_Template_Spec_Version machinePool with
   | Some _ =>
       v <- deref (NormalizeMachineVersion
                     (clusterv1exp.Spec_Template_Spec_Version machinePool)) ;;
       Returns (set_Version v sdkNodePool)
   | None => Returns sdkNodePool
   end)%go.

(** The loop [for i := range nodePools] from index [i] on, [rest] being
    [nodePools[i:]] and [res] the slice built so far. *)
Fixpoint ConvertToSdkNodePools_loop (i : nat)
    (rest : list infrav1exp.GCPManagedMachinePool)
    (machinePools : list clusterv1exp.MachinePool) (regional : bool)
    (res : list containerpb.NodePool) : go (list containerpb.NodePool) :=
  match rest with
  | [] => Returns res
  | nodePool :: rest' =>
      (machinePool <- index machinePools i ;;
       sdkNodePool <- ConvertToSdkNodePool nodePool machinePool regional ;;
       ConvertToSdkNodePools_loop (S i) rest' machinePools regional
         (res ++ [sdkNodePool]))%go
  end.

Definition ConvertToSdkNodePools (nodePools : list infrav1exp.GCPManagedMachinePool)
    (machinePools : list clusterv1exp.MachinePool) (regional : bool)
    : go (list containerpb.NodePool) :=
  ConvertToSdkNodePools_loop 0 nodePools machinePools regional [].

(** *** cloud/services/container/clusters/reconcile.go: payload helpers *)

Definition createAddonsConfig (s : ManagedControlPlaneScope) : option containerpb.AddonsConfig :=
  match infrav1exp.AddonsConfig_ (infrav1exp.GCPManagedCluster_Spec (GCPManagedCluster s)) with
  | None => None
  | Some addons =>
      Some {| containerpb.GcpFilestoreCsiDriverConfig :=
                infrav1exp.GcpFilestoreCsiDriverEnabled addons;
              containerpb.NetworkPolicyConfig :=
                negb <$> infrav1exp.NetworkPolicyEnabled addons;
              containerpb.HorizontalPodAutoscaling :=
                negb <$> infrav1exp.HorizontalPodAutoscalingEnabled addons;
              containerpb.HttpLoadBalancing :=
                negb <$> infrav1exp.HTTPLoadBalancingEnabled addons |}
  end.

Definition convertToSdkDatapathProvider (datapath : option infrav1exp.DatapathProvider)
    : containerpb.DatapathProvider :=
  match datapath with
  | None => containerpb.DatapathProvider_DATAPATH_PROVIDER_UNSPECIFIED
  | Some infrav1exp.DatapathProviderUnspecified =>
      containerpb.DatapathProvider_DATAPATH_PROVIDER_UNSPECIFIED
  | Some infrav1exp.DatapathProviderLegacyDatapath =>
      containerpb.DatapathProvider_LEGACY_DATAPATH
  | Some infrav1exp.DatapathProviderAdvancedDatapath =>
      containerpb.DatapathProvider_ADVANCED_DATAPATH
  | Some (infrav1exp.DatapathProvider_other _) =>
      containerpb.DatapathProvider_DATAPATH_PROVIDER_UNSPECIFIED
  end.

Definition createNetworkConfig (s : ManagedControlPlaneScope) : option containerpb.NetworkConfig :=
  let datapath :=
    infrav1exp.Network_DatapathProvider (infrav1exp.GCPManagedCluster_Spec (GCPManagedCluster s)) in
  match datapath with
  | None => None
  | Some _ =>
      Some {| containerpb.NetworkConfig_DatapathProvider :=
                convertToSdkDatapathProvider datapath |}
  end.

Definition createWorkloadIdentityConfig (s : ManagedControlPlaneScope)
    : option containerpb.WorkloadIdentityConfig :=
  if IsAutopilotCluster s
     || negb (infrav1exp.EnableWorkloadIdentity (GCPManagedControlPlane_Spec s))
  then None
  else Some {| containerpb.WorkloadPool :=
                 infrav1exp.Project (GCPManagedControlPlane_Spec s) +:+ ".svc.id.goog" |}.

Definition convertToSdkReleaseChannel (channel : option infrav1exp.ReleaseChannel)
    : containerpb.ReleaseChannel_Channel :=
  match channel with
  | None => containerpb.ReleaseChannel_UNSPECIFIED
  | Some infrav1exp.Rapid => containerpb.ReleaseChannel_RAPID
  | Some infrav1exp.Regular => containerpb.ReleaseChannel_REGULAR
  | Some infrav1exp.Stable => containerpb.ReleaseChannel_STABLE
  | Some (infrav1exp.ReleaseChannel_other _) => containerpb.ReleaseChannel_UNSPECIFIED
  end.

Definition convertToSdkMasterAuthorizedNetworksConfig
    (config : option infrav1exp.MasterAuthorizedNetworksConfig)
    : option containerpb.MasterAuthorizedNetworksConfig :=
  match config with
  | None =>
      Some {| containerpb.Enabled := false;
              containerpb.CidrBlocks := Some [];
              containerpb.GcpPublicCidrsAccessEnabled := Some false |}
  | Some config =>
      let cidrBlocks :=
        map (fun cidrBlock =>
               {| containerpb.CidrBlock := infrav1exp.CidrBlock cidrBlock;
                  containerpb.DisplayName := infrav1exp.DisplayName cidrBlock |})
            (infrav1exp.CidrBlocks config) in
      Some {| containerpb.Enabled := true;
              containerpb.CidrBlocks := Some cidrBlocks;
              containerpb.GcpPublicCidrsAccessEnabled :=
                infrav1exp.GcpPublicCidrsAccessEnabled config |}
  end.

Definition hasDesiredVersion (controlPlaneVersion : option string)
    (clusterVersion : string) : bool :=
  match controlPlaneVersion with
  | None => true
  | Some v =>
      if HasPrefix clusterVersion v then true
      else String.eqb v clusterVersion
  end.

Definition is_nil {A} (p : option A) : bool :=
  match p with None => true | Some _ => false end.
Definition is_empty_slice {A} (xs : option (list A)) : bool :=
  match xs with Some [] => true | _ => false end.

Definition compareMasterAuthorizedNetworksConfig
    (a b : option containerpb.MasterAuthorizedNetworksConfig) : go bool :=
  match a, b with
  | None, None => Returns true
  | None, Some _ | Some _, None => Returns false
  | Some a, Some b =>
      let pa := containerpb.GcpPublicCidrsAccessEnabled a in
      let pb := containerpb.GcpPublicCidrsAccessEnabled b in
      let ca := containerpb.CidrBlocks a in
      let cb := containerpb.CidrBlocks b in
      if negb (Bool.eqb (containerpb.Enabled a) (containerpb.Enabled b)) then Returns false
      else if (is_nil pa && negb (is_nil pb)) || (negb (is_nil pa) && is_nil pb)
      then Returns false
      else if match pa, pb with
              | Some x, Some y => negb (Bool.eqb x y)
              | _, _ => false
              end
      then Returns false
      else if (is_nil ca && is_empty_slice cb) || (is_nil cb && is_empty_slice ca)
      then Returns true
      else (equal <- cmp_Equal ca cb ;;
            if negb equal then Returns false else Returns true)%go
  end.

Definition set_DesiredReleaseChannel (c : option containerpb.ReleaseChannel)
    (u : containerpb.ClusterUpdate) : containerpb.ClusterUpdate :=
  {| containerpb.DesiredReleaseChannel := c;
     containerpb.DesiredMasterVersion := containerpb.DesiredMasterVersion u;
     containerpb.DesiredMasterAuthorizedNetworksConfig :=
       containerpb.DesiredMasterAuthorizedNetworksConfig u |}.
Definition set_DesiredMasterVersion (v : string)
    (u : containerpb.ClusterUpdate) : containerpb.ClusterUpdate :=
  {| containerpb.DesiredReleaseChannel := containerpb.DesiredReleaseChannel u;
     containerpb.DesiredMasterVersion := v;
     containerpb.DesiredMasterAuthorizedNetworksConfig :=
       containerpb.DesiredMasterAuthorizedNetworksConfig u |}.
Definition set_DesiredMasterAuthorizedNetworksConfig
    (c : option containerpb.MasterAuthorizedNetworksConfig)
    (u : containerpb.ClusterUpdate) : containerpb.ClusterUpdate :=
  {| containerpb.DesiredReleaseChannel := containerpb.DesiredReleaseChannel u;
     containerpb.DesiredMasterVersion := containerpb.DesiredMasterVersion u;
     containerpb.DesiredMasterAuthorizedNetworksConfig := c |}.

Definition checkDiffAndPrepareUpdate (s : ManagedControlPlaneScope)
    (existingCluster : containerpb.Cluster)
    : go (bool * containerpb.UpdateClusterRequest) :=
  let needUpdate := false in
  let clusterUpdate :=
    {| containerpb.DesiredReleaseChannel := None;
       containerpb.DesiredMasterVersion := "";
       containerpb.DesiredMasterAuthorizedNetworksConfig := None |} in
  (* Release channel *)
  let desiredReleaseChannel :=
    convertToSdkReleaseChannel (infrav1exp.ReleaseChannel_ (GCPManagedControlPlane_Spec s)) in
  (existingReleaseChannel <- deref (containerpb.Cluster_ReleaseChannel existingCluster) ;;
   let '(needUpdate, clusterUpdate) :=
     if negb (containerpb.ReleaseChannel_Channel_eqb desiredReleaseChannel
                (containerpb.Channel existingReleaseChannel))
     then (true, set_DesiredReleaseChannel
                   (Some {| containerpb.Channel := desiredReleaseChannel |}) clusterUpdate)
     else (needUpdate, clusterUpdate) in
   (* Master version *)
   let controlPlaneVersion := infrav1exp.ControlPlaneVersion (GCPManagedControlPlane_Spec s) in
   acc <- (if hasDesiredVersion controlPlaneVersion
                (containerpb.CurrentMasterVersion existingCluster)
           then v <- deref controlPlaneVersion ;;
                Returns (true, set_DesiredMasterVersion v clusterUpdate)
           else Returns (needUpdate, clusterUpdate)) ;;
   let '(needUpdate, clusterUpdate) := acc in
   (* DesiredMasterAuthorizedNetworksConfig *)
   let desiredMasterAuthorizedNetworksConfig :=
     convertToSdkMasterAuthorizedNetworksConfig
       (infrav1exp.MasterAuthorizedNetworksConfig_ (GCPManagedControlPlane_Spec s)) in
   same <- compareMasterAuthorizedNetworksConfig desiredMasterAuthorizedNetworksConfig
             (containerpb.Cluster_MasterAuthorizedNetworksConfig existingCluster) ;;
   let '(needUpdate, clusterUpdate) :=
     if negb same
     then (true, set_DesiredMasterAuthorizedNetworksConfig
                   desiredMasterAuthorizedNetworksConfig clusterUpdate)
     else (needUpdate, clusterUpdate) in
   Returns (needUpdate,
            {| containerpb.UpdateClusterRequest_Name := ClusterFullName s;
               containerpb.Update := Some clusterUpdate |}))%go.

(** *** reconcile.go: provider calls *)

Definition describeCluster (s : ManagedControlPlaneScope) (w : Collaborators)
    : Pass (option containerpb.Cluster * option error) :=
  (emit (RPC_GetCluster (ClusterFullName s)) ;;
   let '(cluster, err) := GetCluster w (ClusterFullName s) in
   match err with
   | Some err =>
       match errors_As_APIError err with
       | Some codes.NotFound => pass_ret (None, None)
       | _ => pass_ret (None, Some err)
       end
   | None => pass_ret (cluster, None)
   end)%pass.

Definition set_InitialClusterVersion (v : string) (c : containerpb.Cluster) : containerpb.Cluster :=
  {| containerpb.Name := containerpb.Name c;
     containerpb.Network := containerpb.Network c;
     containerpb.Cluster_Autopilot := containerpb.Cluster_Autopilot c;
     containerpb.Cluster_ReleaseChannel := containerpb.Cluster_ReleaseChannel c;
     containerpb.Cluster_WorkloadIdentityConfig := containerpb.Cluster_WorkloadIdentityConfig c;
     containerpb.Cluster_NetworkConfig := containerpb.Cluster_NetworkConfig c;
     containerpb.Cluster_AddonsConfig := containerpb.Cluster_AddonsConfig c;
     containerpb.ResourceLabels := containerpb.ResourceLabels c;
     containerpb.Cluster_MasterAuthorizedNetworksConfig :=
       containerpb.Cluster_MasterAuthorizedNetworksConfig c;
     containerpb.InitialClusterVersion := v;
     containerpb.NodePools := containerpb.NodePools c;
     containerpb.Status := containerpb.Status c;
     containerpb.CurrentMasterVersion := containerpb.CurrentMasterVersion c;
     containerpb.Endpoint := containerpb.Endpoint c;
     containerpb.Conditions := containerpb.Conditions c |}.

Definition set_NodePools (nps : option (list containerpb.NodePool))
    (c : containerpb.Cluster) : containerpb.Cluster :=
  {| containerpb.Name := containerpb.Name c;
     containerpb.Network := containerpb.Network c;
     containerpb.Cluster_Autopilot := containerpb.Cluster_Autopilot c;
     containerpb.Cluster_ReleaseChannel := containerpb.Cluster_ReleaseChannel c;
     containerpb.Cluster_WorkloadIdentityConfig := containerpb.Cluster_WorkloadIdentityConfig c;
     containerpb.Cluster_NetworkConfig := containerpb.Cluster_NetworkConfig c;
     containerpb.Cluster_AddonsConfig := containerpb.Cluster_AddonsConfig c;
     containerpb.ResourceLabels := containerpb.ResourceLabels c;
     containerpb.Cluster_MasterAuthorizedNetworksConfig :=
       containerpb.Cluster_MasterAuthorizedNetworksConfig c;
     containerpb.InitialClusterVersion := containerpb.InitialClusterVersion c;
     containerpb.NodePools := nps;
     containerpb.Status := containerpb.Status c;
     containerpb.CurrentMasterVersion := containerpb.CurrentMasterVersion c;
     containerpb.Endpoint := containerpb.Endpoint c;
     containerpb.Conditions := containerpb.Conditions c |}.

Definition createCluster (s : ManagedControlPlaneScope) (w : Collaborators)
    : Pass (option error) :=
  (emit Call_GetAllNodePools ;;
   let '(nodePools, machinePools, _) := GetAllNodePools_createCluster w in
   match ManagedMachinePoolsPreflightCheck nodePools machinePools (Region s) with
   | Some err =>
       pass_ret (Some (Errorf_w
         "preflight checks on machine pools before cluster create: %w" err))
   | None =>
       let isRegional := IsRegional (Region s) in
       network <- lift_go (deref (infrav1exp.Network_Name
                     (infrav1exp.GCPManagedCluster_Spec (GCPManagedCluster s)))) ;;
       let cluster :=
         {| containerpb.Name := ClusterName s;
            containerpb.Network := network;
            containerpb.Cluster_Autopilot := Some
              {| containerpb.Autopilot_Enabled :=
                   infrav1exp.EnableAutopilot (GCPManagedControlPlane_Spec s) |};
            containerpb.Cluster_ReleaseChannel := Some
              {| containerpb.Channel :=
                   convertToSdkReleaseChannel
                     (infrav1exp.ReleaseChannel_ (GCPManagedControlPlane_Spec s)) |};
            containerpb.Cluster_WorkloadIdentityConfig := createWorkloadIdentityConfig s;
            containerpb.Cluster_NetworkConfig := createNetworkConfig s;
            containerpb.Cluster_AddonsConfig := createAddonsConfig s;
            containerpb.ResourceLabels := infrav1exp.GCPManagedCluster_Labels (GCPManagedCluster s);
            containerpb.Cluster_MasterAuthorizedNetworksConfig :=
              convertToSdkMasterAuthorizedNetworksConfig
                (infrav1exp.MasterAuthorizedNetworksConfig_ (GCPManagedControlPlane_Spec s));
            containerpb.InitialClusterVersion := "";
            containerpb.NodePools := None;
            containerpb.Status := containerpb.Cluster_STATUS_UNSPECIFIED;
            containerpb.CurrentMasterVersion := "";
            containerpb.Endpoint := "";
            containerpb.Conditions := [] |} in
       let cluster :=
         match infrav1exp.ControlPlaneVersion (GCPManagedControlPlane_Spec s) with
         | Some v => set_InitialClusterVersion v cluster
         | None => cluster
         end in
       cluster <- (if negb (IsAutopilotCluster s)
                   then sdkNodePools <- lift_go (ConvertToSdkNodePools nodePools
                                                   machinePools isRegional) ;;
                        pass_ret (set_NodePools (Some sdkNodePools) cluster)
                   else pass_ret cluster) ;;
       let createClusterRequest :=
         {| containerpb.CreateClusterRequest_Cluster := Some cluster;
            containerpb.Parent := ClusterLocation s |} in
       emit (RPC_CreateCluster createClusterRequest) ;;
       match CreateCluster w createClusterRequest with
       | Some err => pass_ret (Some err)
       | None => pass_ret None
       end
   end)%pass.

Definition updateCluster (s : ManagedControlPlaneScope) (w : Collaborators)
    (updateClusterRequest : containerpb.UpdateClusterRequest) : Pass (option error) :=
  (emit (RPC_UpdateCluster updateClusterRequest) ;;
   match UpdateCluster w updateClusterRequest with
   | Some err => pass_ret (Some err)
   | None => pass_ret None
   end)%pass.

Definition deleteCluster (s : ManagedControlPlaneScope) (w : Collaborators)
    : Pass (option error) :=
  (emit (RPC_DeleteCluster (ClusterFullName s)) ;;
   match DeleteCluster w (ClusterFullName s) with
   | Some err => pass_ret (Some err)
   | None => pass_ret None
   end)%pass.

(** The two kubeconfig steps and [SetEndpoint] are collaborators: a call
    is recorded and the collaborator's answer returned. *)
Definition call_reconcileKubeconfig (w : Collaborators) (cluster : containerpb.Cluster)
    : Pass (option error) :=
  (emit (Call_reconcileKubeconfig cluster) ;;
   pass_ret (reconcileKubeconfig w cluster))%pass.

Definition call_reconcileAdditionalKubeconfigs (w : Collaborators)
    (cluster : containerpb.Cluster) : Pass (option error) :=
  (emit (Call_reconcileAdditionalKubeconfigs cluster) ;;
   pass_ret (reconcileAdditionalKubeconfigs w cluster))%pass.

Definition call_GetAllNodePools (w : Collaborators)
    : Pass (list infrav1exp.GCPManagedMachinePool * list clusterv1exp.MachinePool
            * option error) :=
  (emit Call_GetAllNodePools ;;
   pass_ret (GetAllNodePools_Reconcile w))%pass.

(** *** reconcile.go: the orchestrators *)

Definition Reconcile (s : ManagedControlPlaneScope) (w : Collaborators)
    : Pass (Result * option error) :=
  (r <- describeCluster s w ;;
   let '(cluster, err) := r in
   match err with
   | Some err =>
       modify (set_Initialized false) ;;
       modify (set_Ready false) ;;
       MarkFalse clusterv1.ReadyCondition
         infrav1exp.GKEControlPlaneReconciliationFailedReason
         clusterv1.ConditionSeverityError (clusterv1.ErrorMessage err) ;;
       pass_ret (Result_zero, Some err)
   | None =>
   match cluster with
   | None =>
       modify (set_Initialized false) ;;
       modify (set_Ready false) ;;
       r <- call_GetAllNodePools w ;;
       let '(nodePools, _, err) := r in
       match err with
       | Some err =>
           MarkFalse clusterv1.ReadyCondition
             infrav1exp.GKEControlPlaneReconciliationFailedReason
             clusterv1.ConditionSeverityError (clusterv1.ErrorMessage err) ;;
           MarkFalse clusterv1.GKEControlPlaneReadyCondition
             infrav1exp.GKEControlPlaneReconciliationFailedReason
             clusterv1.ConditionSeverityError (clusterv1.ErrorMessage err) ;;
           MarkFalse clusterv1.GKEControlPlaneCreatingCondition
             infrav1exp.GKEControlPlaneReconciliationFailedReason
             clusterv1.ConditionSeverityError (clusterv1.ErrorMessage err) ;;
           pass_ret (Result_zero, Some err)
       | None =>
           let create :=
             (err <- createCluster s w ;;
              match err with
              | Some err =>
                  MarkFalse clusterv1.ReadyCondition
                    infrav1exp.GKEControlPlaneReconciliationFailedReason
                    clusterv1.ConditionSeverityError (clusterv1.ErrorMessage err) ;;
                  MarkFalse clusterv1.GKEControlPlaneReadyCondition
                    infrav1exp.GKEControlPlaneReconciliationFailedReason
                    clusterv1.ConditionSeverityError (clusterv1.ErrorMessage err) ;;
                  MarkFalse clusterv1.GKEControlPlaneCreatingCondition
                    infrav1exp.GKEControlPlaneReconciliationFailedReason
                    clusterv1.ConditionSeverityError (clusterv1.ErrorMessage err) ;;
                  pass_ret (Result_zero, Some err)
              | None =>
                  MarkFalse clusterv1.ReadyCondition
                    infrav1exp.GKEControlPlaneCreatingReason
                    clusterv1.ConditionSeverityInfo clusterv1.EmptyMessage ;;
                  MarkFalse clusterv1.GKEControlPlaneReadyCondition
                    infrav1exp.GKEControlPlaneCreatingReason
                    clusterv1.ConditionSeverityInfo clusterv1.EmptyMessage ;;
                  MarkTrue clusterv1.GKEControlPlaneCreatingCondition ;;
                  pass_ret (Result_RequeueAfter DefaultRetryTime, None)
              end) in
           if IsAutopilotCluster s then
             if (0 <? length nodePools)%nat then
               MarkFalse clusterv1.ReadyCondition
                 infrav1exp.GKEControlPlaneRequiresAtLeastOneNodePoolReason
                 clusterv1.ConditionSeverityInfo clusterv1.EmptyMessage ;;
               MarkFalse clusterv1.GKEControlPlaneReadyCondition
                 infrav1exp.GKEControlPlaneRequiresAtLeastOneNodePoolReason
                 clusterv1.ConditionSeverityInfo clusterv1.EmptyMessage ;;
               MarkFalse clusterv1.GKEControlPlaneCreatingCondition
                 infrav1exp.GKEControlPlaneRequiresAtLeastOneNodePoolReason
                 clusterv1.ConditionSeverityInfo clusterv1.EmptyMessage ;;
               pass_ret (Result_zero, Some ErrAutopilotClusterMachinePoolsNotAllowed)
             else create
           else
             if (length nodePools =? 0)%nat then
               MarkFalse clusterv1.ReadyCondition
                 infrav1exp.GKEControlPlaneRequiresAtLeastOneNodePoolReason
                 clusterv1.ConditionSeverityInfo clusterv1.EmptyMessage ;;
               MarkFalse clusterv1.GKEControlPlaneReadyCondition
                 infrav1exp.GKEControlPlaneRequiresAtLeastOneNodePoolReason
                 clusterv1.ConditionSeverityInfo clusterv1.EmptyMessage ;;
               MarkFalse clusterv1.GKEControlPlaneCreatingCondition
                 infrav1exp.GKEControlPlaneRequiresAtLeastOneNodePoolReason
                 clusterv1.ConditionSeverityInfo clusterv1.EmptyMessage ;;
               pass_ret (Result_RequeueAfter DefaultRetryTime, None)
             else create
       end
   | Some cluster =>
       modify (set_CurrentVersion (containerpb.CurrentMasterVersion cluster)) ;;
       match containerpb.Status cluster with
       | containerpb.Cluster_PROVISIONING =>
           MarkFalse clusterv1.ReadyCondition
             infrav1exp.GKEControlPlaneCreatingReason
             clusterv1.ConditionSeverityInfo clusterv1.EmptyMessage ;;
           MarkFalse clusterv1.GKEControlPlaneReadyCondition
             infrav1exp.GKEControlPlaneCreatingReason
             clusterv1.ConditionSeverityInfo clusterv1.EmptyMessage ;;
           MarkTrue clusterv1.GKEControlPlaneCreatingCondition ;;
           modify (set_Initialized false) ;;
           modify (set_Ready false) ;;
           pass_ret (Result_RequeueAfter DefaultRetryTime, None)
       | containerpb.Cluster_RECONCILING =>
           MarkTrue clusterv1.GKEControlPlaneUpdatingCondition ;;
           modify (set_Initialized true) ;;
           modify (set_Ready true) ;;
           pass_ret (Result_RequeueAfter DefaultRetryTime, None)
       | containerpb.Cluster_STOPPING =>
           MarkFalse clusterv1.ReadyCondition
             infrav1exp.GKEControlPlaneDeletingReason
             clusterv1.ConditionSeverityInfo clusterv1.EmptyMessage ;;
           MarkFalse clusterv1.GKEControlPlaneReadyCondition
             infrav1exp.GKEControlPlaneDeletingReason
             clusterv1.ConditionSeverityInfo clusterv1.EmptyMessage ;;
           MarkTrue clusterv1.GKEControlPlaneDeletingCondition ;;
           modify (set_Initialized false) ;;
           modify (set_Ready false) ;;
           pass_ret (Result_RequeueAfter DefaultRetryTime, None)
       | containerpb.Cluster_ERROR | containerpb.Cluster_DEGRADED =>
           (* the message of the first provider condition goes to the log only *)
           MarkFalse clusterv1.GKEControlPlaneReadyCondition
             infrav1exp.GKEControlPlaneErrorReason
             clusterv1.ConditionSeverityError clusterv1.EmptyMessage ;;
           modify (set_Ready false) ;;
           modify (set_Initialized false) ;;
           pass_ret (Result_zero, None)
       | containerpb.Cluster_RUNNING =>
           r <- lift_go (checkDiffAndPrepareUpdate s cluster) ;;
           let '(needUpdate, updateClusterRequest) := r in
           if needUpdate then
             err <- updateCluster s w updateClusterRequest ;;
             match err with
             | Some err => pass_ret (Result_zero, Some err)
             | None =>
                 MarkTrue clusterv1.GKEControlPlaneUpdatingCondition ;;
                 modify (set_Initialized true) ;;
                 modify (set_Ready true) ;;
                 pass_ret (Result_zero, None)
             end
           else
             MarkFalse clusterv1.GKEControlPlaneUpdatingCondition
               infrav1exp.GKEControlPlaneUpdatedReason
               clusterv1.ConditionSeverityInfo clusterv1.EmptyMessage ;;
             (* Reconcile kubeconfig *)
             err <- call_reconcileKubeconfig w cluster ;;
             match err with
             | Some err => pass_ret (Result_zero, Some err)
             | None =>
             err <- call_reconcileAdditionalKubeconfigs w cluster ;;
             match err with
             | Some err => pass_ret (Result_zero, Some err)
             | None =>
                 emit (Call_SetEndpoint (containerpb.Endpoint cluster)) ;;
                 MarkTrue clusterv1.ReadyCondition ;;
                 MarkTrue clusterv1.GKEControlPlaneReadyCondition ;;
                 MarkFalse clusterv1.GKEControlPlaneCreatingCondition
                   infrav1exp.GKEControlPlaneCreatedReason
                   clusterv1.ConditionSeverityInfo clusterv1.EmptyMessage ;;
                 modify (set_Ready true) ;;
                 modify (set_Initialized true) ;;
                 pass_ret (Result_zero, None)
             end
             end
       | containerpb.Cluster_STATUS_UNSPECIFIED
       | containerpb.Cluster_Status_value _ =>
           let statusErr := ErrUnexpectedClusterStatus (containerpb.Status cluster) in
           pass_ret (Result_zero, Some statusErr)
       end
   end
   end)%pass.

Definition Delete (s : ManagedControlPlaneScope) (w : Collaborators)
    : Pass (Result * option error) :=
  (r <- describeCluster s w ;;
   let '(cluster, err) := r in
   match err with
   | Some err => pass_ret (Result_zero, Some err)
   | None =>
   match cluster with
   | None =>
       MarkFalse clusterv1.GKEControlPlaneDeletingCondition
         infrav1exp.GKEControlPlaneDeletedReason
         clusterv1.ConditionSeverityInfo clusterv1.EmptyMessage ;;
       pass_ret (Result_zero, None)
   | Some cluster =>
       let delete :=
         (err <- deleteCluster s w ;;
          match err with
          | Some err =>
              MarkFalse clusterv1.GKEControlPlaneDeletingCondition
                infrav1exp.GKEControlPlaneReconciliationFailedReason
                clusterv1.ConditionSeverityError (clusterv1.ErrorMessage err) ;;
              pass_ret (Result_zero, Some err)
          | None =>
              modify (set_Initialized false) ;;
              modify (set_Ready false) ;;
              MarkFalse clusterv1.ReadyCondition
                infrav1exp.GKEControlPlaneDeletingReason
                clusterv1.ConditionSeverityInfo clusterv1.EmptyMessage ;;
              MarkFalse clusterv1.GKEControlPlaneReadyCondition
                infrav1exp.GKEControlPlaneDeletingReason
                clusterv1.ConditionSeverityInfo clusterv1.EmptyMessage ;;
              MarkTrue clusterv1.GKEControlPlaneDeletingCondition ;;
              pass_ret (Result_zero, None)
          end) in
       match containerpb.Status cluster with
       | containerpb.Cluster_PROVISIONING => pass_ret (Result_zero, None)
       | containerpb.Cluster_RECONCILING => pass_ret (Result_zero, None)
       | containerpb.Cluster_STOPPING =>
           MarkFalse clusterv1.GKEControlPlaneReadyCondition
             infrav1exp.GKEControlPlaneDeletingReason
             clusterv1.ConditionSeverityInfo clusterv1.EmptyMessage ;;
           MarkTrue clusterv1.GKEControlPlaneDeletingCondition ;;
           pass_ret (Result_zero, None)
       | _ => delete
       end
   end
   end)%pass.

(** *** Reading a finished pass *)

Definition outcome {A} (r : go A * GCPManagedControlPlaneStatus * list Event) : go A :=
  fst (fst r).
Definition final_status {A} (r : go A * GCPManagedControlPlaneStatus * list Event)
    : GCPManagedControlPlaneStatus := snd (fst r).
Definition trace {A} (r : go A * GCPManagedControlPlaneStatus * list Event)
    : list Event := snd r.

(** The condition recorded for [t] in a status record. *)
Definition condition (st : GCPManagedControlPlaneStatus) (t : clusterv1.ConditionType)
    : option clusterv1.Condition := Conditions st !! t.

(** *** Vocabulary of the properties *)

(** The dispatch table of [Reconcile] on an observed cluster. *)
Definition lifecycle_dispatch (status : containerpb.Cluster_Status)
    (r : go (Result * option error) * GCPManagedControlPlaneStatus * list Event) : Prop :=
  let st' := final_status r in
  (status = containerpb.Cluster_PROVISIONING ->
     outcome r = Returns (Result_RequeueAfter DefaultRetryTime, None)
     /\ Initialized st' = false /\ Ready st' = false
     /\ condition st' clusterv1.GKEControlPlaneCreatingCondition = Some TrueCondition)
  /\ (status = containerpb.Cluster_RECONCILING ->
     outcome r = Returns (Result_RequeueAfter DefaultRetryTime, None)
     /\ Initialized st' = true /\ Ready st' = true
     /\ condition st' clusterv1.GKEControlPlaneUpdatingCondition = Some TrueCondition)
  /\ (status = containerpb.Cluster_STOPPING ->
     outcome r = Returns (Result_RequeueAfter DefaultRetryTime, None)
     /\ Initialized st' = false /\ Ready st' = false
     /\ condition st' clusterv1.GKEControlPlaneDeletingCondition = Some TrueCondition)
  /\ (status = containerpb.Cluster_ERROR \/ status = containerpb.Cluster_DEGRADED ->
     outcome r = Returns (Result_zero, None)
     /\ Ready st' = false /\ Initialized st' = false
     /\ condition st' clusterv1.GKEControlPlaneReadyCondition =
          Some (FalseCondition infrav1exp.GKEControlPlaneErrorReason
                  clusterv1.ConditionSeverityError clusterv1.EmptyMessage))
  /\ (status = containerpb.Cluster_STATUS_UNSPECIFIED
      \/ (exists n, status = containerpb.Cluster_Status_value n) ->
     outcome r = Returns (Result_zero, Some (ErrUnexpectedClusterStatus status))).

(** The events of a RUNNING pass on which the diff step found nothing to
    update and both kubeconfig steps succeeded. *)
Definition converged_trace (s : ManagedControlPlaneScope) (cluster : containerpb.Cluster)
    : list Event :=
  [RPC_GetCluster (ClusterFullName s);
   Write_MarkFalse clusterv1.GKEControlPlaneUpdatingCondition
     infrav1exp.GKEControlPlaneUpdatedReason
     clusterv1.ConditionSeverityInfo clusterv1.EmptyMessage;
   Call_reconcileKubeconfig cluster;
   Call_reconcileAdditionalKubeconfigs cluster;
   Call_SetEndpoint (containerpb.Endpoint cluster);
   Write_MarkTrue clusterv1.ReadyCondition;
   Write_MarkTrue clusterv1.GKEControlPlaneReadyCondition;
   Write_MarkFalse clusterv1.GKEControlPlaneCreatingCondition
     infrav1exp.GKEControlPlaneCreatedReason
     clusterv1.ConditionSeverityInfo clusterv1.EmptyMessage].

(** The three condition writes of a refused or postponed create. *)
Definition pool_count_writes : list Event :=
  [Write_MarkFalse clusterv1.ReadyCondition
     infrav1exp.GKEControlPlaneRequiresAtLeastOneNodePoolReason
     clusterv1.ConditionSeverityInfo clusterv1.EmptyMessage;
   Write_MarkFalse clusterv1.GKEControlPlaneReadyCondition
     infrav1exp.GKEControlPlaneRequiresAtLeastOneNodePoolReason
     clusterv1.ConditionSeverityInfo clusterv1.EmptyMessage;
   Write_MarkFalse clusterv1.GKEControlPlaneCreatingCondition
     infrav1exp.GKEControlPlaneRequiresAtLeastOneNodePoolReason
     clusterv1.ConditionSeverityInfo clusterv1.EmptyMessage].

(** The pool-count check lets the create step run. *)
Definition pool_count_ok (s : ManagedControlPlaneScope)
    (nodePools : list infrav1exp.GCPManagedMachinePool) : Prop :=
  (IsAutopilotCluster s = true /\ length nodePools = 0%nat)
  \/ (IsAutopilotCluster s = false /\ (0 < length nodePools)%nat).

(** A condition write that records the failure [err]: a mark-false with
    the reconciliation-failed reason, error severity and the error's text. *)
Definition records_failure (err : error) (e : Event) : Prop :=
  match e with
  | Write_MarkFalse _ infrav1exp.GKEControlPlaneReconciliationFailedReason
      clusterv1.ConditionSeverityError (clusterv1.ErrorMessage err') => err' = err
  | _ => False
  end.

(** A condition write of the pool-count check: a mark-false with the
    node-pool reason, info severity and no message.  The check makes the
    same writes whether it refuses the create with an error or postpones
    it without one. *)
Definition records_pool_count (e : Event) : Prop :=
  match e with
  | Write_MarkFalse _ infrav1exp.GKEControlPlaneRequiresAtLeastOneNodePoolReason
      clusterv1.ConditionSeverityInfo clusterv1.EmptyMessage => True
  | _ => False
  end.

Definition waiting_status (status : containerpb.Cluster_Status) : Prop :=
  status = containerpb.Cluster_PROVISIONING
  \/ status = containerpb.Cluster_RECONCILING
  \/ status = containerpb.Cluster_STOPPING.

(** The canonical "feature disabled" configuration. *)
Definition disabled_config : containerpb.MasterAuthorizedNetworksConfig :=
  {| containerpb.Enabled := false;
     containerpb.CidrBlocks := Some [];
     containerpb.GcpPublicCidrsAccessEnabled := Some false |}.

Definition nil_and_empty {A} (xs ys : option (list A)) : Prop :=
  (xs = None /\ ys = Some []) \/ (xs = Some [] /\ ys = None).

(** What the conversion needs from the two helpers it calls: the
    normalised version of a set version is set, and the divisor used for
    regional clusters is not zero. *)
Definition helpers_total : Prop :=
  (forall v, NormalizeMachineVersion (Some v) <> None)
  /\ DefaultNumRegionsPerZone <> 0.

(** Every node pool has a machine pool at its index, with replicas set. *)
Definition pools_paired (nodePools : list infrav1exp.GCPManagedMachinePool)
    (machinePools : list clusterv1exp.MachinePool) : Prop :=
  (length nodePools <= length machinePools)%nat
  /\ forall i mp, (i < length nodePools)%nat -> machinePools !! i = Some mp ->
                 clusterv1exp.Spec_Replicas mp <> None.

Definition paired_from (i : nat) (rest : list infrav1exp.GCPManagedMachinePool)
    (machinePools : list clusterv1exp.MachinePool) : Prop :=
  forall j, (j < length rest)%nat ->
    exists mp, machinePools !! (i + j)%nat = Some mp
               /\ clusterv1exp.Spec_Replicas mp <> None.

(** *** Vocabulary of the further properties *)

Definition is_RPC_GetCluster (e : Event) : bool :=
  match e with RPC_GetCluster _ => true | _ => false end.

(** The calls that change something at the provider. *)
Definition is_mutating_RPC (e : Event) : bool :=
  match e with
  | RPC_CreateCluster _ | RPC_UpdateCluster _ | RPC_DeleteCluster _ => true
  | _ => false
  end.

Definition is_kubeconfig_call (e : Event) : bool :=
  match e with
  | Call_reconcileKubeconfig _ | Call_reconcileAdditionalKubeconfigs _
  | Call_SetEndpoint _ => true
  | _ => false
  end.


(** The events of a RUNNING pass up to and including the first kubeconfig
    step. *)
Definition kubeconfig_attempt (s : ManagedControlPlaneScope) (cluster : containerpb.Cluster)
    : list Event :=
  [RPC_GetCluster (ClusterFullName s);
   Write_MarkFalse clusterv1.GKEControlPlaneUpdatingCondition
     infrav1exp.GKEControlPlaneUpdatedReason
     clusterv1.ConditionSeverityInfo clusterv1.EmptyMessage;
   Call_reconcileKubeconfig cluster].

(** The status record after such a pass failed in a kubeconfig step. *)
Definition status_after_kubeconfig_failure (cluster : containerpb.Cluster)
    (st : GCPManagedControlPlaneStatus) : GCPManagedControlPlaneStatus :=
  set_Condition clusterv1.GKEControlPlaneUpdatingCondition
    (FalseCondition infrav1exp.GKEControlPlaneUpdatedReason
       clusterv1.ConditionSeverityInfo clusterv1.EmptyMessage)
    (set_CurrentVersion (containerpb.CurrentMasterVersion cluster) st).

(** A status in which [Delete] leaves the cluster alone. *)
Definition in_flight (status : containerpb.Cluster_Status) : bool :=
  match status with
  | containerpb.Cluster_PROVISIONING
  | containerpb.Cluster_RECONCILING
  | containerpb.Cluster_STOPPING => true
  | _ => false
  end.


(** *** cloud/scope/managedmachinepool.go: the scope's accessors *)

(** [location.Parse] followed by the [Region] field of its result, the
    error being dropped as [Region] does. *)
Variable location_Parse_Region : string -> string.

(** [scope.ManagedMachinePoolScope] as its accessors read it. *)
Record ManagedMachinePoolScope : Type := {
  MachinePoolScope_MachinePool : clusterv1exp.MachinePool;
  MachinePoolScope_GCPManagedMachinePool : infrav1exp.GCPManagedMachinePool;
  (* GCPManagedControlPlane.Spec *)
  MachinePoolScope_Project : string;
  MachinePoolScope_Location : string;
  MachinePoolScope_ClusterName : string;
}.

Definition ManagedMachinePoolScope_NodePoolVersion (s : ManagedMachinePoolScope)
    : option string :=
  NormalizeMachineVersion
    (clusterv1exp.Spec_Template_Spec_Version (MachinePoolScope_MachinePool s)).

Definition ManagedMachinePoolScope_NodePoolName (s : ManagedMachinePoolScope) : string :=
  let pool := MachinePoolScope_GCPManagedMachinePool s in
  if (0 <? String.length (infrav1exp.NodePoolName (infrav1exp.Spec pool)))%nat
  then infrav1exp.NodePoolName (infrav1exp.Spec pool)
  else infrav1exp.Name pool.

Definition ManagedMachinePoolScope_Region (s : ManagedMachinePoolScope) : string :=
  location_Parse_Region (MachinePoolScope_Location s).

Definition ManagedMachinePoolScope_NodePoolLocation (s : ManagedMachinePoolScope) : string :=
  "projects/" +:+ MachinePoolScope_Project s
  +:+ "/locations/" +:+ ManagedMachinePoolScope_Region s
  +:+ "/clusters/" +:+ MachinePoolScope_ClusterName s.

Definition ManagedMachinePoolScope_NodePoolFullName (s : ManagedMachinePoolScope) : string :=
  ManagedMachinePoolScope_NodePoolLocation s
  +:+ "/nodePools/" +:+ ManagedMachinePoolScope_NodePoolName s.

(** The conversion of the node pools paired position by position with the
    machine pools, written by recursion on both lists. *)
Fixpoint convert_paired (nodePools : list infrav1exp.GCPManagedMachinePool)
    (machinePools : list clusterv1exp.MachinePool) (regional : bool)
    : go (list containerpb.NodePool) :=
  match nodePools, machinePools with
  | [], _ => Returns []
  | _ :: _, [] => Panics IndexOutOfRange
  | nodePool :: nodePools', machinePool :: machinePools' =>
      (p <- ConvertToSdkNodePool nodePool machinePool regional ;;
       ps <- convert_paired nodePools' machinePools' regional ;;
       Returns (p :: ps))%go
  end.


(** The events of a [Delete] pass that issues the delete call. *)
Definition delete_attempt (s : ManagedControlPlaneScope) : list Event :=
  [RPC_GetCluster (ClusterFullName s); RPC_DeleteCluster (ClusterFullName s)].

(** The three condition writes after an accepted delete call. *)
Definition deleting_writes : list Event :=
  [Write_MarkFalse clusterv1.ReadyCondition infrav1exp.GKEControlPlaneDeletingReason
     clusterv1.ConditionSeverityInfo clusterv1.EmptyMessage;
   Write_MarkFalse clusterv1.GKEControlPlaneReadyCondition
     infrav1exp.GKEControlPlaneDeletingReason
     clusterv1.ConditionSeverityInfo clusterv1.EmptyMessage;
   Write_MarkTrue clusterv1.GKEControlPlaneDeletingCondition].

(** The lookup answered that the cluster does not exist: no cluster and no
    error, or an error whose unwrap chain holds an API error with code
    NotFound. *)
Definition lookup_says_absent (s : ManagedControlPlaneScope) (w : Collaborators) : Prop :=
  GetCluster w (ClusterFullName s) = (None, None)
  \/ exists cluster err,
       GetCluster w (ClusterFullName s) = (cluster, Some err)
       /\ errors_As_APIError err = Some codes.NotFound.


(** *** cloud/scope/managedmachinepool.go: the constructor *)

(** An object of another package that the scope only carries around
    (clients, the patch helper, the CAPI cluster). *)
Inductive handle : Type := Handle (id : nat).

Record ManagedMachinePoolScopeParams : Type := {
  Params_ManagedClusterClient : option handle;
  Params_InstanceGroupManagersClient : option handle;
  Params_Client : option handle;
  Params_Cluster : option handle;
  Params_MachinePool : option clusterv1exp.MachinePool;
  Params_GCPManagedCluster : option infrav1exp.GCPManagedCluster;
  Params_GCPManagedControlPlane : option infrav1exp.GCPManagedControlPlaneSpec;
  Params_GCPManagedMachinePool : option infrav1exp.GCPManagedMachinePool;
}.

(** The struct [ManagedMachinePoolScope] with its pointer fields. *)
Record ManagedMachinePoolScope_struct : Type := {
  struct_client : option handle;
  struct_patchHelper : option handle;
  struct_Cluster : option handle;
  struct_MachinePool : option clusterv1exp.MachinePool;
  struct_GCPManagedCluster : option infrav1exp.GCPManagedCluster;
  struct_GCPManagedControlPlane : option infrav1exp.GCPManagedControlPlaneSpec;
  struct_GCPManagedMachinePool : option infrav1exp.GCPManagedMachinePool;
  struct_mcClient : option handle;
  struct_migClient : option handle;
}.

(** [newClusterManagerClient] and [newInstanceGroupManagerClient], given
    the managed cluster whose credentials reference they read and the
    Kubernetes client; [patch.NewHelper]; [errors.Errorf] with a "%v" of
    the error; [errors.Wrap]. *)
Variable newClusterManagerClient :
  infrav1exp.GCPManagedCluster -> option handle -> option handle * option error.
Variable newInstanceGroupManagerClient :
  infrav1exp.GCPManagedCluster -> option handle -> option handle * option error.
Variable patch_NewHelper :
  infrav1exp.GCPManagedMachinePool -> option handle -> option handle * option error.
Variable errors_Errorf_v : string -> error -> error.
Variable errors_Wrap : error -> string -> error.

Definition NewManagedMachinePoolScope (params : ManagedMachinePoolScopeParams)
    : option ManagedMachinePoolScope_struct * option error :=
  match Params_Cluster params with
  | None => (None, Some (PlainError "failed to generate new scope from nil Cluster"))
  | Some _ =>
  match Params_MachinePool params with
  | None => (None, Some (PlainError "failed to generate new scope from nil MachinePool"))
  | Some _ =>
  match Params_GCPManagedCluster params with
  | None => (None, Some (PlainError "failed to generate new scope from nil GCPManagedCluster"))
  | Some managedCluster =>
  match Params_GCPManagedControlPlane params with
  | None =>
      (None, Some (PlainError "failed to generate new scope from nil GCPManagedControlPlane"))
  | Some _ =>
  match Params_GCPManagedMachinePool params with
  | None =>
      (None, Some (PlainError "failed to generate new scope from nil GCPManagedMachinePool"))
  | Some managedMachinePool =>
      let withManagedClusterClient
          (k : option handle -> option ManagedMachinePoolScope_struct * option error) :=
        match Params_ManagedClusterClient params with
        | None =>
            let '(managedClusterClient, err) :=
              newClusterManagerClient managedCluster (Params_Client params) in
            match err with
            | Some err =>
                (None, Some (errors_Errorf_v
                               "failed to create gcp managed cluster client: %v" err))
            | None => k managedClusterClient
            end
        | Some _ => k (Params_ManagedClusterClient params)
        end in
      let withInstanceGroupManagersClient
          (k : option handle -> option ManagedMachinePoolScope_struct * option error) :=
        match Params_InstanceGroupManagersClient params with
        | None =>
            let '(instanceGroupManagersClient, err) :=
              newInstanceGroupManagerClient managedCluster (Params_Client params) in
            match err with
            | Some err =>
                (None, Some (errors_Errorf_v
                               "failed to create gcp instance group manager client: %v" err))
            | None => k instanceGroupManagersClient
            end
        | Some _ => k (Params_InstanceGroupManagersClient params)
        end in
      withManagedClusterClient (fun managedClusterClient =>
      withInstanceGroupManagersClient (fun instanceGroupManagersClient =>
        let '(helper, err) := patch_NewHelper managedMachinePool (Params_Client params) in
        match err with
        | Some err => (None, Some (errors_Wrap err "failed to init patch helper"))
        | None =>
            (Some {| struct_client := Params_Client params;
                     struct_patchHelper := helper;
                     struct_Cluster := Params_Cluster params;
                     struct_MachinePool := Params_MachinePool params;
                     struct_GCPManagedCluster := None;
                     struct_GCPManagedControlPlane := Params_GCPManagedControlPlane params;
                     struct_GCPManagedMachinePool := Params_GCPManagedMachinePool params;
                     struct_mcClient := managedClusterClient;
                     struct_migClient := instanceGroupManagersClient |},
             None)
        end))
  end end end end end.

(** The five objects a scope cannot be built without are all there. *)
Definition params_complete (params : ManagedMachinePoolScopeParams) : Prop :=
  Params_Cluster params <> None
  /\ Params_MachinePool params <> None
  /\ Params_GCPManagedCluster params <> None
  /\ Params_GCPManagedControlPlane params <> None
  /\ Params_GCPManagedMachinePool params <> None.

(** ** Properties *)

Ltac run_pass :=
  repeat (cbv beta iota zeta delta
            [pass_bind pass_ret emit modify lift_go MarkTrue MarkFalse
             describeCluster updateCluster deleteCluster
             call_reconcileKubeconfig call_reconcileAdditionalKubeconfigs
             call_GetAllNodePools go_bind deref];
          cbn [app];
          try match goal with
              | H : ?x = _ |- context [?x] => rewrite H
              end).

(** Reading a condition back after a chain of status writes. *)
Lemma condition_set_Condition_eq t c st :
  condition (set_Condition t c st) t = Some c.
Proof. unfold condition, set_Condition; cbn. apply lookup_insert_eq. Qed.

Lemma condition_set_Condition_ne t t' c st :
  t <> t' -> condition (set_Condition t c st) t' = condition st t'.
Proof. intros Hne. unfold condition, set_Condition; cbn. by apply lookup_insert_ne. Qed.

Lemma condition_set_Initialized b st t :
  condition (set_Initialized b st) t = condition st t.
Proof. reflexivity. Qed.

Lemma condition_set_Ready b st t :
  condition (set_Ready b st) t = condition st t.
Proof. reflexivity. Qed.

Ltac read_status :=
  cbn [outcome final_status trace fst snd];
  repeat first
    [ rewrite condition_set_Initialized
    | rewrite condition_set_Ready
    | rewrite condition_set_Condition_eq
    | rewrite condition_set_Condition_ne by discriminate ];
  try reflexivity.

(** [describeCluster] issues exactly one lookup, never panics and leaves
    the status record alone. *)
Lemma describeCluster_run s w st :
  exists r, describeCluster s w st =
              (Returns r, st, [RPC_GetCluster (ClusterFullName s)]).
Proof.
  unfold describeCluster. run_pass.
  destruct (GetCluster w (ClusterFullName s)) as [cluster [err|]]; [|eauto].
  destruct (errors_As_APIError err) as [[]|]; eauto.
Qed.

Lemma describeCluster_outcome s w st r :
  outcome (describeCluster s w st) = Returns r ->
  describeCluster s w st = (Returns r, st, [RPC_GetCluster (ClusterFullName s)]).
Proof.
  destruct (describeCluster_run s w st) as [r' E]. rewrite E. cbn.
  intros [= ->]. reflexivity.
Qed.

(** C3. [Reconcile] on an observed cluster dispatches on its status:
    PROVISIONING, RECONCILING and STOPPING requeue after the fixed interval
    with the status effects of the lifecycle table (Creating, Updating,
    Deleting condition true respectively); ERROR and DEGRADED return done
    with ready and initialized false and the control-plane Ready condition
    false with the error reason; a status outside the known ones returns
    the unexpected-status error. *)
Theorem C3_Reconcile_lifecycle_dispatch s w st cluster :
  GetCluster w (ClusterFullName s) = (Some cluster, None) ->
  lifecycle_dispatch (containerpb.Status cluster) (Reconcile s w st).
Proof.
  intros HG. unfold lifecycle_dispatch, Reconcile.
  repeat apply conj.
  - intros HS. run_pass. repeat apply conj; read_status.
  - intros HS. run_pass. repeat apply conj; read_status.
  - intros HS. run_pass. repeat apply conj; read_status.
  - intros [HS|HS]; run_pass; repeat apply conj; read_status.
  - intros [HS|[n HS]]; run_pass; read_status.
Qed.

(** C9. [Delete] on a cluster observed as STOPPING issues no delete call,
    marks the Deleting condition true and the control-plane Ready
    condition false with the deleting reason, and returns done. *)
Theorem C9_Delete_STOPPING s w st cluster :
  GetCluster w (ClusterFullName s) = (Some cluster, None) ->
  containerpb.Status cluster = containerpb.Cluster_STOPPING ->
  let r := Delete s w st in
  outcome r = Returns (Result_zero, None)
  /\ Forall (fun e => is_RPC_DeleteCluster e = false) (trace r)
  /\ condition (final_status r) clusterv1.GKEControlPlaneDeletingCondition
       = Some TrueCondition
  /\ condition (final_status r) clusterv1.GKEControlPlaneReadyCondition
       = Some (FalseCondition infrav1exp.GKEControlPlaneDeletingReason
                 clusterv1.ConditionSeverityInfo clusterv1.EmptyMessage)
  /\ trace r =
       [RPC_GetCluster (ClusterFullName s);
        Write_MarkFalse clusterv1.GKEControlPlaneReadyCondition
          infrav1exp.GKEControlPlaneDeletingReason
          clusterv1.ConditionSeverityInfo clusterv1.EmptyMessage;
        Write_MarkTrue clusterv1.GKEControlPlaneDeletingCondition].
Proof.
  intros HG HS r; subst r. unfold Delete. run_pass.
  repeat apply conj; read_status.
  repeat constructor.
Qed.

(** X27. On a RUNNING cluster for which the diff step returns with its
    flag down, [Reconcile] issues no update call, writes the Updating
    condition false with the updated reason and then calls the first
    kubeconfig step; when both kubeconfig steps succeed they were called in
    that order, the two Ready conditions end true, the Creating condition
    false with the created reason, initialized and ready true, and the
    outcome is done. *)
Theorem Reconcile_after_silent_diff_step s w st cluster req :
  GetCluster w (ClusterFullName s) = (Some cluster, None) ->
  containerpb.Status cluster = containerpb.Cluster_RUNNING ->
  checkDiffAndPrepareUpdate s cluster = Returns (false, req) ->
  let r := Reconcile s w st in
  let st' := final_status r in
  Forall (fun e => is_RPC_UpdateCluster e = false) (trace r)
  /\ condition st' clusterv1.GKEControlPlaneUpdatingCondition
       = Some (FalseCondition infrav1exp.GKEControlPlaneUpdatedReason
                 clusterv1.ConditionSeverityInfo clusterv1.EmptyMessage)
  /\ (exists rest, trace r = firstn 3 (converged_trace s cluster) ++ rest)
  /\ (reconcileKubeconfig w cluster = None ->
      reconcileAdditionalKubeconfigs w cluster = None ->
      outcome r = Returns (Result_zero, None)
      /\ trace r = converged_trace s cluster
      /\ condition st' clusterv1.ReadyCondition = Some TrueCondition
      /\ condition st' clusterv1.GKEControlPlaneReadyCondition = Some TrueCondition
      /\ condition st' clusterv1.GKEControlPlaneCreatingCondition
           = Some (FalseCondition infrav1exp.GKEControlPlaneCreatedReason
                     clusterv1.ConditionSeverityInfo clusterv1.EmptyMessage)
      /\ Initialized st' = true /\ Ready st' = true).
Proof.
  intros HG HS HD r st'; subst st' r. unfold Reconcile, converged_trace. run_pass.
  destruct (reconcileKubeconfig w cluster) as [e1|] eqn:E1;
    [|destruct (reconcileAdditionalKubeconfigs w cluster) as [e2|] eqn:E2];
    run_pass; cbn [firstn app];
    (repeat apply conj; read_status;
     [ repeat constructor | eexists; reflexivity | try discriminate ]).
  intros _ _. repeat apply conj; read_status.
Qed.

(** C5. On the create path, with the node pools listed: autopilot with a
    declared pool fails with [ErrAutopilotClusterMachinePoolsNotAllowed]
    and no create call; no autopilot and no pool requeues after the fixed
    interval without error and without create call; in the remaining cases
    [createCluster] runs next. *)
Theorem C5_create_pool_count_preflight s w st nodePools machinePools :
  outcome (describeCluster s w st) = Returns (None, None) ->
  GetAllNodePools_Reconcile w = (nodePools, machinePools, None) ->
  let r := Reconcile s w st in
  let listing := [RPC_GetCluster (ClusterFullName s); Call_GetAllNodePools] in
  (IsAutopilotCluster s = true -> (0 < length nodePools)%nat ->
     outcome r = Returns (Result_zero, Some ErrAutopilotClusterMachinePoolsNotAllowed)
     /\ trace r = listing ++ pool_count_writes
     /\ Forall (fun e => is_RPC_CreateCluster e = false) (trace r))
  /\ (IsAutopilotCluster s = false -> length nodePools = 0%nat ->
     outcome r = Returns (Result_RequeueAfter DefaultRetryTime, None)
     /\ trace r = listing ++ pool_count_writes
     /\ Forall (fun e => is_RPC_CreateCluster e = false) (trace r))
  /\ (pool_count_ok s nodePools ->
     exists rest,
       trace r = listing
                 ++ trace (createCluster s w (set_Ready false (set_Initialized false st)))
                 ++ rest).
Proof.
  intros HD HL r listing; subst r listing.
  apply describeCluster_outcome in HD.
  unfold Reconcile, pool_count_writes. cbv beta delta [pass_bind]. rewrite HD.
  repeat apply conj.
  - intros HA Hn. apply Nat.ltb_lt in Hn. run_pass.
    repeat apply conj; read_status. repeat constructor.
  - intros HA Hn. apply Nat.eqb_eq in Hn. run_pass.
    repeat apply conj; read_status. repeat constructor.
  - intros [[HA Hn]|[HA Hn]].
    + assert (Hn' : (0 <? length nodePools)%nat = false)
        by (rewrite Hn; reflexivity).
      run_pass.
      destruct (createCluster s w (set_Ready false (set_Initialized false st)))
        as [[[[err|]|p] st2] tr2]; run_pass; cbn [trace snd];
        [eexists; reflexivity ..|exists []; by rewrite app_nil_r].
    + assert (Hn' : (length nodePools =? 0)%nat = false)
        by (apply Nat.eqb_neq; lia).
      run_pass.
      destruct (createCluster s w (set_Ready false (set_Initialized false st)))
        as [[[[err|]|p] st2] tr2]; run_pass; cbn [trace snd];
        [eexists; reflexivity ..|exists []; by rewrite app_nil_r].
Qed.

Ltac find_write :=
  repeat first
    [ apply Exists_cons_hd; reflexivity
    | apply Exists_cons_tl
    | apply Exists_app; right ].

(** C7, amended. An error returned by [Reconcile] when the lookup failed
    or found no cluster is preceded by a mark-false condition write: one
    with the reconciliation-failed reason, error severity and the error's
    text (lookup error, node-pool listing error, create failure) or, for the
    autopilot precondition error, one with the node-pool reason and info
    severity.  An error returned by [Delete] after the lookup found a
    cluster (delete failure) is preceded by a mark-false write with the
    reconciliation-failed reason and the error's text.  An error returned by
    [Reconcile] after the lookup found a cluster (unexpected status, failed
    update call, failed kubeconfig step) is preceded by no write of either
    kind. *)
Theorem C7_where_failures_are_recorded s w st :
  (forall res err,
      outcome (Reconcile s w st) = Returns (res, Some err) ->
      (forall cluster, outcome (describeCluster s w st) <> Returns (Some cluster, None)) ->
      Exists (records_failure err) (trace (Reconcile s w st))
      \/ (err = ErrAutopilotClusterMachinePoolsNotAllowed
          /\ IsAutopilotCluster s = true
          /\ Exists records_pool_count (trace (Reconcile s w st))))
  /\ (forall res err cluster,
      outcome (Delete s w st) = Returns (res, Some err) ->
      outcome (describeCluster s w st) = Returns (Some cluster, None) ->
      Exists (records_failure err) (trace (Delete s w st)))
  /\ (forall res err cluster,
      outcome (Reconcile s w st) = Returns (res, Some err) ->
      outcome (describeCluster s w st) = Returns (Some cluster, None) ->
      Forall (fun e => ~ records_failure err e /\ ~ records_pool_count e)
        (trace (Reconcile s w st))).
Proof.
  repeat apply conj.
  - intros res err Hout Hnf.
    destruct (describeCluster_run s w st) as [[cluster e] HD].
    revert Hout. unfold Reconcile. cbv beta delta [pass_bind]. rewrite HD.
    destruct e as [e|]; [|destruct cluster as [cluster|]].
    + run_pass. cbn [outcome trace fst snd]. intros [= <- <-]. left. find_write.
    + exfalso. apply (Hnf cluster). rewrite HD. reflexivity.
    + destruct (GetAllNodePools_Reconcile w) as [[nodePools machinePools] [e|]] eqn:HL.
      * run_pass. cbn [outcome trace fst snd]. intros [= <- <-]. left. find_write.
      * run_pass.
        destruct (IsAutopilotCluster s) eqn:HA;
          [destruct (0 <? length nodePools)%nat|destruct (length nodePools =? 0)%nat];
          try (run_pass; cbn [outcome trace fst snd]; intros [= <- <-];
               right; repeat split; find_write);
          try (run_pass; cbn [outcome trace fst snd]; discriminate);
          (destruct (createCluster s w (set_Ready false (set_Initialized false st)))
             as [[[[e|]|p] st2] tr2]; run_pass; cbn [outcome trace fst snd];
           [intros [= <- <-]; left; find_write | discriminate | discriminate]).
  - intros res err cluster Hout HD.
    apply describeCluster_outcome in HD.
    revert Hout. unfold Delete. cbv beta delta [pass_bind]. rewrite HD.
    destruct (containerpb.Status cluster); run_pass; cbn [outcome trace fst snd];
      try discriminate;
      (destruct (DeleteCluster w (ClusterFullName s)) as [e|]; run_pass;
       cbn [outcome trace fst snd]; [intros [= <- <-]; find_write | discriminate]).
  - intros res err cluster Hout HD.
    apply describeCluster_outcome in HD.
    revert Hout. unfold Reconcile. cbv beta delta [pass_bind]. rewrite HD.
    destruct (containerpb.Status cluster) eqn:HS; run_pass;
      cbn [outcome trace fst snd]; try discriminate;
      try (intros _; repeat constructor; cbn; intros []).
    destruct (checkDiffAndPrepareUpdate s cluster) as [[[|] req]|p]; run_pass;
      cbn [outcome trace fst snd]; try discriminate.
    + destruct (UpdateCluster w req); run_pass; cbn [outcome trace fst snd];
        [|discriminate].
      intros _. repeat constructor; cbn; intros [].
    + destruct (reconcileKubeconfig w cluster);
        [|destruct (reconcileAdditionalKubeconfigs w cluster)];
        run_pass; cbn [outcome trace fst snd]; try discriminate;
        (intros _; repeat constructor; cbn; intros []).
Qed.

(** C8, amended. With a positive retry interval, a [Reconcile] pass that
    observes PROVISIONING, RECONCILING or STOPPING, or whose create step
    just succeeded, returns requeue-after the fixed interval, which is
    neither done nor a requeue without delay; a [Delete] pass that observes
    one of these three states returns done. *)
Theorem C8_Reconcile_waits_with_fixed_interval s w st :
  0 < DefaultRetryTime ->
  let waits := Result_RequeueAfter DefaultRetryTime in
  (waits <> Result_zero /\ 0 < RequeueAfter waits)
  /\ (forall cluster,
        GetCluster w (ClusterFullName s) = (Some cluster, None) ->
        waiting_status (containerpb.Status cluster) ->
        outcome (Reconcile s w st) = Returns (waits, None)
        /\ outcome (Delete s w st) = Returns (Result_zero, None))
  /\ (forall nodePools machinePools,
        outcome (describeCluster s w st) = Returns (None, None) ->
        GetAllNodePools_Reconcile w = (nodePools, machinePools, None) ->
        pool_count_ok s nodePools ->
        outcome (createCluster s w (set_Ready false (set_Initialized false st)))
          = Returns None ->
        outcome (Reconcile s w st) = Returns (waits, None)).
Proof.
  intros Hpos waits; subst waits. repeat apply conj.
  - unfold Result_RequeueAfter, Result_zero. intros [= E]. lia.
  - exact Hpos.
  - intros cluster HG HS. unfold Reconcile, Delete.
    destruct HS as [HS|[HS|HS]]; run_pass; split; reflexivity.
  - intros nodePools machinePools HD HL Hok Hcreate.
    apply describeCluster_outcome in HD.
    unfold Reconcile. cbv beta delta [pass_bind]. rewrite HD.
    revert Hcreate.
    destruct (createCluster s w (set_Ready false (set_Initialized false st)))
      as [[[[e|]|p] st2] tr2] eqn:HC; cbn [outcome fst snd]; try discriminate.
    intros _.
    destruct Hok as [[HA Hn]|[HA Hn]].
    + assert (Hn' : (0 <? length nodePools)%nat = false)
        by (rewrite Hn; reflexivity).
      run_pass. reflexivity.
    + assert (Hn' : (length nodePools =? 0)%nat = false)
        by (apply Nat.eqb_neq; lia).
      run_pass. reflexivity.
Qed.

(** *** The diff step *)

Lemma hasDesiredVersion_true_iff controlPlaneVersion clusterVersion :
  hasDesiredVersion controlPlaneVersion clusterVersion = true <->
  controlPlaneVersion = None
  \/ exists v, controlPlaneVersion = Some v
               /\ (HasPrefix clusterVersion v = true \/ v = clusterVersion).
Proof.
  unfold hasDesiredVersion. destruct controlPlaneVersion as [v|].
  - destruct (HasPrefix clusterVersion v) eqn:E.
    + split; [right; eauto|done].
    + rewrite String.eqb_eq. split.
      * intros ->. right; eauto.
      * intros [?|(v' & [= <-] & [?|?])]; [done|congruence|done].
  - split; [by left|done].
Qed.

(** With the desired version unset the diff step dereferences it. *)
Lemma checkDiffAndPrepareUpdate_unset_version s existingCluster :
  infrav1exp.ControlPlaneVersion (GCPManagedControlPlane_Spec s) = None ->
  checkDiffAndPrepareUpdate s existingCluster = Panics NilPointerDereference.
Proof.
  intros HV. unfold checkDiffAndPrepareUpdate. rewrite HV.
  destruct (containerpb.Cluster_ReleaseChannel existingCluster) as [rc|]; [|reflexivity].
  cbn. by destruct (negb _).
Qed.

(** What the diff step does with the version: the master-version field is
    filled, and the flag raised, exactly when [hasDesiredVersion] answers
    true. *)
Lemma checkDiffAndPrepareUpdate_version s existingCluster needUpdate req :
  checkDiffAndPrepareUpdate s existingCluster = Returns (needUpdate, req) ->
  let controlPlaneVersion := infrav1exp.ControlPlaneVersion (GCPManagedControlPlane_Spec s) in
  exists update,
    containerpb.Update req = Some update
    /\ if hasDesiredVersion controlPlaneVersion
            (containerpb.CurrentMasterVersion existingCluster)
       then needUpdate = true
            /\ controlPlaneVersion = Some (containerpb.DesiredMasterVersion update)
       else containerpb.DesiredMasterVersion update = "".
Proof.
  unfold checkDiffAndPrepareUpdate.
  destruct (containerpb.Cluster_ReleaseChannel existingCluster) as [rc|]; [|discriminate].
  cbn [deref go_bind]. destruct (negb _);
    (destruct (hasDesiredVersion _ _);
     [destruct (infrav1exp.ControlPlaneVersion _); [|discriminate]|]);
    cbn [deref go_bind];
    (destruct (compareMasterAuthorizedNetworksConfig _ _) as [[]|]; [| |discriminate]);
    cbn [go_bind negb]; intros [= <- <-]; eexists; (split; [reflexivity|]);
    cbn; auto.
Qed.

Lemma Reconcile_unset_version_panics s w st cluster :
  GetCluster w (ClusterFullName s) = (Some cluster, None) ->
  containerpb.Status cluster = containerpb.Cluster_RUNNING ->
  infrav1exp.ControlPlaneVersion (GCPManagedControlPlane_Spec s) = None ->
  outcome (Reconcile s w st) = Panics NilPointerDereference.
Proof.
  intros HG HS HV.
  pose proof (checkDiffAndPrepareUpdate_unset_version s cluster HV) as HP.
  unfold Reconcile. run_pass. reflexivity.
Qed.

(** C4. The authorized-networks comparison: an unset desired
    configuration is converted to the disabled form (not enabled, empty
    allow-list, public access pointing to false), the conversion never
    yields nil, and the diff step compares that form with the observed
    configuration, an absent observed configuration counting as different;
    when one allow-list is nil and the other empty the allow-lists make no
    difference, the result being decided by the other two fields;
    configurations that compare equal agree on the public-access pointer
    in presence and value; configurations that differ in the enabled flag
    or in the pointer compare different; and in every other case the result
    is the answer of the structural comparison [cmp.Equal] of the two
    allow-lists. *)
Theorem C4_authorized_networks_comparison :
  convertToSdkMasterAuthorizedNetworksConfig None = Some disabled_config
  /\ (forall config, convertToSdkMasterAuthorizedNetworksConfig config <> None)
  /\ (forall s existingCluster needUpdate req,
        infrav1exp.MasterAuthorizedNetworksConfig_ (GCPManagedControlPlane_Spec s) = None ->
        checkDiffAndPrepareUpdate s existingCluster = Returns (needUpdate, req) ->
        exists same,
          compareMasterAuthorizedNetworksConfig (Some disabled_config)
            (containerpb.Cluster_MasterAuthorizedNetworksConfig existingCluster)
            = Returns same
          /\ containerpb.DesiredMasterAuthorizedNetworksConfig
               <$> containerpb.Update req
             = Some (if same then None else Some disabled_config))
  /\ (forall a, compareMasterAuthorizedNetworksConfig (Some a) None = Returns false)
  /\ (forall a b,
        nil_and_empty (containerpb.CidrBlocks a) (containerpb.CidrBlocks b) ->
        compareMasterAuthorizedNetworksConfig (Some a) (Some b)
        = Returns (Bool.eqb (containerpb.Enabled a) (containerpb.Enabled b)
                   && bool_decide (containerpb.GcpPublicCidrsAccessEnabled a
                                   = containerpb.GcpPublicCidrsAccessEnabled b)))
  /\ (forall a b,
        compareMasterAuthorizedNetworksConfig (Some a) (Some b) = Returns true ->
        containerpb.GcpPublicCidrsAccessEnabled a
        = containerpb.GcpPublicCidrsAccessEnabled b)
  /\ (forall a b,
        containerpb.Enabled a <> containerpb.Enabled b
        \/ containerpb.GcpPublicCidrsAccessEnabled a
           <> containerpb.GcpPublicCidrsAccessEnabled b ->
        compareMasterAuthorizedNetworksConfig (Some a) (Some b) = Returns false)
  /\ (forall a b,
        containerpb.Enabled a = containerpb.Enabled b ->
        containerpb.GcpPublicCidrsAccessEnabled a
        = containerpb.GcpPublicCidrsAccessEnabled b ->
        ~ nil_and_empty (containerpb.CidrBlocks a) (containerpb.CidrBlocks b) ->
        compareMasterAuthorizedNetworksConfig (Some a) (Some b)
        = cmp_Equal (containerpb.CidrBlocks a) (containerpb.CidrBlocks b)).
Proof.
  repeat apply conj.
  - reflexivity.
  - by intros [config|].
  - intros s existingCluster needUpdate req HN.
    unfold checkDiffAndPrepareUpdate. rewrite HN.
    change (convertToSdkMasterAuthorizedNetworksConfig None) with (Some disabled_config).
    destruct (containerpb.Cluster_ReleaseChannel existingCluster) as [rc|];
      [|discriminate].
    cbn [deref go_bind]. destruct (negb _);
      (destruct (hasDesiredVersion _ _);
       [destruct (infrav1exp.ControlPlaneVersion _); [|discriminate]|]);
      cbn [deref go_bind];
      (destruct (compareMasterAuthorizedNetworksConfig _ _) as [[]|];
       [| |discriminate]);
      cbn [go_bind negb]; intros [= <- <-]; eexists; split; reflexivity.
  - reflexivity.
  - intros [ea ca pa] [eb cb pb]; cbn.
    intros [[-> ->]|[-> ->]]; destruct ea, eb, pa as [[]|], pb as [[]|]; reflexivity.
  - intros [ea ca pa] [eb cb pb]; cbn.
    destruct ea, eb, pa as [[]|], pb as [[]|]; cbn; try discriminate; reflexivity.
  - intros [ea ca pa] [eb cb pb]; cbn.
    destruct ea, eb, pa as [[]|], pb as [[]|]; cbn; try reflexivity;
      intros [H|H]; by destruct H.
  - intros [ea ca pa] [eb cb pb]; cbn. intros -> -> Hne.
    assert (Hcase : (is_nil ca && is_empty_slice cb) || (is_nil cb && is_empty_slice ca)
                    = false).
    { destruct ca as [[|x xs]|], cb as [[|y ys]|]; cbn; try reflexivity;
        exfalso; apply Hne; unfold nil_and_empty; auto. }
    rewrite Hcase.
    assert (Hanswer : (equal <- cmp_Equal ca cb ;;
                       if negb equal then Returns false else Returns true)%go
                      = cmp_Equal ca cb)
      by (by destruct (cmp_Equal ca cb) as [[]|]).
    destruct eb, pb as [[]|]; cbn; exact Hanswer.
Qed.

(** *** Node-pool conversion *)

Lemma pools_paired_from_0 nodePools machinePools :
  pools_paired nodePools machinePools <-> paired_from 0 nodePools machinePools.
Proof.
  unfold pools_paired, paired_from. split.
  - intros [Hlen Hrep] j Hj.
    destruct (lookup_lt_is_Some_2 machinePools j) as [mp Hmp]; [lia|].
    exists mp. split; [exact Hmp|]. by apply (Hrep j).
  - intros H. split.
    + destruct (Nat.le_gt_cases (length nodePools) (length machinePools)) as [|Hlt];
        [done|].
      destruct (H (length machinePools) Hlt) as (mp & Hmp & _).
      apply lookup_lt_Some in Hmp. cbn in Hmp. lia.
    + intros j mp Hj Hmp. destruct (H j Hj) as (mp' & Hmp' & Hrep).
      cbn in Hmp'. congruence.
Qed.

Lemma ConvertToSdkNodePool_needs_replicas nodePool machinePool regional :
  fault_free (ConvertToSdkNodePool nodePool machinePool regional) ->
  clusterv1exp.Spec_Replicas machinePool <> None.
Proof.
  unfold fault_free, ConvertToSdkNodePool.
  destruct (clusterv1exp.Spec_Replicas machinePool) as [replicas|]; cbn; [done|].
  intros [? [=]].
Qed.

Lemma ConvertToSdkNodePool_returns nodePool machinePool regional :
  helpers_total ->
  clusterv1exp.Spec_Replicas machinePool <> None ->
  fault_free (ConvertToSdkNodePool nodePool machinePool regional).
Proof.
  intros [Hnorm Hdiv]. unfold fault_free, ConvertToSdkNodePool.
  destruct (clusterv1exp.Spec_Replicas machinePool) as [replicas|]; cbn; [intros _|done].
  assert (exists n, (if regional then int32_div replicas DefaultNumRegionsPerZone
                     else Returns replicas) = Returns n) as [n ->].
  { destruct regional; [|eauto]. unfold int32_div.
    destruct (Z.eqb_spec DefaultNumRegionsPerZone 0); [done|eauto]. }
  cbn. destruct (clusterv1exp.Spec_Template_Spec_Version machinePool) as [v|]; [|eauto].
  destruct (NormalizeMachineVersion (Some v)) as [v'|] eqn:E; [cbn; eauto|].
  by destruct (Hnorm v).
Qed.

Lemma ConvertToSdkNodePools_loop_complete machinePools regional rest :
  forall i res out,
    ConvertToSdkNodePools_loop i rest machinePools regional res = Returns out ->
    paired_from i rest machinePools.
Proof.
  induction rest as [|nodePool rest IH]; intros i res out Hrun j Hj.
  - cbn in Hj. lia.
  - cbn in Hrun, Hj. unfold index in Hrun.
    destruct (machinePools !! i) as [mp|] eqn:Hmp; [|discriminate].
    cbn in Hrun.
    destruct (ConvertToSdkNodePool nodePool mp regional) as [p|] eqn:Hp; [|discriminate].
    cbn in Hrun. destruct j as [|j].
    + exists mp. rewrite Nat.add_0_r. split; [done|].
      apply (ConvertToSdkNodePool_needs_replicas nodePool mp regional). by exists p.
    + destruct (IH _ _ _ Hrun j) as (mp' & Hmp' & Hrep); [lia|].
      exists mp'. split; [|done]. by replace (i + S j)%nat with (S i + j)%nat by lia.
Qed.

Lemma ConvertToSdkNodePools_loop_sound machinePools regional rest :
  helpers_total ->
  forall i res,
    paired_from i rest machinePools ->
    exists out,
      ConvertToSdkNodePools_loop i rest machinePools regional res = Returns (res ++ out)
      /\ length out = length rest
      /\ forall j nodePool, rest !! j = Some nodePool ->
           exists mp p, machinePools !! (i + j)%nat = Some mp
                        /\ ConvertToSdkNodePool nodePool mp regional = Returns p
                        /\ out !! j = Some p.
Proof.
  intros Htot. induction rest as [|nodePool rest IH]; intros i res Hpaired.
  - exists []. cbn. rewrite app_nil_r. repeat split. intros j np Hj. done.
  - destruct (Hpaired 0%nat) as (mp & Hmp & Hrep); [cbn; lia|].
    rewrite Nat.add_0_r in Hmp.
    apply (ConvertToSdkNodePool_returns nodePool mp regional Htot) in Hrep.
    destruct Hrep as [p Hp].
    destruct (IH (S i) (res ++ [p])) as (out & Hrun & Hlen & Hout).
    { intros j Hj. destruct (Hpaired (S j)) as (mp' & Hmp' & Hrep'); [cbn; lia|].
      exists mp'. split; [|done]. by replace (S i + j)%nat with (i + S j)%nat by lia. }
    exists (p :: out). cbn. unfold index. rewrite Hmp. cbn. rewrite Hp. cbn.
    rewrite Hrun, <- app_assoc. repeat split; [by rewrite Hlen|].
    intros [|j] np Hj; cbn in Hj.
    + injection Hj as <-. exists mp, p. by rewrite Nat.add_0_r.
    + destruct (Hout j np Hj) as (mp' & p' & Hmp' & Hp' & Hlook).
      exists mp', p'. by replace (i + S j)%nat with (S i + j)%nat by lia.
Qed.

(** C10. [ConvertToSdkNodePools] pairs the i-th node pool with the i-th
    machine pool and dereferences its replicas.  It returns without panic
    only if the machine-pool list is at least as long as the node-pool
    list and every paired machine pool has its replicas set; and under
    that precondition (the two helpers it calls behaving) it returns a
    list with one entry per node pool, the i-th being the conversion of
    the i-th node pool with the i-th machine pool. *)
Theorem C10_ConvertToSdkNodePools_precondition nodePools machinePools regional :
  (fault_free (ConvertToSdkNodePools nodePools machinePools regional) ->
   pools_paired nodePools machinePools)
  /\ (helpers_total ->
      pools_paired nodePools machinePools ->
      exists res,
        ConvertToSdkNodePools nodePools machinePools regional = Returns res
        /\ length res = length nodePools
        /\ forall i nodePool, nodePools !! i = Some nodePool ->
             exists mp p, machinePools !! i = Some mp
                          /\ ConvertToSdkNodePool nodePool mp regional = Returns p
                          /\ res !! i = Some p).
Proof.
  split.
  - intros [res Hrun]. apply pools_paired_from_0.
    by apply (ConvertToSdkNodePools_loop_complete machinePools regional nodePools
                0%nat [] res).
  - intros Htot Hp. apply pools_paired_from_0 in Hp.
    destruct (ConvertToSdkNodePools_loop_sound machinePools regional nodePools
                Htot 0%nat [] Hp) as (out & Hrun & Hlen & Hout).
    exists out. unfold ConvertToSdkNodePools. rewrite Hrun. repeat split; done.
Qed.

(** *** Further properties of the orchestrators *)

(** [createCluster] leaves the status record alone; it either stops before
    the provider call, and then does not report success, or issues exactly
    one create call and returns the provider's answer. *)
Lemma createCluster_run s w st :
  (exists r, createCluster s w st = (r, st, [Call_GetAllNodePools]) /\ r <> Returns None)
  \/ (exists req,
        createCluster s w st
        = (Returns (CreateCluster w req), st, [Call_GetAllNodePools; RPC_CreateCluster req])).
Proof.
  unfold createCluster. run_pass.
  destruct (GetAllNodePools_createCluster w) as [[nodePools machinePools] e].
  destruct (ManagedMachinePoolsPreflightCheck _ _ _);
    [left; eexists; split; [reflexivity|discriminate]|].
  destruct (infrav1exp.Network_Name _);
    [|left; eexists; split; [reflexivity|discriminate]].
  run_pass.
  destruct (IsAutopilotCluster s); cbn [negb];
    [|destruct (ConvertToSdkNodePools _ _ _);
      [|left; eexists; split; [reflexivity|discriminate]]];
    run_pass; right;
    match goal with
    | |- context [CreateCluster w ?r] => exists r; destruct (CreateCluster w r)
    end; reflexivity.
Qed.

Ltac found_cases s w cluster :=
  destruct (containerpb.Status cluster) eqn:?;
  [ | | destruct (checkDiffAndPrepareUpdate s cluster) as [[[|] ?req]|?p] eqn:?;
        [ destruct (UpdateCluster w req) eqn:?
        | destruct (reconcileKubeconfig w cluster) eqn:?;
          [ | destruct (reconcileAdditionalKubeconfigs w cluster) eqn:? ]
        | ]
    | | | | | ].

Ltac not_found_cases s w st :=
  destruct (GetAllNodePools_Reconcile w) as [[?nodePools ?machinePools] [?e|]] eqn:?;
  [ | destruct (IsAutopilotCluster s) eqn:?;
      [ destruct (0 <? length nodePools)%nat eqn:?
      | destruct (length nodePools =? 0)%nat eqn:? ] ];
  try (destruct (createCluster_run s w (set_Ready false (set_Initialized false st)))
         as [(?r & ?HC & ?Hr)|(?req & ?HC)];
       [ destruct r as [[?e|]|?p]; [ | exfalso; apply Hr; reflexivity | ]
       | destruct (CreateCluster w req) eqn:? ]).

(** Every path of [Reconcile]: the lookup failed, found a cluster (by
    status, diff result and collaborator answers) or found none (by listing
    result, pool count and create result). *)
Ltac Reconcile_cases s w st :=
  let cluster := fresh "cluster" in
  let derr := fresh "derr" in
  let HD := fresh "HD" in
  destruct (describeCluster_run s w st) as [[cluster derr] HD];
  unfold Reconcile; cbv beta delta [pass_bind]; rewrite ?HD;
  destruct derr as [derr|];
  [ | destruct cluster as [cluster|];
      [ found_cases s w cluster | not_found_cases s w st ] ];
  run_pass; cbn [outcome final_status trace fst snd].

Ltac Delete_cases s w st :=
  let cluster := fresh "cluster" in
  let derr := fresh "derr" in
  let HD := fresh "HD" in
  destruct (describeCluster_run s w st) as [[cluster derr] HD];
  unfold Delete; cbv beta delta [pass_bind]; rewrite ?HD;
  destruct derr as [derr|];
  [ | destruct cluster as [cluster|];
      [ destruct (containerpb.Status cluster) eqn:?;
        try destruct (DeleteCluster w (ClusterFullName s)) eqn:? | ] ];
  run_pass; cbn [outcome final_status trace fst snd].

(** X1. Call discipline of [Reconcile]: a pass starts with the one lookup
    it makes, never issues a delete call, issues at most one call that
    changes the provider, issues a create call only when the lookup found
    no cluster and an update call only for a cluster found RUNNING. *)
Theorem Reconcile_call_discipline s w st :
  let tr := trace (Reconcile s w st) in
  (exists rest, tr = RPC_GetCluster (ClusterFullName s) :: rest
                /\ existsb is_RPC_GetCluster rest = false)
  /\ existsb is_RPC_DeleteCluster tr = false
  /\ (length (List.filter is_mutating_RPC tr) <= 1)%nat
  /\ (existsb is_RPC_CreateCluster tr = true ->
      outcome (describeCluster s w st) = Returns (None, None))
  /\ (existsb is_RPC_UpdateCluster tr = true ->
      exists cluster,
        outcome (describeCluster s w st) = Returns (Some cluster, None)
        /\ containerpb.Status cluster = containerpb.Cluster_RUNNING).
Proof.
  cbv zeta.
  Reconcile_cases s w st;
    (repeat apply conj;
     [ eexists; split; reflexivity
     | reflexivity
     | cbn; lia
     | cbn; first [discriminate | reflexivity]
     | cbn; first [discriminate | intros _; eexists; split; [reflexivity|assumption]] ]).
Qed.

(** X2. [Delete] never panics, never issues a create or an update call,
    issues at most one delete call, and issues it exactly when the lookup
    found a cluster that is not PROVISIONING, RECONCILING or STOPPING; it
    never touches the recorded current version. *)
Theorem Delete_call_discipline s w st :
  let r := Delete s w st in
  (exists res, outcome r = Returns res)
  /\ existsb is_RPC_CreateCluster (trace r) = false
  /\ existsb is_RPC_UpdateCluster (trace r) = false
  /\ (length (List.filter is_mutating_RPC (trace r)) <= 1)%nat
  /\ (existsb is_RPC_DeleteCluster (trace r) = true <->
      exists cluster,
        outcome (describeCluster s w st) = Returns (Some cluster, None)
        /\ in_flight (containerpb.Status cluster) = false)
  /\ CurrentVersion (final_status r) = CurrentVersion st.
Proof.
  cbv zeta.
  Delete_cases s w st;
    (repeat apply conj;
     [ eexists; reflexivity
     | reflexivity
     | reflexivity
     | cbn; lia
     | cbn;
       first [ discriminate
             | intros _; eexists; split; [reflexivity|];
               match goal with H : containerpb.Status _ = _ |- _ => rewrite H end;
               reflexivity ]
     | cbn; intros (c & Hc & Hin);
       first [ reflexivity
             | discriminate Hc
             | injection Hc as <-;
               match goal with H : containerpb.Status _ = _ |- _ => rewrite H in Hin end;
               discriminate Hin ]
     | reflexivity ]).
Qed.

(** X3. After a [Reconcile] pass the recorded current version is the
    observed master version if the lookup found a cluster, whatever the
    pass did next (also when it failed or panicked), and is untouched
    otherwise. *)
Theorem Reconcile_CurrentVersion s w st :
  CurrentVersion (final_status (Reconcile s w st))
  = match outcome (describeCluster s w st) with
    | Returns (Some cluster, None) => containerpb.CurrentMasterVersion cluster
    | _ => CurrentVersion st
    end.
Proof.
  Reconcile_cases s w st;
    try match goal with c : option containerpb.Cluster |- _ => destruct c end;
    reflexivity.
Qed.

(** X4. [Reconcile] and [Delete] keep the two status flags together: if
    initialized and ready agree before the pass they agree after it. *)
Theorem Initialized_Ready_move_together s w st :
  Initialized st = Ready st ->
  Initialized (final_status (Reconcile s w st)) = Ready (final_status (Reconcile s w st))
  /\ Initialized (final_status (Delete s w st)) = Ready (final_status (Delete s w st)).
Proof.
  intros Heq. split.
  - Reconcile_cases s w st; cbn; first [reflexivity | exact Heq].
  - Delete_cases s w st; cbn; first [reflexivity | exact Heq].
Qed.

(** X5. [Reconcile] reports ready only for a cluster it found RUNNING or
    RECONCILING: if ready is true after the pass, it was true before or the
    lookup found a cluster in one of these two states. *)
Theorem Reconcile_Ready_only_when_serving s w st :
  Ready (final_status (Reconcile s w st)) = true ->
  Ready st = true
  \/ exists cluster,
       outcome (describeCluster s w st) = Returns (Some cluster, None)
       /\ (containerpb.Status cluster = containerpb.Cluster_RUNNING
           \/ containerpb.Status cluster = containerpb.Cluster_RECONCILING).
Proof.
  Reconcile_cases s w st; cbn;
    first [ discriminate
          | intros H; left; exact H
          | intros _; right; eexists; split; [reflexivity|]; auto ].
Qed.

(** X6. On a RUNNING cluster for which the diff step asks for an update,
    [Reconcile] issues exactly that update request and calls no kubeconfig
    step.  If the provider refuses, the error is returned and the status
    record is as before the pass except for the current version; if it
    accepts, the Updating condition is marked true, initialized and ready
    are set, and the outcome is done without requeue. *)
Theorem Reconcile_update_path s w st cluster req :
  GetCluster w (ClusterFullName s) = (Some cluster, None) ->
  containerpb.Status cluster = containerpb.Cluster_RUNNING ->
  checkDiffAndPrepareUpdate s cluster = Returns (true, req) ->
  let r := Reconcile s w st in
  let st' := final_status r in
  let calls := [RPC_GetCluster (ClusterFullName s); RPC_UpdateCluster req] in
  existsb is_kubeconfig_call (trace r) = false
  /\ match UpdateCluster w req with
     | Some err =>
         outcome r = Returns (Result_zero, Some err)
         /\ trace r = calls
         /\ st' = set_CurrentVersion (containerpb.CurrentMasterVersion cluster) st
     | None =>
         outcome r = Returns (Result_zero, None)
         /\ trace r = calls ++ [Write_MarkTrue clusterv1.GKEControlPlaneUpdatingCondition]
         /\ condition st' clusterv1.GKEControlPlaneUpdatingCondition = Some TrueCondition
         /\ Initialized st' = true /\ Ready st' = true
     end.
Proof.
  intros HG HS HD r st' calls; subst st' r calls. unfold Reconcile. run_pass.
  destruct (UpdateCluster w req) as [err|]; run_pass;
    repeat apply conj; read_status.
Qed.

(** X7. The kubeconfig steps fail fast.  On a RUNNING cluster with nothing
    to update, if the first step fails the second is not called, and if
    either fails the endpoint is not set and the error is returned; the
    status record then differs from the one before the pass only in the
    current version and in the Updating condition, which stays false with
    the updated reason. *)
Theorem Reconcile_kubeconfig_fail_fast s w st cluster req err :
  GetCluster w (ClusterFullName s) = (Some cluster, None) ->
  containerpb.Status cluster = containerpb.Cluster_RUNNING ->
  checkDiffAndPrepareUpdate s cluster = Returns (false, req) ->
  let r := Reconcile s w st in
  (reconcileKubeconfig w cluster = Some err ->
     outcome r = Returns (Result_zero, Some err)
     /\ trace r = kubeconfig_attempt s cluster
     /\ final_status r = status_after_kubeconfig_failure cluster st)
  /\ (reconcileKubeconfig w cluster = None ->
      reconcileAdditionalKubeconfigs w cluster = Some err ->
      outcome r = Returns (Result_zero, Some err)
      /\ trace r = kubeconfig_attempt s cluster
                   ++ [Call_reconcileAdditionalKubeconfigs cluster]
      /\ final_status r = status_after_kubeconfig_failure cluster st).
Proof.
  intros HG HS HD r; subst r.
  unfold Reconcile, kubeconfig_attempt, status_after_kubeconfig_failure.
  split.
  - intros H1. run_pass. repeat apply conj; reflexivity.
  - intros H1 H2. run_pass. repeat apply conj; reflexivity.
Qed.

(** *** Further properties of the diff step *)

Lemma prefix_refl (v : string) : String.prefix v v = true.
Proof.
  induction v as [|a v IH]; cbn; [reflexivity|].
  destruct (ascii_dec a a); [exact IH|congruence].
Qed.

Lemma prefix_trans (u v o : string) :
  String.prefix u v = true -> String.prefix v o = true -> String.prefix u o = true.
Proof.
  revert v o. induction u as [|a u IH]; intros v o; [by destruct o|].
  destruct v as [|b v]; [by destruct o|]. destruct o as [|c o]; cbn; [discriminate|].
  destruct (ascii_dec a b) as [->|]; [|discriminate].
  destruct (ascii_dec b c) as [->|]; [|discriminate].
  apply IH.
Qed.

Lemma prefix_length (v o : string) :
  String.prefix v o = true -> (String.length v <= String.length o)%nat.
Proof.
  revert o. induction v as [|a v IH]; intros o; [cbn; lia|].
  destruct o as [|b o]; cbn; [discriminate|].
  destruct (ascii_dec a b); [|discriminate]. intros H. apply IH in H. lia.
Qed.

(** X8. For a set desired version [hasDesiredVersion] is exactly the prefix
    test: its closing equality test never changes the answer. *)
Theorem hasDesiredVersion_is_prefix_test v clusterVersion :
  hasDesiredVersion (Some v) clusterVersion = HasPrefix clusterVersion v.
Proof.
  unfold hasDesiredVersion. destruct (HasPrefix clusterVersion v) eqn:E; [reflexivity|].
  destruct (String.eqb_spec v clusterVersion) as [->|]; [|reflexivity].
  unfold HasPrefix in E. by rewrite prefix_refl in E.
Qed.

(** X9. Matching of versions is monotone in precision: a desired version
    that is a prefix of a matching one matches too; the empty desired
    version matches every observed version; a desired version longer than
    the observed one never matches. *)
Theorem hasDesiredVersion_monotone v v' clusterVersion :
  (HasPrefix v' v = true ->
   hasDesiredVersion (Some v') clusterVersion = true ->
   hasDesiredVersion (Some v) clusterVersion = true)
  /\ hasDesiredVersion (Some "") clusterVersion = true
  /\ ((String.length clusterVersion < String.length v)%nat ->
      hasDesiredVersion (Some v) clusterVersion = false).
Proof.
  rewrite !hasDesiredVersion_is_prefix_test. unfold HasPrefix. repeat apply conj.
  - apply prefix_trans.
  - by destruct clusterVersion.
  - intros Hlen. destruct (String.prefix v clusterVersion) eqn:E; [|reflexivity].
    apply prefix_length in E. lia.
Qed.

(** X10. The diff step returns without panic exactly when the observed
    cluster carries a release channel, the desired version is set and the
    authorized-networks comparison does not panic. *)
Theorem checkDiffAndPrepareUpdate_fault_free s existingCluster :
  fault_free (checkDiffAndPrepareUpdate s existingCluster)
  <-> containerpb.Cluster_ReleaseChannel existingCluster <> None
      /\ infrav1exp.ControlPlaneVersion (GCPManagedControlPlane_Spec s) <> None
      /\ fault_free
           (compareMasterAuthorizedNetworksConfig
              (convertToSdkMasterAuthorizedNetworksConfig
                 (infrav1exp.MasterAuthorizedNetworksConfig_ (GCPManagedControlPlane_Spec s)))
              (containerpb.Cluster_MasterAuthorizedNetworksConfig existingCluster)).
Proof.
  unfold fault_free, checkDiffAndPrepareUpdate.
  destruct (containerpb.Cluster_ReleaseChannel existingCluster) as [rc|]; cbn [deref go_bind];
    [|split; [intros [? [=]]|intros [[] _]; reflexivity]].
  destruct (infrav1exp.ControlPlaneVersion (GCPManagedControlPlane_Spec s)) as [v|].
  - destruct (negb _), (hasDesiredVersion _ _); cbn [deref go_bind];
      (destruct (compareMasterAuthorizedNetworksConfig _ _) as [[]|p]; cbn [go_bind negb];
       (split; [intros [a Ha]; repeat split; try discriminate; eauto; discriminate Ha
               |intros (_ & _ & [b Hb]); eauto; discriminate Hb])).
  - cbn [hasDesiredVersion]. destruct (negb _); cbn [deref go_bind];
      (split; [intros [? [=]]|intros (_ & [] & _); reflexivity]).
Qed.

(** X11. What the diff step returns: the flag is the disjunction of the
    three checks, the request is never nil and names the cluster, and each
    field group is in the payload exactly when its own check fired (channel
    differs; [hasDesiredVersion] true; comparison false), the others being
    left empty. *)
Theorem checkDiffAndPrepareUpdate_payload s existingCluster needUpdate req :
  checkDiffAndPrepareUpdate s existingCluster = Returns (needUpdate, req) ->
  let spec := GCPManagedControlPlane_Spec s in
  let desiredChannel := convertToSdkReleaseChannel (infrav1exp.ReleaseChannel_ spec) in
  let desiredNetworks :=
    convertToSdkMasterAuthorizedNetworksConfig
      (infrav1exp.MasterAuthorizedNetworksConfig_ spec) in
  let versionCheck :=
    hasDesiredVersion (infrav1exp.ControlPlaneVersion spec)
      (containerpb.CurrentMasterVersion existingCluster) in
  exists existingChannel same update,
    containerpb.Cluster_ReleaseChannel existingCluster = Some existingChannel
    /\ compareMasterAuthorizedNetworksConfig desiredNetworks
         (containerpb.Cluster_MasterAuthorizedNetworksConfig existingCluster)
       = Returns same
    /\ let channelDiffers :=
         negb (containerpb.ReleaseChannel_Channel_eqb desiredChannel
                 (containerpb.Channel existingChannel)) in
       needUpdate = channelDiffers || versionCheck || negb same
       /\ req = {| containerpb.UpdateClusterRequest_Name := ClusterFullName s;
                   containerpb.Update := Some update |}
       /\ containerpb.DesiredReleaseChannel update
          = (if channelDiffers then Some {| containerpb.Channel := desiredChannel |} else None)
       /\ (if versionCheck
           then infrav1exp.ControlPlaneVersion spec
                = Some (containerpb.DesiredMasterVersion update)
           else containerpb.DesiredMasterVersion update = "")
       /\ containerpb.DesiredMasterAuthorizedNetworksConfig update
          = (if same then None else desiredNetworks).
Proof.
  unfold checkDiffAndPrepareUpdate.
  destruct (containerpb.Cluster_ReleaseChannel existingCluster) as [rc|]; [|discriminate].
  cbn [deref go_bind]. cbv zeta.
  destruct (negb _) eqn:Hchannel;
    (destruct (hasDesiredVersion _ _);
     [destruct (infrav1exp.ControlPlaneVersion _); [|discriminate]|]);
    cbn [deref go_bind];
    (destruct (compareMasterAuthorizedNetworksConfig _ _) as [[]|]; [| |discriminate]);
    cbn [go_bind negb]; intros [= <- <-];
    exists rc; do 2 eexists; rewrite Hchannel; repeat apply conj; reflexivity.
Qed.

(** X12. Against an observed cluster that carries exactly the converted
    desired authorized-networks configuration, the comparison is the answer
    of [cmp.Equal] on the desired allow-list against itself, be it true,
    false or a panic; and when the diff step returns, the payload holds an
    authorized-networks update exactly when that answer is false. *)
Theorem authorized_networks_at_fixpoint s existingCluster :
  let desired :=
    convertToSdkMasterAuthorizedNetworksConfig
      (infrav1exp.MasterAuthorizedNetworksConfig_ (GCPManagedControlPlane_Spec s)) in
  containerpb.Cluster_MasterAuthorizedNetworksConfig existingCluster = desired ->
  exists blocks,
    containerpb.CidrBlocks <$> desired = Some (Some blocks)
    /\ compareMasterAuthorizedNetworksConfig desired
         (containerpb.Cluster_MasterAuthorizedNetworksConfig existingCluster)
       = cmp_Equal (Some blocks) (Some blocks)
    /\ forall needUpdate req,
         checkDiffAndPrepareUpdate s existingCluster = Returns (needUpdate, req) ->
         exists same,
           cmp_Equal (Some blocks) (Some blocks) = Returns same
           /\ containerpb.DesiredMasterAuthorizedNetworksConfig <$> containerpb.Update req
              = Some (if same then None else desired).
Proof.
  cbv zeta. intros Hobs.
  assert (Hself : forall c,
             exists blocks,
               containerpb.CidrBlocks <$> convertToSdkMasterAuthorizedNetworksConfig c
               = Some (Some blocks)
               /\ compareMasterAuthorizedNetworksConfig
                    (convertToSdkMasterAuthorizedNetworksConfig c)
                    (convertToSdkMasterAuthorizedNetworksConfig c)
                  = cmp_Equal (Some blocks) (Some blocks)).
  { intros [[blocks pub]|]; cbn; eexists; (split; [reflexivity|]).
    - destruct pub as [[]|]; cbn;
        (destruct (map _ blocks); cbn;
         by destruct (cmp_Equal _ _) as [[]|]).
    - by destruct (cmp_Equal _ _) as [[]|]. }
  destruct (Hself (infrav1exp.MasterAuthorizedNetworksConfig_ (GCPManagedControlPlane_Spec s)))
    as (blocks & Hblocks & Hcmp).
  exists blocks. rewrite Hobs. repeat apply conj; [exact Hblocks|exact Hcmp|].
  intros needUpdate req. unfold checkDiffAndPrepareUpdate.
  destruct (containerpb.Cluster_ReleaseChannel existingCluster) as [rc|]; [|discriminate].
  cbn [deref go_bind]. cbv zeta. rewrite Hobs, Hcmp.
  destruct (negb _);
    (destruct (hasDesiredVersion _ _);
     [destruct (infrav1exp.ControlPlaneVersion _); [|discriminate]|]);
    cbn [deref go_bind];
    (destruct (cmp_Equal _ _) as [[]|]; [| |discriminate]);
    cbn [go_bind negb]; intros [= <- <-]; eexists; split; reflexivity.
Qed.


(** X13. The authorized-networks comparison is symmetric whenever
    [cmp.Equal] is. *)
Theorem compareMasterAuthorizedNetworksConfig_symmetric a b :
  (forall xs ys, cmp_Equal xs ys = cmp_Equal ys xs) ->
  compareMasterAuthorizedNetworksConfig a b = compareMasterAuthorizedNetworksConfig b a.
Proof.
  intros Hsym. destruct a as [[ea ca pa]|], b as [[eb cb pb]|]; try reflexivity.
  cbn. rewrite (Hsym ca cb).
  destruct ea, eb, pa as [[]|], pb as [[]|]; cbn; try reflexivity;
    destruct ca as [[|]|], cb as [[|]|]; reflexivity.
Qed.

(** *** Further properties of the node-pool conversion *)

Lemma wrap32_id z : - 2 ^ 31 <= z < 2 ^ 31 -> wrap32 z = z.
Proof. intros H. unfold wrap32. rewrite Z.mod_small; lia. Qed.

(** X14. The SDK node pool built by [ConvertToSdkNodePool] is named as the
    scope's [NodePoolName] names the same pool (the explicit node-pool name,
    or the object name when that is empty), and its version is the scope's
    [NodePoolVersion] when the machine pool sets a version and empty
    otherwise. *)
Theorem ConvertToSdkNodePool_agrees_with_scope s regional p :
  ConvertToSdkNodePool (MachinePoolScope_GCPManagedMachinePool s)
    (MachinePoolScope_MachinePool s) regional = Returns p ->
  containerpb.NodePool_Name p = ManagedMachinePoolScope_NodePoolName s
  /\ match clusterv1exp.Spec_Template_Spec_Version (MachinePoolScope_MachinePool s) with
     | Some _ => ManagedMachinePoolScope_NodePoolVersion s = Some (containerpb.Version p)
     | None => containerpb.Version p = ""
     end.
Proof.
  unfold ConvertToSdkNodePool, ManagedMachinePoolScope_NodePoolName,
    ManagedMachinePoolScope_NodePoolVersion.
  destruct (clusterv1exp.Spec_Replicas _) as [replicas|]; [|discriminate].
  cbn [deref go_bind].
  destruct (if regional then _ else _) as [n|]; [|discriminate]. cbn [go_bind].
  assert (Hname : forall name other : string,
             (if (String.length name =? 0)%nat then other else name)
             = (if (0 <? String.length name)%nat then name else other)).
  { intros name other. by destruct (String.length name). }
  destruct (clusterv1exp.Spec_Template_Spec_Version _) as [v|].
  - destruct (NormalizeMachineVersion (Some v)) as [v'|]; [|discriminate].
    cbn. intros [= <-]. cbn. split; [apply Hname|reflexivity].
  - intros [= <-]. cbn. split; [apply Hname|reflexivity].
Qed.

(** X15. Initial node count.  For a machine pool with [n] replicas, [n] a
    non-negative 32-bit value: a zonal pool starts with [n] nodes; a
    regional pool, the divisor [d] being positive, starts with the floor of
    [n / d] nodes, so that the nodes over all [d] zones never exceed [n],
    fall short of it by less than [d], and are none when [n < d]. *)
Theorem ConvertToSdkNodePool_InitialNodeCount nodePool machinePool regional n p :
  clusterv1exp.Spec_Replicas machinePool = Some n ->
  0 <= n < 2 ^ 31 ->
  0 < DefaultNumRegionsPerZone ->
  ConvertToSdkNodePool nodePool machinePool regional = Returns p ->
  let count := containerpb.InitialNodeCount p in
  let d := DefaultNumRegionsPerZone in
  (regional = false -> count = n)
  /\ (regional = true ->
      count = n / d /\ 0 <= count /\ d * count <= n < d * count + d
      /\ (n < d -> count = 0)).
Proof.
  intros Hr Hn Hd. unfold ConvertToSdkNodePool. rewrite Hr. cbn [deref go_bind].
  assert (Hq : 0 <= n / DefaultNumRegionsPerZone <= n).
  { split; [apply Z.div_pos; lia|]. apply Z.div_le_upper_bound; nia. }
  destruct regional.
  - unfold int32_div. destruct (Z.eqb_spec DefaultNumRegionsPerZone 0) as [|_]; [lia|].
    rewrite Z.quot_div_nonneg by lia. rewrite wrap32_id by lia. cbn [go_bind].
    destruct (clusterv1exp.Spec_Template_Spec_Version _) as [v|];
      [destruct (NormalizeMachineVersion (Some v)) as [v'|]; [|discriminate]|];
      cbn; intros [= <-]; cbn; (split; [discriminate|intros _]);
      pose proof (Z.div_mod n DefaultNumRegionsPerZone ltac:(lia)) as Hdm;
      pose proof (Z.mod_pos_bound n DefaultNumRegionsPerZone Hd) as Hm;
      (repeat apply conj; try lia; intros Hlt; apply Z.div_small; lia).
  - cbn [go_bind].
    destruct (clusterv1exp.Spec_Template_Spec_Version _) as [v|];
      [destruct (NormalizeMachineVersion (Some v)) as [v'|]; [|discriminate]|];
      cbn; intros [= <-]; cbn; (split; [reflexivity|discriminate]).
Qed.

(** The index loop is the pointwise conversion of the two lists. *)
Lemma ConvertToSdkNodePools_loop_paired machinePools regional rest :
  forall i res,
    ConvertToSdkNodePools_loop i rest machinePools regional res
    = (out <- convert_paired rest (drop i machinePools) regional ;;
       Returns (res ++ out))%go.
Proof.
  induction rest as [|nodePool rest IH]; intros i res; cbn.
  - by rewrite app_nil_r.
  - unfold index. destruct (machinePools !! i) as [mp|] eqn:Hmp.
    + rewrite (drop_S _ _ _ Hmp). cbn.
      destruct (ConvertToSdkNodePool nodePool mp regional) as [p|]; [|reflexivity].
      cbn. rewrite IH.
      destruct (convert_paired rest (drop (S i) machinePools) regional); [|reflexivity].
      cbn. by rewrite <- app_assoc.
    + apply lookup_ge_None in Hmp. by rewrite drop_ge.
Qed.

Lemma ConvertToSdkNodePools_paired nodePools machinePools regional :
  ConvertToSdkNodePools nodePools machinePools regional
  = convert_paired nodePools machinePools regional.
Proof.
  unfold ConvertToSdkNodePools. rewrite ConvertToSdkNodePools_loop_paired.
  rewrite drop_0. by destruct (convert_paired _ _ _).
Qed.

(** X16. Machine pools beyond the last node pool play no part in the
    conversion: appending any machine pools to a list already as long as
    the node-pool list does not change the result, panic included. *)
Theorem ConvertToSdkNodePools_ignores_surplus nodePools machinePools surplus regional :
  (length nodePools <= length machinePools)%nat ->
  ConvertToSdkNodePools nodePools (machinePools ++ surplus) regional
  = ConvertToSdkNodePools nodePools machinePools regional.
Proof.
  rewrite !ConvertToSdkNodePools_paired. revert machinePools.
  induction nodePools as [|np nodePools IH]; intros [|mp machinePools] Hlen;
    cbn in *; try reflexivity; [lia|].
  rewrite IH by lia. reflexivity.
Qed.

(** X17. The conversion distributes over concatenation: converting
    [nodePools1 ++ nodePools2] against [machinePools1 ++ machinePools2],
    the first two lists of equal length, converts the first pair of lists,
    then the second, and appends the results; the first panic met is the
    panic of the whole. *)
Theorem ConvertToSdkNodePools_app nodePools1 nodePools2 machinePools1 machinePools2 regional :
  length nodePools1 = length machinePools1 ->
  ConvertToSdkNodePools (nodePools1 ++ nodePools2) (machinePools1 ++ machinePools2) regional
  = (res1 <- ConvertToSdkNodePools nodePools1 machinePools1 regional ;;
     res2 <- ConvertToSdkNodePools nodePools2 machinePools2 regional ;;
     Returns (res1 ++ res2))%go.
Proof.
  rewrite !ConvertToSdkNodePools_paired. revert machinePools1.
  induction nodePools1 as [|np nodePools1 IH]; intros [|mp machinePools1] Hlen;
    cbn in *; try discriminate.
  - by destruct (convert_paired nodePools2 machinePools2 regional).
  - destruct (ConvertToSdkNodePool np mp regional) as [p|]; [|reflexivity]. cbn.
    rewrite IH by lia.
    destruct (convert_paired nodePools1 machinePools1 regional); [|reflexivity]. cbn.
    by destruct (convert_paired nodePools2 machinePools2 regional).
Qed.

(** *** Further properties of the scope's names *)

(** X18. A node pool's full name is its cluster's location followed by
    "/nodePools/" and the node pool's name; two scopes of the same cluster
    location have the same full name only if they have the same node-pool
    name, and the full name is never the bare location. *)
Theorem NodePoolFullName_injective s1 s2 :
  ManagedMachinePoolScope_NodePoolLocation s1 = ManagedMachinePoolScope_NodePoolLocation s2 ->
  HasPrefix (ManagedMachinePoolScope_NodePoolFullName s1)
    (ManagedMachinePoolScope_NodePoolLocation s1) = true
  /\ ManagedMachinePoolScope_NodePoolFullName s1 <> ManagedMachinePoolScope_NodePoolLocation s1
  /\ (ManagedMachinePoolScope_NodePoolFullName s1 = ManagedMachinePoolScope_NodePoolFullName s2 ->
      ManagedMachinePoolScope_NodePoolName s1 = ManagedMachinePoolScope_NodePoolName s2).
Proof.
  intros Hloc. unfold ManagedMachinePoolScope_NodePoolFullName. rewrite <- Hloc.
  generalize (ManagedMachinePoolScope_NodePoolLocation s1) as loc.
  generalize (ManagedMachinePoolScope_NodePoolName s1) as n1.
  generalize (ManagedMachinePoolScope_NodePoolName s2) as n2.
  assert (Hcons : forall a u t, String a u +:+ t = String a (u +:+ t)) by reflexivity.
  assert (Hnil : forall t, "" +:+ t = t) by reflexivity.
  intros n2 n1 loc. repeat apply conj.
  - unfold HasPrefix. induction loc as [|a loc IH].
    + rewrite Hnil, Hcons. reflexivity.
    + rewrite Hcons. cbn. destruct (ascii_dec a a); [exact IH|congruence].
  - induction loc as [|a loc IH].
    + rewrite Hnil, Hcons. discriminate.
    + rewrite Hcons. intros [= H]. by apply IH.
  - induction loc as [|a loc IH].
    + rewrite !Hnil, !Hcons. intros H.
      repeat (injection H as H). exact H.
    + rewrite !Hcons. intros [= H]. by apply IH.
Qed.

(** *** Further properties: the create step *)

(** X19. [createCluster] issues the create call exactly when the preflight
    check passes, the network name is set and, unless the cluster is an
    autopilot one, the node pools convert without panic; the error of its
    own node-pool listing plays no part. *)
Theorem createCluster_issues_call_iff s w st nodePools machinePools listErr :
  GetAllNodePools_createCluster w = (nodePools, machinePools, listErr) ->
  existsb is_RPC_CreateCluster (trace (createCluster s w st)) = true
  <-> ManagedMachinePoolsPreflightCheck nodePools machinePools (Region s) = None
      /\ infrav1exp.Network_Name (infrav1exp.GCPManagedCluster_Spec (GCPManagedCluster s))
         <> None
      /\ (IsAutopilotCluster s = true
          \/ fault_free (ConvertToSdkNodePools nodePools machinePools
                           (IsRegional (Region s)))).
Proof.
  intros HL. unfold createCluster, fault_free. run_pass.
  destruct (ManagedMachinePoolsPreflightCheck _ _ _) as [perr|];
    [cbn; split; [discriminate|intros [[=] _]]|].
  destruct (infrav1exp.Network_Name _) as [network|];
    [|cbn; split; [discriminate|intros (_ & [] & _); reflexivity]].
  run_pass.
  destruct (IsAutopilotCluster s); cbn [negb].
  - run_pass.
    match goal with |- context [CreateCluster w ?r] => destruct (CreateCluster w r) end;
      cbn; (split; [intros _; repeat split; [discriminate|by left]|reflexivity]).
  - destruct (ConvertToSdkNodePools _ _ _) as [sdk|p]; run_pass.
    + match goal with |- context [CreateCluster w ?r] => destruct (CreateCluster w r) end;
        cbn; (split; [intros _; repeat split; [discriminate|right; eauto]|reflexivity]).
    + cbn. split; [discriminate|]. intros (_ & _ & [[=]|[sdk [=]]]).
Qed.

(** X20. The request [createCluster] sends: its parent is the cluster
    location; the cluster is named after the scope, on the set network, with
    the autopilot flag of the spec, the converted release channel and
    authorized networks, the desired version as initial version or none;
    an autopilot cluster carries neither node pools nor a workload-identity
    configuration, any other cluster carries the converted node pools. *)
Theorem createCluster_request s w st nodePools machinePools listErr req :
  GetAllNodePools_createCluster w = (nodePools, machinePools, listErr) ->
  In (RPC_CreateCluster req) (trace (createCluster s w st)) ->
  let spec := GCPManagedControlPlane_Spec s in
  containerpb.Parent req = ClusterLocation s
  /\ exists cluster,
       containerpb.CreateClusterRequest_Cluster req = Some cluster
       /\ containerpb.Name cluster = ClusterName s
       /\ infrav1exp.Network_Name (infrav1exp.GCPManagedCluster_Spec (GCPManagedCluster s))
          = Some (containerpb.Network cluster)
       /\ containerpb.Cluster_Autopilot cluster
          = Some {| containerpb.Autopilot_Enabled := infrav1exp.EnableAutopilot spec |}
       /\ containerpb.Cluster_ReleaseChannel cluster
          = Some {| containerpb.Channel :=
                      convertToSdkReleaseChannel (infrav1exp.ReleaseChannel_ spec) |}
       /\ containerpb.Cluster_MasterAuthorizedNetworksConfig cluster
          = convertToSdkMasterAuthorizedNetworksConfig
              (infrav1exp.MasterAuthorizedNetworksConfig_ spec)
       /\ containerpb.InitialClusterVersion cluster
          = default "" (infrav1exp.ControlPlaneVersion spec)
       /\ if IsAutopilotCluster s
          then containerpb.NodePools cluster = None
               /\ containerpb.Cluster_WorkloadIdentityConfig cluster = None
          else exists sdkNodePools,
                 ConvertToSdkNodePools nodePools machinePools (IsRegional (Region s))
                 = Returns sdkNodePools
                 /\ containerpb.NodePools cluster = Some sdkNodePools.
Proof.
  intros HL. unfold createCluster. run_pass.
  destruct (ManagedMachinePoolsPreflightCheck _ _ _) as [perr|];
    [cbn; intros [[=]|[]]|].
  destruct (infrav1exp.Network_Name _) as [network|]; [|cbn; intros [[=]|[]]].
  run_pass. unfold createWorkloadIdentityConfig.
  destruct (IsAutopilotCluster s); cbn [negb orb].
  - run_pass.
    match goal with |- context [CreateCluster w ?r] => destruct (CreateCluster w r) end;
      cbn; intros [[=]|[[= <-]|[]]]; cbn;
      (split; [reflexivity|eexists; split; [reflexivity|]]);
      destruct (infrav1exp.ControlPlaneVersion _); cbn; repeat split; reflexivity.
  - destruct (ConvertToSdkNodePools _ _ _) as [sdk|p]; run_pass;
      [|cbn; intros [[=]|[]]].
    match goal with |- context [CreateCluster w ?r] => destruct (CreateCluster w r) end;
      cbn; intros [[=]|[[= <-]|[]]]; cbn;
      (split; [reflexivity|eexists; split; [reflexivity|]]);
      destruct (infrav1exp.ControlPlaneVersion _); cbn;
      repeat split; try reflexivity; eexists; split; reflexivity.
Qed.

(** *** Further properties: passes do not depend on the status record *)

Lemma describeCluster_stateless s w :
  exists r, forall st,
    describeCluster s w st = (Returns r, st, [RPC_GetCluster (ClusterFullName s)]).
Proof.
  unfold describeCluster. run_pass.
  destruct (GetCluster w (ClusterFullName s)) as [cluster [err|]]; [|eauto].
  destruct (errors_As_APIError err) as [[]|]; eauto.
Qed.

Lemma createCluster_stateless s w :
  exists r tr, forall st, createCluster s w st = (r, st, tr).
Proof.
  unfold createCluster. run_pass.
  destruct (GetAllNodePools_createCluster w) as [[nodePools machinePools] e].
  destruct (ManagedMachinePoolsPreflightCheck _ _ _); [eauto|].
  destruct (infrav1exp.Network_Name _); [|eauto]. run_pass.
  destruct (IsAutopilotCluster s); cbn [negb];
    [|destruct (ConvertToSdkNodePools _ _ _); [|eauto]];
    run_pass;
    match goal with |- context [CreateCluster w ?r] => destruct (CreateCluster w r) end;
    eauto.
Qed.

(** Every path of the [Reconcile] and [Delete] passes in the goal, whatever
    status records they start from. *)
Ltac passes_cases s w :=
  let found := fresh "found" in
  let derr := fresh "derr" in
  let HD := fresh "HD" in
  let cr := fresh "cr" in
  let ctr := fresh "ctr" in
  let HC := fresh "HC" in
  destruct (describeCluster_stateless s w) as [[found derr] HD];
  destruct (createCluster_stateless s w) as (cr & ctr & HC);
  unfold Reconcile, Delete; cbv beta delta [pass_bind]; rewrite ?HD;
  destruct derr as [derr|];
  [ | destruct found as [found|];
      [ destruct (containerpb.Status found) eqn:?;
        try destruct (DeleteCluster w (ClusterFullName s)) eqn:?;
        try (destruct (checkDiffAndPrepareUpdate s found) as [[[|] ?req]|?p] eqn:?;
             [ destruct (UpdateCluster w req) eqn:?
             | destruct (reconcileKubeconfig w found) eqn:?;
               [ | destruct (reconcileAdditionalKubeconfigs w found) eqn:? ]
             | ])
      | destruct (GetAllNodePools_Reconcile w) as [[?nodePools ?machinePools] [?e|]] eqn:?;
        [ | destruct (IsAutopilotCluster s) eqn:?;
            [ destruct (0 <? length nodePools)%nat eqn:?
            | destruct (length nodePools =? 0)%nat eqn:? ];
            destruct cr as [[?e|]|?p] ] ] ];
  run_pass; rewrite ?HC; run_pass; cbn [outcome final_status trace fst snd].

(** X21. [Reconcile] and [Delete] never read the status record: the
    outcome of a pass and the calls and condition writes it makes are the
    same from any two status records. *)
Theorem passes_do_not_read_status s w st1 st2 :
  (outcome (Reconcile s w st1) = outcome (Reconcile s w st2)
   /\ trace (Reconcile s w st1) = trace (Reconcile s w st2))
  /\ (outcome (Delete s w st1) = outcome (Delete s w st2)
      /\ trace (Delete s w st1) = trace (Delete s w st2)).
Proof.
  split; split; passes_cases s w; reflexivity.
Qed.

Lemma status_eq (a b : GCPManagedControlPlaneStatus) :
  Initialized a = Initialized b -> Ready a = Ready b ->
  CurrentVersion a = CurrentVersion b ->
  (forall t, condition a t = condition b t) ->
  a = b.
Proof.
  destruct a, b; unfold condition; cbn. intros -> -> -> H. f_equal. by apply map_eq.
Qed.

Lemma condition_set_CurrentVersion v st t :
  condition (set_CurrentVersion v st) t = condition st t.
Proof. reflexivity. Qed.

Ltac same_status :=
  apply status_eq; [reflexivity ..|];
  intros [];
  repeat first
    [ rewrite condition_set_CurrentVersion
    | rewrite condition_set_Initialized
    | rewrite condition_set_Ready
    | rewrite condition_set_Condition_eq
    | rewrite condition_set_Condition_ne by discriminate ];
  reflexivity.

(** X22. The status effect of a pass is idempotent: with the same answers
    from the provider and the collaborators, a second [Reconcile] (or
    [Delete]) pass started from the status record the first one left leaves
    that record unchanged. *)
Theorem passes_are_idempotent_on_status s w st :
  final_status (Reconcile s w (final_status (Reconcile s w st)))
  = final_status (Reconcile s w st)
  /\ final_status (Delete s w (final_status (Delete s w st)))
     = final_status (Delete s w st).
Proof.
  split; passes_cases s w; same_status.
Qed.

(** *** Further properties of [Delete] *)

(** X23. [Delete] on a cluster the lookup reports absent (no cluster, or a
    NotFound API error at any depth of wrapping, whatever came with it)
    succeeds without a delete call: it returns done and only marks the
    Deleting condition false with the deleted reason. *)
Theorem Delete_already_deleted s w st :
  lookup_says_absent s w ->
  Delete s w st
  = (Returns (Result_zero, None),
     set_Condition clusterv1.GKEControlPlaneDeletingCondition
       (FalseCondition infrav1exp.GKEControlPlaneDeletedReason
          clusterv1.ConditionSeverityInfo clusterv1.EmptyMessage) st,
     [RPC_GetCluster (ClusterFullName s);
      Write_MarkFalse clusterv1.GKEControlPlaneDeletingCondition
        infrav1exp.GKEControlPlaneDeletedReason
        clusterv1.ConditionSeverityInfo clusterv1.EmptyMessage]).
Proof.
  intros [HG|(cluster & err & HG & HA)]; unfold Delete; run_pass; reflexivity.
Qed.

(** X24. [Delete] on a cluster found in a state other than PROVISIONING,
    RECONCILING and STOPPING issues one delete call for the cluster's full
    name.  If the provider accepts it, initialized and ready are cleared,
    both Ready conditions are marked false with the deleting reason, the
    Deleting condition true, and the outcome is done; if it refuses, the
    error is returned and only the Deleting condition is written, false
    with the failure and its message. *)
Theorem Delete_issues_call s w st cluster :
  GetCluster w (ClusterFullName s) = (Some cluster, None) ->
  in_flight (containerpb.Status cluster) = false ->
  let r := Delete s w st in
  let st' := final_status r in
  match DeleteCluster w (ClusterFullName s) with
  | None =>
      outcome r = Returns (Result_zero, None)
      /\ trace r = delete_attempt s ++ deleting_writes
      /\ Initialized st' = false /\ Ready st' = false
      /\ condition st' clusterv1.GKEControlPlaneDeletingCondition = Some TrueCondition
      /\ condition st' clusterv1.ReadyCondition
         = Some (FalseCondition infrav1exp.GKEControlPlaneDeletingReason
                   clusterv1.ConditionSeverityInfo clusterv1.EmptyMessage)
      /\ condition st' clusterv1.GKEControlPlaneReadyCondition
         = Some (FalseCondition infrav1exp.GKEControlPlaneDeletingReason
                   clusterv1.ConditionSeverityInfo clusterv1.EmptyMessage)
  | Some err =>
      outcome r = Returns (Result_zero, Some err)
      /\ trace r = delete_attempt s
                   ++ [Write_MarkFalse clusterv1.GKEControlPlaneDeletingCondition
                         infrav1exp.GKEControlPlaneReconciliationFailedReason
                         clusterv1.ConditionSeverityError (clusterv1.ErrorMessage err)]
      /\ st' = set_Condition clusterv1.GKEControlPlaneDeletingCondition
                 (FalseCondition infrav1exp.GKEControlPlaneReconciliationFailedReason
                    clusterv1.ConditionSeverityError (clusterv1.ErrorMessage err)) st
  end.
Proof.
  intros HG Hin r st'; subst st' r.
  unfold Delete, delete_attempt, deleting_writes.
  destruct (containerpb.Status cluster) eqn:HS; try discriminate Hin;
    (destruct (DeleteCluster w (ClusterFullName s)) as [err|] eqn:HDel; run_pass;
     repeat apply conj; read_status).
Qed.

(** *** Further properties of the scope constructor *)

(** X25. [NewManagedMachinePoolScope] returns a scope or an error, never
    both and never neither; and when one of the five required objects is
    nil it fails, whatever the clients and the patch helper would answer. *)
Theorem NewManagedMachinePoolScope_validates params :
  (let '(scope, err) := NewManagedMachinePoolScope params in
   (scope = None <-> err <> None))
  /\ (~ params_complete params ->
      exists text,
        NewManagedMachinePoolScope params = (None, Some (PlainError text))
        /\ HasPrefix text "failed to generate new scope from nil " = true).
Proof.
  unfold NewManagedMachinePoolScope, params_complete. split.
  - destruct (Params_Cluster params); [|by split].
    destruct (Params_MachinePool params); [|by split].
    destruct (Params_GCPManagedCluster params) as [mc|]; [|by split].
    destruct (Params_GCPManagedControlPlane params); [|by split].
    destruct (Params_GCPManagedMachinePool params) as [mp|]; [|by split].
    destruct (Params_ManagedClusterClient params);
      [|destruct (newClusterManagerClient mc _) as [? [?|]]; [by split|]];
      (destruct (Params_InstanceGroupManagersClient params);
       [|destruct (newInstanceGroupManagerClient mc _) as [? [?|]]; [by split|]]);
      destruct (patch_NewHelper mp _) as [? [?|]]; by split.
  - intros Hnot.
    destruct (Params_Cluster params); [|eexists; split; reflexivity].
    destruct (Params_MachinePool params); [|eexists; split; reflexivity].
    destruct (Params_GCPManagedCluster params); [|eexists; split; reflexivity].
    destruct (Params_GCPManagedControlPlane params); [|eexists; split; reflexivity].
    destruct (Params_GCPManagedMachinePool params); [|eexists; split; reflexivity].
    exfalso. apply Hnot. repeat split; discriminate.
Qed.

(** X26. A scope returned by [NewManagedMachinePoolScope] carries the
    cluster, machine pool, control plane, managed machine pool and client it
    was given, all five required objects being set; it uses a supplied GKE
    or instance-group client as is; and its GCPManagedCluster field is left
    nil. *)
Theorem NewManagedMachinePoolScope_result params scope :
  NewManagedMachinePoolScope params = (Some scope, None) ->
  params_complete params
  /\ struct_client scope = Params_Client params
  /\ struct_Cluster scope = Params_Cluster params
  /\ struct_MachinePool scope = Params_MachinePool params
  /\ struct_GCPManagedControlPlane scope = Params_GCPManagedControlPlane params
  /\ struct_GCPManagedMachinePool scope = Params_GCPManagedMachinePool params
  /\ struct_GCPManagedCluster scope = None
  /\ (Params_ManagedClusterClient params <> None ->
      struct_mcClient scope = Params_ManagedClusterClient params)
  /\ (Params_InstanceGroupManagersClient params <> None ->
      struct_migClient scope = Params_InstanceGroupManagersClient params).
Proof.
  unfold NewManagedMachinePoolScope, params_complete.
  destruct (Params_Cluster params); [|discriminate].
  destruct (Params_MachinePool params); [|discriminate].
  destruct (Params_GCPManagedCluster params) as [mc|]; [|discriminate].
  destruct (Params_GCPManagedControlPlane params); [|discriminate].
  destruct (Params_GCPManagedMachinePool params) as [mp|]; [|discriminate].
  destruct (Params_ManagedClusterClient params);
    [|destruct (newClusterManagerClient mc _) as [? [?|]]; [discriminate|]];
    (destruct (Params_InstanceGroupManagersClient params);
     [|destruct (newInstanceGroupManagerClient mc _) as [? [?|]]; [discriminate|]]);
    (destruct (patch_NewHelper mp _) as [? [?|]]; [discriminate|]);
    intros [= <-]; cbn; repeat split; try discriminate; try reflexivity; done.
Qed.

End ClusterService.


(** ** The embedding on concrete inputs *)

Notation "'Reconcile_ref'" :=
  (Reconcile ref_DefaultRetryTime ref_DefaultNumRegionsPerZone
     ref_NormalizeMachineVersion ref_ConvertToSdkTaint
     ref_ManagedMachinePoolsPreflightCheck ref_IsRegional cmp_Equal_exported)
  (only parsing).

Notation "'createCluster_ref'" :=
  (createCluster ref_DefaultNumRegionsPerZone ref_NormalizeMachineVersion
     ref_ConvertToSdkTaint ref_ManagedMachinePoolsPreflightCheck ref_IsRegional)
  (only parsing).

(** C1 (defect). The diff step asks for a master-version update when
    [hasDesiredVersion] answers true, that is when the desired version is
    already satisfied: desired "1.24" against observed "1.24.14-gke.2700"
    yields an update carrying "1.24", while desired "1.25" against the same
    observed version yields no update. *)
Lemma C1_version_check_is_inverted :
  let existingCluster := Fixture.observed containerpb.Cluster_RUNNING in
  let request version :=
    {| containerpb.UpdateClusterRequest_Name :=
         "projects/proj/locations/us-central1/clusters/gke";
       containerpb.Update := Some
         {| containerpb.DesiredReleaseChannel := None;
            containerpb.DesiredMasterVersion := version;
            containerpb.DesiredMasterAuthorizedNetworksConfig := None |} |} in
  HasPrefix "1.24.14-gke.2700" "1.24" = true
  /\ checkDiffAndPrepareUpdate cmp_Equal_exported
       (Fixture.scope false (Some "1.24")) existingCluster
     = Returns (true, request "1.24")
  /\ HasPrefix "1.24.14-gke.2700" "1.25" = false
  /\ checkDiffAndPrepareUpdate cmp_Equal_exported
       (Fixture.scope false (Some "1.25")) existingCluster
     = Returns (false, request "").
Proof. repeat split; reflexivity. Qed.

(** C2 (defect). With the desired version unset and the cluster RUNNING,
    the diff step dereferences the nil version and panics, and so does the
    whole [Reconcile] pass. *)
Lemma C2_unset_version_panics :
  checkDiffAndPrepareUpdate cmp_Equal_exported
    (Fixture.scope false None) (Fixture.observed containerpb.Cluster_RUNNING)
  = Panics NilPointerDereference
  /\ outcome (Reconcile_ref (Fixture.scope false None)
                (Fixture.found containerpb.Cluster_RUNNING) Fixture.status0)
     = Panics NilPointerDereference.
Proof. split; reflexivity. Qed.

Lemma C3_Reconcile_lifecycle_dispatch_witness :
  let s := Fixture.scope false (Some "1.24") in
  let w := Fixture.found containerpb.Cluster_PROVISIONING in
  GetCluster w (ClusterFullName s)
    = (Some (Fixture.observed containerpb.Cluster_PROVISIONING), None)
  /\ lifecycle_dispatch ref_DefaultRetryTime containerpb.Cluster_PROVISIONING
       (Reconcile_ref s w Fixture.status0).
Proof.
  split; [reflexivity|].
  apply (C3_Reconcile_lifecycle_dispatch ref_DefaultRetryTime ref_DefaultNumRegionsPerZone
           ref_NormalizeMachineVersion ref_ConvertToSdkTaint
           ref_ManagedMachinePoolsPreflightCheck ref_IsRegional cmp_Equal_exported
           (Fixture.scope false (Some "1.24"))
           (Fixture.found containerpb.Cluster_PROVISIONING) Fixture.status0
           (Fixture.observed containerpb.Cluster_PROVISIONING)).
  reflexivity.
Defined.

Lemma C9_Delete_STOPPING_witness :
  let s := Fixture.scope false (Some "1.24") in
  let w := Fixture.found containerpb.Cluster_STOPPING in
  GetCluster w (ClusterFullName s)
    = (Some (Fixture.observed containerpb.Cluster_STOPPING), None)
  /\ containerpb.Status (Fixture.observed containerpb.Cluster_STOPPING)
     = containerpb.Cluster_STOPPING
  /\ outcome (Delete s w Fixture.status0) = Returns (Result_zero, None)
  /\ Forall (fun e => is_RPC_DeleteCluster e = false) (trace (Delete s w Fixture.status0)).
Proof.
  split; [reflexivity|]. split; [reflexivity|].
  pose proof (C9_Delete_STOPPING (Fixture.scope false (Some "1.24"))
                (Fixture.found containerpb.Cluster_STOPPING) Fixture.status0
                (Fixture.observed containerpb.Cluster_STOPPING) eq_refl eq_refl) as H.
  split; [exact (proj1 H)|exact (proj1 (proj2 H))].
Defined.

(** A RUNNING pass whose diff step returns with its flag down: the desired
    version "1.25" is set and is not a prefix of the observed
    "1.24.14-gke.2700". *)
Lemma Reconcile_after_silent_diff_step_witness :
  let s := Fixture.scope false (Some "1.25") in
  let w := Fixture.found containerpb.Cluster_RUNNING in
  let cluster := Fixture.observed containerpb.Cluster_RUNNING in
  (exists req, checkDiffAndPrepareUpdate cmp_Equal_exported s cluster = Returns (false, req))
  /\ outcome (Reconcile_ref s w Fixture.status0) = Returns (Result_zero, None)
  /\ trace (Reconcile_ref s w Fixture.status0) = converged_trace s cluster
  /\ Forall (fun e => is_RPC_UpdateCluster e = false) (trace (Reconcile_ref s w Fixture.status0)).
Proof.
  split; [eexists; reflexivity|].
  pose proof (Reconcile_after_silent_diff_step ref_DefaultRetryTime ref_DefaultNumRegionsPerZone
                ref_NormalizeMachineVersion ref_ConvertToSdkTaint
                ref_ManagedMachinePoolsPreflightCheck ref_IsRegional cmp_Equal_exported
                (Fixture.scope false (Some "1.25"))
                (Fixture.found containerpb.Cluster_RUNNING) Fixture.status0
                (Fixture.observed containerpb.Cluster_RUNNING) _
                eq_refl eq_refl eq_refl) as (Hno & _ & _ & Hok).
  destruct (Hok eq_refl eq_refl) as (Hout & Htr & _).
  split; [exact Hout|]. split; [exact Htr|exact Hno].
Defined.

Lemma C5_create_pool_count_preflight_witness :
  let s := Fixture.scope true (Some "1.24") in
  let w := Fixture.not_found [Fixture.nodePool "pool-a"] in
  outcome (describeCluster s w Fixture.status0) = Returns (None, None)
  /\ GetAllNodePools_Reconcile w
     = ([Fixture.nodePool "pool-a"], [Fixture.machinePool (Some 3)], None)
  /\ outcome (Reconcile_ref s w Fixture.status0)
     = Returns (Result_zero, Some ErrAutopilotClusterMachinePoolsNotAllowed)
  /\ Forall (fun e => is_RPC_CreateCluster e = false) (trace (Reconcile_ref s w Fixture.status0)).
Proof.
  split; [reflexivity|]. split; [reflexivity|].
  pose proof (C5_create_pool_count_preflight ref_DefaultRetryTime ref_DefaultNumRegionsPerZone
                ref_NormalizeMachineVersion ref_ConvertToSdkTaint
                ref_ManagedMachinePoolsPreflightCheck ref_IsRegional cmp_Equal_exported
                (Fixture.scope true (Some "1.24"))
                (Fixture.not_found [Fixture.nodePool "pool-a"]) Fixture.status0
                [Fixture.nodePool "pool-a"] [Fixture.machinePool (Some 3)]
                eq_refl eq_refl) as (Hauto & _ & _).
  destruct (Hauto eq_refl (Nat.lt_0_succ 0)) as (Hout & _ & Hno).
  split; [exact Hout|exact Hno].
Defined.

Lemma C4_authorized_networks_comparison_witness :
  let s := Fixture.scope false (Some "1.25") in
  let existingCluster := Fixture.observed containerpb.Cluster_RUNNING in
  infrav1exp.MasterAuthorizedNetworksConfig_ (GCPManagedControlPlane_Spec s) = None
  /\ checkDiffAndPrepareUpdate cmp_Equal_exported s existingCluster
     = Returns (false,
                {| containerpb.UpdateClusterRequest_Name := ClusterFullName s;
                   containerpb.Update := Some
                     {| containerpb.DesiredReleaseChannel := None;
                        containerpb.DesiredMasterVersion := "";
                        containerpb.DesiredMasterAuthorizedNetworksConfig := None |} |})
  /\ exists same,
       compareMasterAuthorizedNetworksConfig cmp_Equal_exported (Some disabled_config)
         (containerpb.Cluster_MasterAuthorizedNetworksConfig existingCluster)
       = Returns same.
Proof.
  split; [reflexivity|]. split; [reflexivity|].
  destruct (proj1 (proj2 (proj2 (C4_authorized_networks_comparison cmp_Equal_exported)))
              (Fixture.scope false (Some "1.25"))
              (Fixture.observed containerpb.Cluster_RUNNING) _ _ eq_refl eq_refl)
    as (same & Hsame & _).
  exists same. exact Hsame.
Defined.

(** C7, as stated, fails: [Reconcile] returns the unexpected-status
    error, the error of a refused update call and the error of a failed
    kubeconfig step without any mark-false condition write. *)
Lemma C7_counterexample_error_without_failure_write :
  let odd := Reconcile_ref (Fixture.scope false (Some "1.24"))
               (Fixture.found containerpb.Cluster_STATUS_UNSPECIFIED) Fixture.status0 in
  let refused := Reconcile_ref (Fixture.scope false (Some "1.24"))
                   Fixture.update_fails Fixture.status0 in
  let unwritten := Reconcile_ref (Fixture.scope false (Some "1.25"))
                     Fixture.kubeconfig_fails Fixture.status0 in
  let no_mark_false e :=
    match e with Write_MarkFalse _ reason _ _ =>
      reason = infrav1exp.GKEControlPlaneUpdatedReason
    | _ => True end in
  (outcome odd = Returns (Result_zero,
                          Some (ErrUnexpectedClusterStatus containerpb.Cluster_STATUS_UNSPECIFIED))
   /\ Forall (fun e => is_condition_write e = false) (trace odd))
  /\ (outcome refused = Returns (Result_zero, Some (APIError codes.Unavailable "try again"))
      /\ Forall (fun e => is_condition_write e = false) (trace refused))
  /\ (outcome unwritten = Returns (Result_zero, Some (PlainError "secret store unavailable"))
      /\ Forall no_mark_false (trace unwritten)).
Proof. repeat split; repeat constructor. Qed.

Lemma C7_where_failures_are_recorded_witness :
  let s := Fixture.scope false (Some "1.24") in
  let r := Reconcile_ref s Fixture.lookup_fails Fixture.status0 in
  let err := APIError codes.Unavailable "try again" in
  outcome r = Returns (Result_zero, Some err)
  /\ (forall cluster,
        outcome (describeCluster s Fixture.lookup_fails Fixture.status0)
        <> Returns (Some cluster, None))
  /\ (Exists (records_failure err) (trace r)
      \/ (err = ErrAutopilotClusterMachinePoolsNotAllowed
          /\ IsAutopilotCluster s = true
          /\ Exists records_pool_count (trace r))).
Proof.
  split; [reflexivity|]. split; [intros cluster; discriminate|].
  apply (proj1 (C7_where_failures_are_recorded
                  ref_DefaultRetryTime ref_DefaultNumRegionsPerZone
                  ref_NormalizeMachineVersion ref_ConvertToSdkTaint
                  ref_ManagedMachinePoolsPreflightCheck ref_IsRegional cmp_Equal_exported
                  (Fixture.scope false (Some "1.24")) Fixture.lookup_fails Fixture.status0)
               Result_zero).
  - reflexivity.
  - intros cluster. discriminate.
Defined.

(** [Delete] returns the error of a failed lookup without any condition
    write, where [Reconcile] marks the Ready condition false for the same
    error. *)
Example Delete_lookup_failure_is_silent :
  let s := Fixture.scope false (Some "1.24") in
  let err := APIError codes.Unavailable "try again" in
  (outcome (Delete s Fixture.lookup_fails Fixture.status0) = Returns (Result_zero, Some err)
   /\ Forall (fun e => is_condition_write e = false)
        (trace (Delete s Fixture.lookup_fails Fixture.status0)))
  /\ (outcome (Reconcile_ref s Fixture.lookup_fails Fixture.status0)
      = Returns (Result_zero, Some err)
      /\ Exists (records_failure err)
           (trace (Reconcile_ref s Fixture.lookup_fails Fixture.status0))).
Proof.
  split; split; [reflexivity|repeat constructor|reflexivity|].
  apply Exists_cons_tl, Exists_cons_hd. reflexivity.
Qed.

(** C6 (defect). A RUNNING cluster that matches the desired state in all
    three field groups (no channel chosen on either side, desired version
    "1.24" a prefix of the observed "1.24.14-gke.2700", authorized networks
    disabled on both sides) still gets an update call carrying the desired
    version: the Updating condition is marked true instead of false with
    the updated reason, no kubeconfig step runs and the Ready conditions
    are not written.  With the desired version unset the same pass
    panics. *)
Lemma C6_no_diff_pass_issues_update :
  let s := Fixture.scope false (Some "1.24") in
  let cluster := Fixture.observed containerpb.Cluster_RUNNING in
  let spec := GCPManagedControlPlane_Spec s in
  let r := Reconcile_ref s (Fixture.found containerpb.Cluster_RUNNING) Fixture.status0 in
  let req :=
    {| containerpb.UpdateClusterRequest_Name := ClusterFullName s;
       containerpb.Update := Some
         {| containerpb.DesiredReleaseChannel := None;
            containerpb.DesiredMasterVersion := "1.24";
            containerpb.DesiredMasterAuthorizedNetworksConfig := None |} |} in
  (Some {| containerpb.Channel :=
             convertToSdkReleaseChannel (infrav1exp.ReleaseChannel_ spec) |}
   = containerpb.Cluster_ReleaseChannel cluster
   /\ HasPrefix (containerpb.CurrentMasterVersion cluster) "1.24" = true
   /\ compareMasterAuthorizedNetworksConfig cmp_Equal_exported
        (convertToSdkMasterAuthorizedNetworksConfig
           (infrav1exp.MasterAuthorizedNetworksConfig_ spec))
        (containerpb.Cluster_MasterAuthorizedNetworksConfig cluster) = Returns true)
  /\ (outcome r = Returns (Result_zero, None)
      /\ trace r = [RPC_GetCluster (ClusterFullName s); RPC_UpdateCluster req;
                    Write_MarkTrue clusterv1.GKEControlPlaneUpdatingCondition]
      /\ trace r <> converged_trace s cluster
      /\ condition (final_status r) clusterv1.GKEControlPlaneUpdatingCondition
         = Some TrueCondition
      /\ condition (final_status r) clusterv1.ReadyCondition = None
      /\ condition (final_status r) clusterv1.GKEControlPlaneReadyCondition = None)
  /\ outcome (Reconcile_ref (Fixture.scope false None)
                (Fixture.found containerpb.Cluster_RUNNING) Fixture.status0)
     = Panics NilPointerDereference.
Proof. repeat split; try reflexivity. discriminate. Qed.

(** C8, as stated, fails for [Delete]: on a cluster observed as
    PROVISIONING it returns done, not requeue-after the fixed interval. *)
Lemma C8_counterexample_Delete_PROVISIONING_returns_done :
  let s := Fixture.scope false (Some "1.24") in
  let r := Delete s (Fixture.found containerpb.Cluster_PROVISIONING) Fixture.status0 in
  outcome r = Returns (Result_zero, None)
  /\ RequeueAfter Result_zero = 0
  /\ outcome r <> Returns (Result_RequeueAfter ref_DefaultRetryTime, None).
Proof. repeat split. discriminate. Qed.

Lemma C8_Reconcile_waits_witness :
  let s := Fixture.scope false (Some "1.24") in
  let w := Fixture.found containerpb.Cluster_RECONCILING in
  0 < ref_DefaultRetryTime
  /\ outcome (Reconcile_ref s w Fixture.status0)
     = Returns (Result_RequeueAfter ref_DefaultRetryTime, None)
  /\ Result_RequeueAfter ref_DefaultRetryTime <> Result_zero.
Proof.
  assert (Hpos : 0 < ref_DefaultRetryTime) by reflexivity.
  split; [exact Hpos|].
  pose proof (C8_Reconcile_waits_with_fixed_interval
                ref_DefaultRetryTime ref_DefaultNumRegionsPerZone
                ref_NormalizeMachineVersion ref_ConvertToSdkTaint
                ref_ManagedMachinePoolsPreflightCheck ref_IsRegional cmp_Equal_exported
                (Fixture.scope false (Some "1.24"))
                (Fixture.found containerpb.Cluster_RECONCILING) Fixture.status0
                Hpos) as ((Hne & _) & Hfound & _).
  split; [|exact Hne].
  apply (Hfound (Fixture.observed containerpb.Cluster_RECONCILING) eq_refl).
  right; left; reflexivity.
Defined.

Lemma ref_helpers_total :
  helpers_total ref_DefaultNumRegionsPerZone ref_NormalizeMachineVersion.
Proof.
  split; [|discriminate].
  intros [|c rest]; cbn; [discriminate|]. destruct (Ascii.eqb c "v"); discriminate.
Qed.

Lemma C10_ConvertToSdkNodePools_witness :
  let nodePools := [Fixture.nodePool "pool-a"; Fixture.nodePool "pool-b"] in
  let machinePools := [Fixture.machinePool (Some 3); Fixture.machinePool (Some 6)] in
  pools_paired nodePools machinePools
  /\ exists res,
       ConvertToSdkNodePools ref_DefaultNumRegionsPerZone ref_NormalizeMachineVersion
         ref_ConvertToSdkTaint nodePools machinePools true = Returns res
       /\ length res = 2%nat.
Proof.
  assert (Hp : pools_paired [Fixture.nodePool "pool-a"; Fixture.nodePool "pool-b"]
                 [Fixture.machinePool (Some 3); Fixture.machinePool (Some 6)]).
  { split; [cbn; lia|]. intros i mp Hi Hmp.
    destruct i as [|[|i]]; cbn in Hi, Hmp; [injection Hmp as <-; discriminate ..|lia]. }
  split; [exact Hp|].
  destruct (proj2 (C10_ConvertToSdkNodePools_precondition
                     ref_DefaultNumRegionsPerZone ref_NormalizeMachineVersion
                     ref_ConvertToSdkTaint
                     [Fixture.nodePool "pool-a"; Fixture.nodePool "pool-b"]
                     [Fixture.machinePool (Some 3); Fixture.machinePool (Some 6)] true)
                  ref_helpers_total Hp) as (res & Hrun & Hlen & _).
  exists res. split; [exact Hrun|exact Hlen].
Defined.

(** ** Further runs *)

(** No cluster yet, autopilot off, two declared pools: the create call
    carries both pools and the pass requeues after the fixed interval with
    the Creating condition true. *)
Example create_with_two_pools :
  let s := Fixture.scope false (Some "1.24") in
  let w := Fixture.not_found [Fixture.nodePool "pool-a"; Fixture.nodePool "pool-b"] in
  let r := Reconcile_ref s w Fixture.status0 in
  outcome r = Returns (Result_RequeueAfter ref_DefaultRetryTime, None)
  /\ condition (final_status r) clusterv1.GKEControlPlaneCreatingCondition = Some TrueCondition
  /\ match filter (fun e => is_RPC_CreateCluster e = true) (trace r) with
     | [RPC_CreateCluster req] =>
         (fun c => map containerpb.NodePool_Name <$> containerpb.NodePools c)
           <$> containerpb.CreateClusterRequest_Cluster req
         = Some (Some ["pool-a"; "pool-b"])
     | _ => False
     end.
Proof. repeat split; vm_compute; reflexivity. Qed.

(** A machine-pool list shorter than the node-pool list, or a paired
    machine pool without replicas, makes the conversion panic. *)
Example ConvertToSdkNodePools_panics :
  let nodePools := [Fixture.nodePool "pool-a"; Fixture.nodePool "pool-b"] in
  ConvertToSdkNodePools ref_DefaultNumRegionsPerZone ref_NormalizeMachineVersion
    ref_ConvertToSdkTaint nodePools [Fixture.machinePool (Some 3)] true
  = Panics IndexOutOfRange
  /\ ConvertToSdkNodePools ref_DefaultNumRegionsPerZone ref_NormalizeMachineVersion
       ref_ConvertToSdkTaint nodePools
       [Fixture.machinePool (Some 3); Fixture.machinePool None] true
     = Panics NilPointerDereference.
Proof. split; reflexivity. Qed.

(** The disabled form against an observed configuration with a nil
    allow-list compares equal; against one that also lacks the
    public-access pointer it does not. *)
Example compare_disabled_config :
  let observed pub :=
    Some {| containerpb.Enabled := false;
            containerpb.CidrBlocks := None;
            containerpb.GcpPublicCidrsAccessEnabled := pub |} in
  compareMasterAuthorizedNetworksConfig cmp_Equal_exported
    (convertToSdkMasterAuthorizedNetworksConfig None) (observed (Some false))
  = Returns true
  /\ compareMasterAuthorizedNetworksConfig cmp_Equal_exported
       (convertToSdkMasterAuthorizedNetworksConfig None) (observed None)
     = Returns false.
Proof. split; reflexivity. Qed.

(** ** The further properties on concrete inputs *)

Lemma Initialized_Ready_move_together_witness :
  let s := Fixture.scope false (Some "1.25") in
  let w := Fixture.found containerpb.Cluster_RUNNING in
  Initialized Fixture.status0 = Ready Fixture.status0
  /\ Initialized (final_status (Reconcile_ref s w Fixture.status0)) = true
  /\ Ready (final_status (Reconcile_ref s w Fixture.status0)) = true.
Proof.
  split; [reflexivity|].
  pose proof (proj1 (Initialized_Ready_move_together
                       ref_DefaultRetryTime ref_DefaultNumRegionsPerZone
                       ref_NormalizeMachineVersion ref_ConvertToSdkTaint
                       ref_ManagedMachinePoolsPreflightCheck ref_IsRegional
                       cmp_Equal_exported
                       (Fixture.scope false (Some "1.25"))
                       (Fixture.found containerpb.Cluster_RUNNING) Fixture.status0
                       eq_refl)) as H.
  split; [rewrite H|]; reflexivity.
Defined.

Lemma Reconcile_Ready_only_when_serving_witness :
  let s := Fixture.scope false (Some "1.25") in
  let w := Fixture.found containerpb.Cluster_RECONCILING in
  Ready (final_status (Reconcile_ref s w Fixture.status0)) = true
  /\ (Ready Fixture.status0 = true
      \/ exists cluster,
           outcome (describeCluster s w Fixture.status0) = Returns (Some cluster, None)
           /\ (containerpb.Status cluster = containerpb.Cluster_RUNNING
               \/ containerpb.Status cluster = containerpb.Cluster_RECONCILING)).
Proof.
  split; [reflexivity|].
  apply (Reconcile_Ready_only_when_serving
           ref_DefaultRetryTime ref_DefaultNumRegionsPerZone
           ref_NormalizeMachineVersion ref_ConvertToSdkTaint
           ref_ManagedMachinePoolsPreflightCheck ref_IsRegional cmp_Equal_exported).
  reflexivity.
Defined.

Lemma Reconcile_update_path_witness :
  let s := Fixture.scope_rapid in
  let w := Fixture.found containerpb.Cluster_RUNNING in
  let req :=
    {| containerpb.UpdateClusterRequest_Name := ClusterFullName s;
       containerpb.Update := Some
         {| containerpb.DesiredReleaseChannel :=
              Some {| containerpb.Channel := containerpb.ReleaseChannel_RAPID |};
            containerpb.DesiredMasterVersion := "";
            containerpb.DesiredMasterAuthorizedNetworksConfig := None |} |} in
  checkDiffAndPrepareUpdate cmp_Equal_exported s
    (Fixture.observed containerpb.Cluster_RUNNING) = Returns (true, req)
  /\ outcome (Reconcile_ref s w Fixture.status0) = Returns (Result_zero, None)
  /\ existsb is_kubeconfig_call (trace (Reconcile_ref s w Fixture.status0)) = false.
Proof.
  split; [reflexivity|].
  pose proof (Reconcile_update_path
                ref_DefaultRetryTime ref_DefaultNumRegionsPerZone
                ref_NormalizeMachineVersion ref_ConvertToSdkTaint
                ref_ManagedMachinePoolsPreflightCheck ref_IsRegional cmp_Equal_exported
                Fixture.scope_rapid (Fixture.found containerpb.Cluster_RUNNING)
                Fixture.status0 (Fixture.observed containerpb.Cluster_RUNNING) _
                eq_refl eq_refl eq_refl) as (Hno & Hout & _).
  split; [exact Hout|exact Hno].
Defined.

Lemma Reconcile_kubeconfig_fail_fast_witness :
  let s := Fixture.scope false (Some "1.25") in
  let cluster := Fixture.observed containerpb.Cluster_RUNNING in
  let r := Reconcile_ref s Fixture.kubeconfig_fails Fixture.status0 in
  (exists req, checkDiffAndPrepareUpdate cmp_Equal_exported s cluster = Returns (false, req))
  /\ outcome r = Returns (Result_zero, Some (PlainError "secret store unavailable"))
  /\ trace r = kubeconfig_attempt s cluster.
Proof.
  split; [eexists; reflexivity|].
  pose proof (proj1 (Reconcile_kubeconfig_fail_fast
                ref_DefaultRetryTime ref_DefaultNumRegionsPerZone
                ref_NormalizeMachineVersion ref_ConvertToSdkTaint
                ref_ManagedMachinePoolsPreflightCheck ref_IsRegional cmp_Equal_exported
                (Fixture.scope false (Some "1.25")) Fixture.kubeconfig_fails
                Fixture.status0 (Fixture.observed containerpb.Cluster_RUNNING) _
                (PlainError "secret store unavailable")
                eq_refl eq_refl eq_refl) eq_refl) as (Hout & Htr & _).
  split; [exact Hout|exact Htr].
Defined.

Lemma checkDiffAndPrepareUpdate_payload_witness :
  let s := Fixture.scope_rapid in
  let cluster := Fixture.observed containerpb.Cluster_RUNNING in
  exists needUpdate req update,
    checkDiffAndPrepareUpdate cmp_Equal_exported s cluster = Returns (needUpdate, req)
    /\ containerpb.Update req = Some update
    /\ containerpb.DesiredMasterAuthorizedNetworksConfig update = None.
Proof.
  eexists _, _.
  destruct (checkDiffAndPrepareUpdate_payload cmp_Equal_exported Fixture.scope_rapid
              (Fixture.observed containerpb.Cluster_RUNNING) _ _ eq_refl)
    as (rc & same & update & _ & Hcmp & _ & Hreq & _ & _ & Hnet).
  exists update. split; [reflexivity|]. split; [by rewrite Hreq|].
  rewrite Hnet. injection Hcmp as <-. reflexivity.
Defined.

Lemma CidrBlocks_eqb_refl xs : CidrBlocks_eqb xs xs = true.
Proof.
  induction xs as [|x xs IH]; cbn; [reflexivity|].
  unfold CidrBlock_eqb. by rewrite !String.eqb_refl, IH.
Qed.

Lemma CidrBlocks_eqb_sym xs ys : CidrBlocks_eqb xs ys = CidrBlocks_eqb ys xs.
Proof.
  revert ys. induction xs as [|x xs IH]; intros [|y ys]; cbn; try reflexivity.
  unfold CidrBlock_eqb.
  rewrite IH, (String.eqb_sym (containerpb.DisplayName x)),
    (String.eqb_sym (containerpb.CidrBlock x)).
  reflexivity.
Qed.

(** With one range on the allow-list the self-comparison reaches the
    elements: under [cmp_Equal_unexported] comparison and diff step panic,
    under [cmp_Equal_exported] the payload holds no authorized-networks
    update. *)
Lemma authorized_networks_at_fixpoint_witness :
  let s := Fixture.scope_allowlist in
  let cluster := Fixture.observed_allowlist in
  let desired :=
    convertToSdkMasterAuthorizedNetworksConfig
      (infrav1exp.MasterAuthorizedNetworksConfig_ (GCPManagedControlPlane_Spec s)) in
  containerpb.Cluster_MasterAuthorizedNetworksConfig cluster = desired
  /\ compareMasterAuthorizedNetworksConfig cmp_Equal_unexported desired
       (containerpb.Cluster_MasterAuthorizedNetworksConfig cluster)
     = Panics LibraryPanic
  /\ checkDiffAndPrepareUpdate cmp_Equal_unexported s cluster = Panics LibraryPanic
  /\ exists needUpdate req,
       checkDiffAndPrepareUpdate cmp_Equal_exported s cluster = Returns (needUpdate, req)
       /\ containerpb.DesiredMasterAuthorizedNetworksConfig <$> containerpb.Update req
          = Some None.
Proof.
  split; [reflexivity|].
  destruct (authorized_networks_at_fixpoint cmp_Equal_unexported
              Fixture.scope_allowlist Fixture.observed_allowlist eq_refl)
    as (blocks & Hblocks & Hcmp & _).
  injection Hblocks as <-.
  split; [exact Hcmp|]. split; [reflexivity|].
  eexists _, _. split; reflexivity.
Defined.


Lemma compareMasterAuthorizedNetworksConfig_symmetric_witness :
  let a := convertToSdkMasterAuthorizedNetworksConfig None in
  let b := Some {| containerpb.Enabled := false;
                   containerpb.CidrBlocks := None;
                   containerpb.GcpPublicCidrsAccessEnabled := Some false |} in
  (forall xs ys, cmp_Equal_exported xs ys = cmp_Equal_exported ys xs)
  /\ compareMasterAuthorizedNetworksConfig cmp_Equal_exported a b = Returns true
  /\ compareMasterAuthorizedNetworksConfig cmp_Equal_exported b a = Returns true.
Proof.
  assert (Hsym : forall xs ys, cmp_Equal_exported xs ys = cmp_Equal_exported ys xs).
  { intros [xs|] [ys|]; cbn; try reflexivity. by rewrite CidrBlocks_eqb_sym. }
  split; [exact Hsym|]. split; [reflexivity|].
  rewrite <- (compareMasterAuthorizedNetworksConfig_symmetric cmp_Equal_exported _ _ Hsym).
  reflexivity.
Defined.

Lemma ConvertToSdkNodePool_agrees_with_scope_witness :
  let s := {| MachinePoolScope_MachinePool := Fixture.machinePool (Some 3);
              MachinePoolScope_GCPManagedMachinePool := Fixture.nodePool "pool-a";
              MachinePoolScope_Project := "proj";
              MachinePoolScope_Location := "us-central1";
              MachinePoolScope_ClusterName := "gke" |} in
  exists p,
    ConvertToSdkNodePool ref_DefaultNumRegionsPerZone ref_NormalizeMachineVersion
      ref_ConvertToSdkTaint (MachinePoolScope_GCPManagedMachinePool s)
      (MachinePoolScope_MachinePool s) true = Returns p
    /\ containerpb.NodePool_Name p = "pool-a"
    /\ ManagedMachinePoolScope_NodePoolName s = "pool-a"
    /\ ManagedMachinePoolScope_NodePoolVersion ref_NormalizeMachineVersion s
       = Some (containerpb.Version p).
Proof.
  eexists. split; [reflexivity|].
  pose proof (ConvertToSdkNodePool_agrees_with_scope
                ref_DefaultNumRegionsPerZone ref_NormalizeMachineVersion
                ref_ConvertToSdkTaint
                {| MachinePoolScope_MachinePool := Fixture.machinePool (Some 3);
                   MachinePoolScope_GCPManagedMachinePool := Fixture.nodePool "pool-a";
                   MachinePoolScope_Project := "proj";
                   MachinePoolScope_Location := "us-central1";
                   MachinePoolScope_ClusterName := "gke" |} true _ eq_refl)
    as (Hname & Hversion).
  split; [reflexivity|]. split; [reflexivity|exact Hversion].
Defined.

Lemma ConvertToSdkNodePool_InitialNodeCount_witness :
  exists p,
    ConvertToSdkNodePool ref_DefaultNumRegionsPerZone ref_NormalizeMachineVersion
      ref_ConvertToSdkTaint (Fixture.nodePool "pool-a") (Fixture.machinePool (Some 2)) true
    = Returns p
    /\ 0 < ref_DefaultNumRegionsPerZone
    /\ containerpb.InitialNodeCount p = 0.
Proof.
  eexists. split; [reflexivity|]. split; [reflexivity|].
  pose proof (ConvertToSdkNodePool_InitialNodeCount
                ref_DefaultNumRegionsPerZone ref_NormalizeMachineVersion
                ref_ConvertToSdkTaint (Fixture.nodePool "pool-a")
                (Fixture.machinePool (Some 2)) true 2 _
                eq_refl ltac:(lia) eq_refl eq_refl) as (_ & Hreg).
  destruct (Hreg eq_refl) as (_ & _ & _ & Hsmall). apply Hsmall. reflexivity.
Defined.

Lemma ConvertToSdkNodePools_ignores_surplus_witness :
  let nodePools := [Fixture.nodePool "pool-a"] in
  let machinePools := [Fixture.machinePool (Some 3)] in
  (length nodePools <= length machinePools)%nat
  /\ ConvertToSdkNodePools ref_DefaultNumRegionsPerZone ref_NormalizeMachineVersion
       ref_ConvertToSdkTaint nodePools (machinePools ++ [Fixture.machinePool None]) true
     = ConvertToSdkNodePools ref_DefaultNumRegionsPerZone ref_NormalizeMachineVersion
         ref_ConvertToSdkTaint nodePools machinePools true.
Proof.
  split; [cbn; lia|].
  apply ConvertToSdkNodePools_ignores_surplus. cbn; lia.
Defined.

Lemma ConvertToSdkNodePools_app_witness :
  let a := [Fixture.nodePool "pool-a"] in
  let b := [Fixture.nodePool "pool-b"] in
  let ma := [Fixture.machinePool (Some 3)] in
  let mb := [Fixture.machinePool None] in
  length a = length ma
  /\ ConvertToSdkNodePools ref_DefaultNumRegionsPerZone ref_NormalizeMachineVersion
       ref_ConvertToSdkTaint (a ++ b) (ma ++ mb) true
     = Panics NilPointerDereference.
Proof.
  split; [reflexivity|].
  rewrite (ConvertToSdkNodePools_app ref_DefaultNumRegionsPerZone
             ref_NormalizeMachineVersion ref_ConvertToSdkTaint
             [Fixture.nodePool "pool-a"] [Fixture.nodePool "pool-b"]
             [Fixture.machinePool (Some 3)] [Fixture.machinePool None] true eq_refl).
  reflexivity.
Defined.

Lemma NodePoolFullName_injective_witness :
  let scope pool :=
    {| MachinePoolScope_MachinePool := Fixture.machinePool (Some 3);
       MachinePoolScope_GCPManagedMachinePool := Fixture.nodePool pool;
       MachinePoolScope_Project := "proj";
       MachinePoolScope_Location := "us-central1-a";
       MachinePoolScope_ClusterName := "gke" |} in
  let region (location : string) := "us-central1" in
  ManagedMachinePoolScope_NodePoolLocation region (scope "pool-a")
  = ManagedMachinePoolScope_NodePoolLocation region (scope "pool-b")
  /\ ManagedMachinePoolScope_NodePoolFullName region (scope "pool-a")
     = "projects/proj/locations/us-central1/clusters/gke/nodePools/pool-a"
  /\ ManagedMachinePoolScope_NodePoolFullName region (scope "pool-a")
     <> ManagedMachinePoolScope_NodePoolFullName region (scope "pool-b").
Proof.
  split; [reflexivity|]. split; [reflexivity|].
  intros Heq.
  match type of Heq with
  | ManagedMachinePoolScope_NodePoolFullName ?region ?a
    = ManagedMachinePoolScope_NodePoolFullName _ ?b =>
      destruct (NodePoolFullName_injective region a b eq_refl) as (_ & _ & Hinj)
  end.
  apply Hinj in Heq. discriminate Heq.
Defined.

Lemma createCluster_issues_call_iff_witness :
  let s := Fixture.scope false (Some "1.24") in
  let w := Fixture.not_found [Fixture.nodePool "pool-a"] in
  GetAllNodePools_createCluster w
  = ([Fixture.nodePool "pool-a"], [Fixture.machinePool (Some 3)], None)
  /\ existsb is_RPC_CreateCluster (trace (createCluster_ref s w Fixture.status0)) = true.
Proof.
  split; [reflexivity|].
  apply (createCluster_issues_call_iff
           ref_DefaultNumRegionsPerZone ref_NormalizeMachineVersion ref_ConvertToSdkTaint
           ref_ManagedMachinePoolsPreflightCheck ref_IsRegional
           (Fixture.scope false (Some "1.24"))
           (Fixture.not_found [Fixture.nodePool "pool-a"]) Fixture.status0
           _ _ _ eq_refl).
  repeat split; [discriminate|]. right. eexists. reflexivity.
Defined.

Lemma createCluster_request_witness :
  let s := Fixture.scope true (Some "1.24") in
  let w := Fixture.not_found [] in
  exists req,
    In (RPC_CreateCluster req) (trace (createCluster_ref s w Fixture.status0))
    /\ containerpb.Parent req = "projects/proj/locations/us-central1"
    /\ (containerpb.NodePools <$> containerpb.CreateClusterRequest_Cluster req) = Some None.
Proof.
  eexists. split; [right; left; reflexivity|].
  match goal with
  | |- containerpb.Parent ?r = _ /\ _ =>
      destruct (createCluster_request
                  ref_DefaultNumRegionsPerZone ref_NormalizeMachineVersion
                  ref_ConvertToSdkTaint ref_ManagedMachinePoolsPreflightCheck ref_IsRegional
                  (Fixture.scope true (Some "1.24")) (Fixture.not_found [])
                  Fixture.status0 [] [] None r eq_refl)
        as (Hparent & cluster & Hc & _ & _ & _ & _ & _ & _ & Hpools & _);
        [right; left; reflexivity|]
  end.
  split; [exact Hparent|]. rewrite Hc. cbn. by rewrite Hpools.
Defined.

Lemma Delete_already_deleted_witness :
  let s := Fixture.scope false (Some "1.24") in
  lookup_says_absent s Fixture.wrapped_not_found
  /\ outcome (Delete s Fixture.wrapped_not_found Fixture.status0)
     = Returns (Result_zero, None)
  /\ existsb is_RPC_DeleteCluster
       (trace (Delete s Fixture.wrapped_not_found Fixture.status0)) = false.
Proof.
  assert (H : lookup_says_absent (Fixture.scope false (Some "1.24"))
                Fixture.wrapped_not_found).
  { right. eexists _, _. split; reflexivity. }
  split; [exact H|].
  rewrite (Delete_already_deleted (Fixture.scope false (Some "1.24"))
             Fixture.wrapped_not_found Fixture.status0 H).
  split; reflexivity.
Defined.

Lemma Delete_issues_call_witness :
  let s := Fixture.scope false (Some "1.24") in
  let w := Fixture.found containerpb.Cluster_DEGRADED in
  in_flight (containerpb.Status (Fixture.observed containerpb.Cluster_DEGRADED)) = false
  /\ outcome (Delete s w Fixture.status0) = Returns (Result_zero, None)
  /\ trace (Delete s w Fixture.status0) = delete_attempt s ++ deleting_writes.
Proof.
  split; [reflexivity|].
  pose proof (Delete_issues_call (Fixture.scope false (Some "1.24"))
                (Fixture.found containerpb.Cluster_DEGRADED) Fixture.status0
                (Fixture.observed containerpb.Cluster_DEGRADED) eq_refl eq_refl)
    as (Hout & Htr & _).
  split; [exact Hout|exact Htr].
Defined.

Lemma NewManagedMachinePoolScope_result_witness :
  let params :=
    {| Params_ManagedClusterClient := Some (Handle 1);
       Params_InstanceGroupManagersClient := None;
       Params_Client := Some (Handle 0);
       Params_Cluster := Some (Handle 7);
       Params_MachinePool := Some (Fixture.machinePool (Some 3));
       Params_GCPManagedCluster := Some (GCPManagedCluster (Fixture.scope false None));
       Params_GCPManagedControlPlane :=
         Some (GCPManagedControlPlane_Spec (Fixture.scope false None));
       Params_GCPManagedMachinePool := Some (Fixture.nodePool "pool-a") |} in
  let fresh (mc : infrav1exp.GCPManagedCluster) (c : option handle) :=
    (Some (Handle 2), @None error) in
  let helper (mp : infrav1exp.GCPManagedMachinePool) (c : option handle) :=
    (Some (Handle 3), @None error) in
  let wrap_v (format : string) (err : error) := PlainError format in
  let wrap (err : error) (text : string) := Errorf_w text err in
  exists scope,
    NewManagedMachinePoolScope fresh fresh helper wrap_v wrap params = (Some scope, None)
    /\ struct_mcClient scope = Some (Handle 1)
    /\ struct_migClient scope = Some (Handle 2)
    /\ struct_GCPManagedCluster scope = None.
Proof.
  intros params fresh helper wrap_v wrap.
  eexists. split; [reflexivity|].
  pose proof (NewManagedMachinePoolScope_result fresh fresh helper wrap_v wrap
                params _ eq_refl)
    as (_ & _ & _ & _ & _ & _ & Hnil & Hmc & _).
  split; [apply Hmc; discriminate|]. split; [reflexivity|exact Hnil].
Defined.
